(** * Study-session engagement metrics: aggregation, anomaly detection,
      cross-session analytics and the session life cycle.

    The development embeds the following parts of the backend:
    - [services/nlpService.js]: [_calculateBlinkCompliance],
      [calculateFinalMetrics];
    - [models/Session.js]: the session record and [getPageTimeAnalytics];
    - [models/Metric.js]: [getSessionSummary], [detectAnomalies],
      [getAlerts], [isEngaged], [needsBreak] and the save hook;
    - [routes/metrics.js]: the summary, anomalies, alerts, engagement
      timeline, health and distractions handlers;
    - [routes/analytics.js]: the streak of the dashboard handler and the
      productivity score;
    - [routes/sessions.js]: the handlers that create, end, read and
      delete a session;
    - [routes/interactions.js]: the handler that logs an interaction and
      the streak of the overall analytics;
    - [cleanup.js].

    Values that the code only ever produces as integers (counts, epoch
    milliseconds) are integers ([Z] or [nat]). The other JavaScript
    numbers are read in two ways.
    - In the modules [Session], [NLPService], [Metric] and [Analytics]
      sample values are exact rationals ([Q]). This reading carries the
      properties that do not depend on how a number is rounded: which
      branch is taken, what is counted, which error is thrown, what is
      stored. Its attention rate, a function of two counts, is evaluated
      in binary64 all the same.
    - In the modules [Number], [Session64], [NLPService64], [Metric64]
      and [Analytics64] the same code runs on IEEE-754 doubles (the
      primitive floats), every operation rounded as the code's is, with
      [NaN], the infinities and the signed zeros. The statements about
      the blink compliance, the engagement score, the engagement drops,
      the productivity score, the page times and the statistics of the
      summary are statements about this reading. *)

From Stdlib Require Import ZArith QArith Qround Qabs Qminmax Lia Lqa Floats.
From stdpp Require Import base option list sorting gmap strings.

Local Open Scope Z_scope.

(** ** JavaScript primitives used by the code *)

Module JS.

(** [Math.round]: the nearest integer, halves rounded towards +infinity. *)
Definition Math_round (x : Q) : Z := Qfloor (x + (1 # 2)).

(** [Math.floor]. *)
Definition Math_floor (x : Q) : Z := Qfloor x.

(** [x || 0] on a number that may be absent; [0 || 0] is [0]. *)
Definition or0 (x : option Q) : Q := default 0%Q x.

(** Truthiness of a boolean field that may be absent. *)
Definition truthy (b : option bool) : bool := default false b.

(** Truthiness of a page number that may be absent: [0] is falsy. *)
Definition truthyZ (p : option Z) : option Z :=
  match p with
  | Some 0 => None
  | other => other
  end.

(** Outcome of running a piece of code: a value or a thrown error. *)
Inductive Error := TypeError.

Inductive Completion (A : Type) :=
| Return (a : A)
| Throw (e : Error).
Global Arguments Return {A} a.
Global Arguments Throw {A} e.

Global Instance Completion_ret : MRet Completion := fun _ a => Return a.
Global Instance Completion_bind : MBind Completion :=
  fun _ _ f m => match m with Return a => f a | Throw e => Throw e end.

(** [arr.forEach] with a body that updates local variables. *)
Fixpoint forEach {A S : Type} (body : S -> A -> Completion S)
    (arr : list A) (s : S) : Completion S :=
  match arr with
  | [] => Return s
  | a :: rest => s' ← body s a; forEach body rest s'
  end.

(** [[...new Set(arr)]]: the distinct elements in order of first
    occurrence. *)
Definition Set_from `{EqDecision A} (arr : list A) : list A :=
  foldl (fun acc x => if decide (x ∈ acc) then acc else acc ++ [x]) [] arr.

(** [Math.max(...xs)] and [Math.min(...xs)]; [None] stands for the
    infinite value returned for an empty argument list. *)
Definition Math_max (xs : list Q) : option Q :=
  match xs with
  | [] => None
  | x :: rest => Some (foldl Qmax x rest)
  end.

Definition Math_min (xs : list Q) : option Q :=
  match xs with
  | [] => None
  | x :: rest => Some (foldl Qmin x rest)
  end.

(** Property access [o.f] on a value that may be [undefined]. *)
Definition deref {A : Type} (o : option A) : Completion A :=
  match o with
  | Some a => Return a
  | None => Throw TypeError
  end.

End JS.

(** ** Double-precision arithmetic on counts *)

Module Binary64.

(** A count held in a JavaScript number; exact below 2^53. *)
Definition of_count (n : Z) : float := PrimFloat.of_uint63 (Uint63.of_Z n).

(** The exact value of a finite double; the doubles met here, quotients
    and products of counts, are finite. *)
Definition value (x : float) : Q :=
  match Prim2SF x with
  | S754_finite s m e =>
      ((if s then -1 else 1) * inject_Z (Z.pos m) * Qpower 2 e)%Q
  | _ => 0%Q
  end.

(** [Math.round] of a finite double. *)
Definition Math_round (x : float) : Z := JS.Math_round (value x).

(** [Math.round((count / total) * 100)]. *)
Definition percentage (count total : Z) : Z :=
  Math_round ((of_count count / of_count total) * 100)%float.

End Binary64.

(** ** models/Session.js *)

Module Session.

Inductive InteractionType :=
| highlight | scroll | zoom | page_change | page_turn | webcam
| face_metric | break_start | break_end | click | hover | input
| focus | blur | navigation.

Global Instance InteractionType_eq_dec : EqDecision InteractionType.
Proof. solve_decision. Defined.

(** The [data] payload of an interaction is schemaless; the fields read
    by the aggregation code are listed here, each possibly absent. *)
Record InteractionData := {
  lookingAtScreen : option bool;
  postureScore : option Q;
  blinkRate : option Q;
  hasPhone : option bool;
  from : option Z;
  page : option Z;
  time_spent : option Q;
  duration : option Q
}.

Record Interaction := {
  type : InteractionType;
  timestamp : Z;
  data : option InteractionData
}.

(** The snapshot stored in [metrics]; the second group of fields is
    absent from the snapshot of a session without webcam samples. *)
Record DocumentMetrics := {
  avgPostureScore : Z;
  totalHighlights : nat;
  pageTimeAnalytics : gmap Z Q;
  pagesVisited : nat
}.

Record FinalMetrics := {
  engagementScore : Z;
  attentionRate : Z;
  avgBlinkRate : Z;
  distractionCount : Z;
  durationSeconds : Z;
  totalMetricsRecorded : nat;
  documentMetrics : option DocumentMetrics
}.

Record t := {
  _id : string;
  student_id : string;
  is_active : bool;
  start_time : Z;
  end_time : option Z;
  duration_seconds : Z;
  interactions : list Interaction;
  metrics : option FinalMetrics
}.

Definition is_type (ty : InteractionType) (i : Interaction) : bool :=
  bool_decide (type i = ty).

(** [getPageTimeAnalytics]. *)
Definition getPageTimeAnalytics (this : t) : JS.Completion (gmap Z Q) :=
  let pageTurnEvents :=
    List.filter (fun i => is_type page_turn i || is_type page_change i)
      (interactions this) in
  JS.forEach
    (fun (pageTime : gmap Z Q) change =>
       d ← JS.deref (data change);
       let page := match JS.truthyZ (from d) with
                   | Some p => Some p
                   | None => JS.truthyZ (page d)
                   end in
       let time := match time_spent d with
                   | Some x => if Qeq_bool x 0 then JS.or0 (duration d) else x
                   | None => JS.or0 (duration d)
                   end in
       match page with
       | Some p =>
           mret (<[p := (JS.or0 (pageTime !! p) + time)%Q]> pageTime)
       | None => mret pageTime
       end)
    pageTurnEvents ∅.

End Session.

(** ** services/nlpService.js *)

Module NLPService.
Import Session.

Definition IDEAL_BLINK_RATE_MIN : Q := 15.
Definition IDEAL_BLINK_RATE_MAX : Q := 25.

Module ENGAGEMENT_WEIGHTS.
Definition attentionRate : Q := 5 # 10.
Definition postureScore : Q := 3 # 10.
Definition blinkRateCompliance : Q := 2 # 10.
End ENGAGEMENT_WEIGHTS.

Definition _calculateBlinkCompliance (blinkRate : Q) : Q :=
  if Qle_bool IDEAL_BLINK_RATE_MIN blinkRate
     && Qle_bool blinkRate IDEAL_BLINK_RATE_MAX
  then 100%Q
  else
    let distanceToIdeal :=
      Qmin (Qabs (blinkRate - IDEAL_BLINK_RATE_MIN))
           (Qabs (blinkRate - IDEAL_BLINK_RATE_MAX)) in
    let MAX_DISTANCE := 50%Q in
    let penalty := Qmin (distanceToIdeal / MAX_DISTANCE) 1 in
    Qmax 0 (100 * (1 - penalty))%Q.

(** The local variables updated by the [forEach] over the webcam
    interactions. *)
Record Aggregation := {
  focusedCount : Z;
  postureScoreSum : Q;
  totalBlinkRateSum : Q;
  distractionCount : Z;
  phoneDetectedFlag : bool
}.

Definition aggregate (acc : Aggregation) (metric : Interaction)
    : JS.Completion Aggregation :=
  data ← JS.deref (Session.data metric);
  let focusedCount :=
    if JS.truthy (lookingAtScreen data)
    then focusedCount acc + 1 else focusedCount acc in
  let postureScoreSum :=
    (postureScoreSum acc + JS.or0 (postureScore data))%Q in
  let totalBlinkRateSum :=
    (totalBlinkRateSum acc + JS.or0 (blinkRate data))%Q in
  let '(distractionCount, phoneDetectedFlag) :=
    if JS.truthy (hasPhone data) && negb (phoneDetectedFlag acc)
    then (distractionCount acc + 1, true)
    else if negb (JS.truthy (hasPhone data))
         then (distractionCount acc, false)
         else (distractionCount acc, phoneDetectedFlag acc) in
  mret {| focusedCount := focusedCount;
          postureScoreSum := postureScoreSum;
          totalBlinkRateSum := totalBlinkRateSum;
          distractionCount := distractionCount;
          phoneDetectedFlag := phoneDetectedFlag |}.

(** The values of the local variables before the loop. *)
Definition initial : Aggregation :=
  {| focusedCount := 0; postureScoreSum := 0; totalBlinkRateSum := 0;
     distractionCount := 0; phoneDetectedFlag := false |}.

(** What the function resolves to: the empty object [{}] when the
    session does not exist, a metrics snapshot otherwise. *)
Inductive Result :=
| EmptyObject
| Metrics (m : FinalMetrics).

Definition webcamMetrics (session : Session.t) : list Interaction :=
  List.filter (is_type webcam) (interactions session).

Definition calculateFinalMetrics (db : gmap string Session.t)
    (sessionId : string) : JS.Completion Result :=
  match db !! sessionId with
  | None => mret EmptyObject
  | Some session =>
      let webcamMetrics := webcamMetrics session in
      if (length webcamMetrics =? 0)%nat then
        mret (Metrics {|
          engagementScore := 0;
          attentionRate := 0;
          avgBlinkRate := 0;
          Session.distractionCount := 0;
          durationSeconds := duration_seconds session;
          totalMetricsRecorded := 0;
          documentMetrics := None |})
      else
        let totalMetrics := length webcamMetrics in
        acc ← JS.forEach aggregate webcamMetrics initial;
        let total := inject_Z (Z.of_nat totalMetrics) in
        let attentionRate :=
          Binary64.percentage (focusedCount acc) (Z.of_nat totalMetrics) in
        let avgPostureScore := (postureScoreSum acc / total)%Q in
        let avgBlinkRate :=
          JS.Math_round (totalBlinkRateSum acc / total)%Q in
        let blinkComplianceScore :=
          _calculateBlinkCompliance (inject_Z avgBlinkRate) in
        let engagementScore :=
          JS.Math_round
            (inject_Z attentionRate * ENGAGEMENT_WEIGHTS.attentionRate
             + avgPostureScore * ENGAGEMENT_WEIGHTS.postureScore
             + blinkComplianceScore
               * ENGAGEMENT_WEIGHTS.blinkRateCompliance)%Q in
        let highlights :=
          List.filter (is_type highlight) (interactions session) in
        pageTime ← getPageTimeAnalytics session;
        pageTime' ← getPageTimeAnalytics session;
        mret (Metrics {|
          engagementScore := Z.min 100 (Z.max 0 engagementScore);
          attentionRate := attentionRate;
          avgBlinkRate := avgBlinkRate;
          Session.distractionCount := distractionCount acc;
          durationSeconds := duration_seconds session;
          totalMetricsRecorded := totalMetrics;
          documentMetrics := Some {|
            avgPostureScore := JS.Math_round avgPostureScore;
            totalHighlights := length highlights;
            pageTimeAnalytics := pageTime;
            pagesVisited := size pageTime' |} |})
  end.

End NLPService.

(** ** models/Metric.js *)

Module Metric.

Inductive Emotion :=
| neutral | happy | sad | angry | surprised | confused | focused
| bored | tired.

Inductive PostureQuality := excellent | good | fair | poor | very_poor.

Inductive DistractionType :=
| phone | looking_away | multiple_people | absence | other | none.

(** The levels ['low'], ['medium'], ['high'] and ['critical'] of
    [health.eye_strain_risk]; the first three carry a prefix to keep them
    apart from the severities below. *)
Inductive EyeStrainRisk := risk_low | risk_medium | risk_high | critical.

Global Instance Emotion_eq_dec : EqDecision Emotion.
Proof. solve_decision. Defined.
Global Instance PostureQuality_eq_dec : EqDecision PostureQuality.
Proof. solve_decision. Defined.
Global Instance DistractionType_eq_dec : EqDecision DistractionType.
Proof. solve_decision. Defined.
Global Instance EyeStrainRisk_eq_dec : EqDecision EyeStrainRisk.
Proof. solve_decision. Defined.

(** A stored sample. Nested paths of the schema are written with an
    underscore: [presence_detected] is [presence.detected]. Only the
    paths read by the code below are kept. *)
Record t := {
  session_id : string;
  user_id : string;
  timestamp : Z;
  presence_detected : bool;
  facial_blink_rate : Q;
  facial_emotion : Emotion;
  posture_score : Q;
  posture_quality : PostureQuality;
  distraction_detected : bool;
  distraction_type : DistractionType;
  health_eye_strain_risk : EyeStrainRisk;
  health_fatigue_level : Q;
  health_break_recommended : bool;
  engagement_score : Q
}.

Inductive Severity := low | medium | high.

(** *** Instance method [getAlerts] *)

(** The alert types ['absence'], ['distraction'], ['posture'], ['health']
    and ['break'], and the message texts. *)
Inductive AlertType :=
| alert_absence | alert_distraction | alert_posture | alert_health
| alert_break.

Inductive AlertMessage :=
| Student_not_detected
| Distraction_detected (ty : DistractionType)
| Poor_posture_detected
| High_eye_strain_risk_detected
| Break_recommended.

Record Alert := {
  alert_type : AlertType;
  alert_severity : Severity;
  alert_message : AlertMessage
}.

Definition getAlerts (this : t) : list Alert :=
  let alerts := [] in
  let alerts :=
    if negb (presence_detected this)
    then alerts ++ [{| alert_type := alert_absence; alert_severity := high;
                       alert_message := Student_not_detected |}]
    else alerts in
  let alerts :=
    if distraction_detected this
    then alerts ++ [{| alert_type := alert_distraction;
                       alert_severity := medium;
                       alert_message :=
                         Distraction_detected (distraction_type this) |}]
    else alerts in
  let alerts :=
    if bool_decide (posture_quality this ∈ [poor; very_poor])
    then alerts ++ [{| alert_type := alert_posture; alert_severity := low;
                       alert_message := Poor_posture_detected |}]
    else alerts in
  let alerts :=
    if bool_decide (health_eye_strain_risk this ∈ [risk_high; critical])
    then alerts ++ [{| alert_type := alert_health; alert_severity := high;
                       alert_message := High_eye_strain_risk_detected |}]
    else alerts in
  let alerts :=
    if health_break_recommended this
    then alerts ++ [{| alert_type := alert_break; alert_severity := medium;
                       alert_message := Break_recommended |}]
    else alerts in
  alerts.

(** *** Queries on the collection (a list in storage order) *)

Definition find (collection : list t) (sessionId : string) : list t :=
  List.filter (fun m => bool_decide (session_id m = sessionId)) collection.

(** [findOne({ session_id }).sort({ timestamp: -1 })]: a sample with the
    greatest timestamp, the first such in storage order. *)
Definition findLatest (collection : list t) (sessionId : string)
    : option t :=
  foldl (fun best m =>
           match best with
           | None => Some m
           | Some b => if timestamp b <? timestamp m then Some m else Some b
           end)
        None (find collection sessionId).

(** *** Static [getSessionSummary] *)

Record Summary := {
  total_datapoints : nat;
  duration_minutes : Q;
  avg_engagement : Q;
  max_engagement : option Q;
  min_engagement : option Q;
  presence_rate : Q;
  distraction_count : nat;
  distraction_rate : Q;
  distraction_types : list DistractionType;
  avg_posture_score : Q;
  poor_posture_count : nat;
  avg_blink_rate : Q;
  eye_strain_alerts : nat;
  avg_fatigue : Q;
  emotion_distribution : list (Emotion * Z);
  engagement_timeline : list (Z * Q)
}.

Definition sum (f : t -> Q) (metrics : list t) : Q :=
  foldl (fun s m => (s + f m)%Q) 0%Q metrics.

Definition count (p : t -> bool) (metrics : list t) : nat :=
  length (List.filter p metrics).

Definition Qnat (n : nat) : Q := inject_Z (Z.of_nat n).

(** [acc[k] = (acc[k] || 0) + 1] on an object used as a counter table. *)
Fixpoint increment (k : Emotion) (acc : list (Emotion * Z))
    : list (Emotion * Z) :=
  match acc with
  | [] => [(k, 1)]
  | (k', n) :: rest =>
      if decide (k' = k) then (k', n + 1) :: rest
      else (k', n) :: increment k rest
  end.

Definition getSessionSummary (collection : list t) (sessionId : string)
    : option Summary :=
  let metrics := find collection sessionId in
  match metrics with
  | [] => None
  | first :: _ =>
      let n := Qnat (length metrics) in
      let last_ := List.last metrics first in
      Some {|
        total_datapoints := length metrics;
        duration_minutes :=
          (inject_Z (timestamp last_ - timestamp first) / 60000)%Q;
        avg_engagement := (sum engagement_score metrics / n)%Q;
        max_engagement := JS.Math_max (engagement_score <$> metrics);
        min_engagement := JS.Math_min (engagement_score <$> metrics);
        presence_rate :=
          (Qnat (count presence_detected metrics) / n * 100)%Q;
        distraction_count := count distraction_detected metrics;
        distraction_rate :=
          (Qnat (count distraction_detected metrics) / n * 100)%Q;
        distraction_types :=
          JS.Set_from
            (distraction_type <$> List.filter distraction_detected metrics);
        avg_posture_score := (sum posture_score metrics / n)%Q;
        poor_posture_count :=
          count (fun m => bool_decide (posture_quality m ∈ [poor; very_poor]))
                metrics;
        avg_blink_rate := (sum facial_blink_rate metrics / n)%Q;
        eye_strain_alerts :=
          count (fun m => bool_decide
                            (health_eye_strain_risk m ∈ [risk_high; critical]))
                metrics;
        avg_fatigue := (sum health_fatigue_level metrics / n)%Q;
        emotion_distribution :=
          foldl (fun acc m => increment (facial_emotion m) acc) [] metrics;
        engagement_timeline :=
          (fun m => (timestamp m, engagement_score m)) <$> metrics
      |}
  end.

(** *** Static [detectAnomalies] *)

Inductive AnomalyType := engagement_drop | prolonged_absence.

Global Instance AnomalyType_eq_dec : EqDecision AnomalyType.
Proof. solve_decision. Defined.

(** The [details] text; the text of an engagement drop is determined by
    the drop, which stands for it. *)
Inductive Details :=
| Engagement_dropped_by (drop : Q)
| Student_absent_for_extended_period.

Record Anomaly := {
  anomaly_type : AnomalyType;
  anomaly_timestamp : Z;
  severity : Severity;
  details : Details
}.

(** Body of [for (let i = 1; i < metrics.length; i++)]. *)
Definition dropStep (metrics : list t) (anomalies : list Anomaly) (i : nat)
    : JS.Completion (list Anomaly) :=
  prev ← JS.deref (metrics !! (i - 1)%nat);
  curr ← JS.deref (metrics !! i);
  let drop := (engagement_score prev - engagement_score curr)%Q in
  if Qlt_le_dec 30 drop
  then mret (anomalies ++
               [{| anomaly_type := engagement_drop;
                   anomaly_timestamp := timestamp curr;
                   severity := if Qlt_le_dec 50 drop then high else medium;
                   details := Engagement_dropped_by drop |}])
  else mret anomalies.

(** Body of [for (const metric of metrics)]; the state is the pair of
    [absenceStreak] and [anomalies]. *)
Definition absenceStep (st : Z * list Anomaly) (metric : t)
    : JS.Completion (Z * list Anomaly) :=
  let '(absenceStreak, anomalies) := st in
  if negb (presence_detected metric) then
    let absenceStreak := absenceStreak + 1 in
    if absenceStreak =? 5
    then mret (absenceStreak,
               anomalies ++
                 [{| anomaly_type := prolonged_absence;
                     anomaly_timestamp := timestamp metric;
                     severity := high;
                     details := Student_absent_for_extended_period |}])
    else mret (absenceStreak, anomalies)
  else mret (0, anomalies).

Definition detectAnomalies (collection : list t) (sessionId : string)
    : JS.Completion (list Anomaly) :=
  let metrics := find collection sessionId in
  anomalies ←
    JS.forEach (dropStep metrics) (seq 1 (length metrics - 1)) [];
  st ← JS.forEach absenceStep metrics (0, anomalies);
  mret st.2.

End Metric.

(** ** HTTP responses *)

Module Http.

(** [res.status(code).json(body)]; [res.json(body)] answers with 200.
    The body is kept as the fields the handlers set: [success],
    [message], [count] and the payload [data]. *)
Record Response (A : Type) := {
  status : Z;
  success : bool;
  message : option string;
  count : option nat;
  data : option A
}.
Global Arguments status {A} _.
Global Arguments success {A} _.
Global Arguments message {A} _.
Global Arguments count {A} _.
Global Arguments data {A} _.

Definition failure {A : Type} (code : Z) (msg : string) : Response A :=
  {| status := code; success := false; message := Some msg;
     count := None; data := None |}.

(** A success answer is one with a 2xx status. *)
Definition is_success {A : Type} (r : Response A) : bool :=
  (200 <=? status r) && (status r <? 300).

End Http.

(** ** routes/metrics.js *)

Module MetricsRoutes.
Import Http.

(** [GET /session/:sessionId/summary]. The argument [session] is the
    result of the ownership query [Session.findOne] of the handler. *)
Definition get_summary (session : option Session.t)
    (collection : list Metric.t) (sessionId : string)
    : Response Metric.Summary :=
  match session with
  | None => failure 404 "Session not found or unauthorized"
  | Some _ =>
      match Metric.getSessionSummary collection sessionId with
      | None => failure 404 "No metrics found for this session"
      | Some summary =>
          {| status := 200; success := true; message := None;
             count := None; data := Some summary |}
      end
  end.

(** [GET /session/:sessionId/anomalies]. *)
Definition get_anomalies (collection : list Metric.t) (sessionId : string)
    : Response (list Metric.Anomaly) :=
  match Metric.detectAnomalies collection sessionId with
  | JS.Return anomalies =>
      {| status := 200; success := true; message := None;
         count := Some (length anomalies); data := Some anomalies |}
  | JS.Throw _ => failure 500 "Failed to detect anomalies"
  end.

(** [GET /session/:sessionId/alerts]; the [timestamp] field of the
    answer for an existing sample is left out. *)
Definition get_alerts (collection : list Metric.t) (sessionId : string)
    : Response (list Metric.Alert) :=
  match Metric.findLatest collection sessionId with
  | None =>
      {| status := 200; success := true; message := None;
         count := Some 0%nat; data := Some [] |}
  | Some latestMetric =>
      let alerts := Metric.getAlerts latestMetric in
      {| status := 200; success := true; message := None;
         count := Some (length alerts); data := Some alerts |}
  end.

End MetricsRoutes.

(** ** routes/analytics.js *)

Module Analytics.
Import Http.

Definition MS_PER_DAY : Z := 1000 * 60 * 60 * 24.

(** *** Streak of [GET /analytics]

    Dates are epoch milliseconds. The server's local time is taken at a
    fixed offset [tz] (in milliseconds) from UTC, so that every local
    day lasts [MS_PER_DAY]. *)
Section Streak.
Variable tz : Z.

(** [d.setHours(0, 0, 0, 0)]. *)
Definition setHours0 (d : Z) : Z := d - (d + tz) `mod` MS_PER_DAY.

(** [d.setDate(d.getDate() - 1)]. *)
Definition previousDay (d : Z) : Z := d - MS_PER_DAY.

(** [Array.from(set).sort((a, b) => b - a)]. *)
Definition sortDescending (l : list Z) : list Z :=
  merge_sort (flip Z.le) l.

(** The [for ... of] loop with its [continue] and [break]. *)
Fixpoint streakLoop (sortedUniqueDates : list Z)
    (currentStreak : Z) (currentDate : Z) : Z :=
  match sortedUniqueDates with
  | [] => currentStreak
  | sessionDate :: rest =>
      let dayDiff :=
        (inject_Z (currentDate - sessionDate) / inject_Z MS_PER_DAY)%Q in
      if Qlt_le_dec dayDiff 0 then
        streakLoop rest currentStreak currentDate
      else if Qeq_bool dayDiff 0 || Qeq_bool dayDiff 1 then
        streakLoop rest (currentStreak + 1) (previousDay currentDate)
      else currentStreak
  end.

(** [now] is the time of the request, [allSessions] the start times
    of the user's completed sessions as the query returns them. *)
Definition streak (now : Z) (allSessions : list Z) : Z :=
  let today := setHours0 now in
  let uniqueDates := JS.Set_from (setHours0 <$> allSessions) in
  let sortedUniqueDates := sortDescending uniqueDates in
  let currentStreak := streakLoop sortedUniqueDates 0 today in
  match sortedUniqueDates with
  | latestSessionDate :: _ =>
      let diffFromToday :=
        (inject_Z (today - latestSessionDate) / inject_Z MS_PER_DAY)%Q in
      if Qlt_le_dec 1 diffFromToday then 0 else currentStreak
  | [] => 0
  end.
End Streak.

(** *** [GET /productivity-score] *)

Inductive Grade := A_plus | A | A_minus | B | C | D.

(** The fields of a session document read by the handler. *)
Record SessionTimes := {
  start_time : option Z;
  end_time : option Z
}.

(** The single group of the [Metric.aggregate] pipeline. *)
Record EngagementData := {
  avg_engagement : option Q;
  presence_rate : option Q;
  distraction_rate : option Q
}.

Record SubScores := {
  sessionScore : Q;
  timeScore : Q;
  engagementScore : Q;
  presenceScore : Q;
  focusScore : Q;
  activityScore : Q
}.

Record Components := {
  session_consistency : Z;
  study_time : Z;
  engagement : Z;
  presence : Z;
  focus : Z;
  activity : Z
}.

Record ProductivityScore := {
  overall_score : Z;
  grade : Grade;
  components : Components
}.

Definition totalTime (sessions : list SessionTimes) : Q :=
  foldl (fun sum s =>
           match end_time s, start_time s with
           | Some e, Some b => (sum + inject_Z (e - b) / 60000)%Q
           | _, _ => sum
           end) 0%Q sessions.

Definition subScores (days : Z) (sessions : list SessionTimes)
    (engagementData : option EngagementData) (highlights annotations : nat)
    : SubScores :=
  let totalSessions := Metric.Qnat (length sessions) in
  let totalTime := totalTime sessions in
  let days := inject_Z days in
  {| sessionScore := Qmin 100 (totalSessions / days * 20);
     timeScore := Qmin 100 (totalTime / (days * 60) * 100);
     engagementScore := JS.or0 (engagementData ≫= avg_engagement);
     presenceScore := (JS.or0 (engagementData ≫= presence_rate) * 100)%Q;
     focusScore :=
       Qmax 0 (100 - JS.or0 (engagementData ≫= distraction_rate) * 100);
     activityScore :=
       Qmin 100 (Metric.Qnat (highlights + annotations) / days * 5) |}.

Definition overall (s : SubScores) : Q :=
  (sessionScore s * (15 # 100) + timeScore s * (20 # 100)
   + engagementScore s * (25 # 100) + presenceScore s * (15 # 100)
   + focusScore s * (15 # 100) + activityScore s * (10 # 100))%Q.

Definition gradeOf (overall_score : Q) : Grade :=
  if Qle_bool 90 overall_score then A_plus
  else if Qle_bool 85 overall_score then A
  else if Qle_bool 80 overall_score then A_minus
  else if Qle_bool 70 overall_score then B
  else if Qle_bool 60 overall_score then C
  else D.

(** [days] is [parseInt(period)] for a numeric [period]; the three
    database results are arguments. *)
Definition get_productivity_score (days : Z) (sessions : list SessionTimes)
    (engagementData : option EngagementData) (highlights annotations : nat)
    : Response ProductivityScore :=
  if days <=? 0 then
    {| status := 400; success := false;
       message := Some "Period must be a positive number.";
       count := None; data := None |}
  else
    let s := subScores days sessions engagementData highlights annotations in
    let overall_score := overall s in
    {| status := 200; success := true; message := None; count := None;
       data := Some {|
         overall_score := JS.Math_round overall_score;
         grade := gradeOf overall_score;
         components := {|
           session_consistency := JS.Math_round (sessionScore s);
           study_time := JS.Math_round (timeScore s);
           engagement := JS.Math_round (engagementScore s);
           presence := JS.Math_round (presenceScore s);
           focus := JS.Math_round (focusScore s);
           activity := JS.Math_round (activityScore s) |} |} |}.

End Analytics.

(** ** routes/sessions.js *)

Module SessionsRoutes.
Import Session.

(** The [session] object of the answer to a successful end request. *)
Record Ended := {
  ended_id : string;
  ended_duration_seconds : Z;
  ended_end_time : Z
}.

(** [PATCH /:sessionId/end]. The collection of sessions is keyed by
    [_id]; [user] is [req.user.id] and [now] the value of [new Date()].
    The handler returns the collection after the request with its
    answer. *)
Definition patch_end (db : gmap string Session.t)
    (sessionId user : string) (now : Z)
    : gmap string Session.t * Http.Response Ended :=
  match db !! sessionId with
  | None => (db, Http.failure 404 "Session not found")
  | Some session =>
      if negb (bool_decide (student_id session = user)) then
        (db, Http.failure 403 "Access denied")
      else if negb (is_active session) then
        (db, Http.failure 400 "Session is already ended")
      else
        let end_time := now in
        let duration_seconds :=
          JS.Math_floor
            (inject_Z (end_time - start_time session) / 1000)%Q in
        let session :=
          {| _id := _id session;
             student_id := student_id session;
             is_active := false;
             start_time := start_time session;
             end_time := Some end_time;
             duration_seconds := duration_seconds;
             interactions := interactions session;
             metrics := metrics session |} in
        (<[_id session := session]> db,
         {| Http.status := 200; Http.success := true;
            Http.message := Some "Session ended successfully";
            Http.count := None;
            Http.data := Some {| ended_id := _id session;
                            ended_duration_seconds := duration_seconds;
                            ended_end_time := end_time |} |})
  end.

(** An end request: session id, requesting user, time of the request. *)
Record EndRequest := {
  req_sessionId : string;
  req_user : string;
  req_now : Z
}.

(** Requests served one after the other; the answers are returned in
    the order of the requests. *)
Fixpoint serve (db : gmap string Session.t) (reqs : list EndRequest)
    : gmap string Session.t * list (Http.Response Ended) :=
  match reqs with
  | [] => (db, [])
  | r :: rest =>
      let '(db', resp) :=
        patch_end db (req_sessionId r) (req_user r) (req_now r) in
      let '(db'', resps) := serve db' rest in
      (db'', resp :: resps)
  end.

(** The number of requests for [sessionId] answered with 200. *)
Definition transitions (sessionId : string) (reqs : list EndRequest)
    (resps : list (Http.Response Ended)) : nat :=
  length (List.filter
            (fun '(r, resp) =>
               bool_decide (req_sessionId r = sessionId)
               && (Http.status resp =? 200))
            (zip reqs resps)).

(** Every document is stored under its own [_id]. *)
Definition keyed (db : gmap string Session.t) : Prop :=
  ∀ k s, db !! k = Some s → _id s = k.

(** The session [sessionId] exists and is no longer active. *)
Definition ended (db : gmap string Session.t) (sessionId : string) : Prop :=
  ∃ s, db !! sessionId = Some s ∧ is_active s = false.

End SessionsRoutes.

(** ** The properties of the specification, in its own words *)

Module Spec.
Import Session.

(** *** Session aggregation *)

(** The webcam samples of a session: the payloads of its webcam
    interactions. *)
Definition samples (session : Session.t) : list InteractionData :=
  omap data (NLPService.webcamMetrics session).

(** Every interaction whose payload is read carries one. *)
Definition payloads_present (session : Session.t) : Prop :=
  Forall (fun i => type i ∈ [webcam; page_turn; page_change] →
                   is_Some (data i))
         (interactions session).

Definition Qsum (l : list Q) : Q := foldr Qplus 0%Q l.

Definition mean (l : list Q) : Q :=
  (Qsum l / inject_Z (Z.of_nat (length l)))%Q.

Definition focused (ds : list InteractionData) : nat :=
  length (List.filter (fun d => JS.truthy (lookingAtScreen d)) ds).

Definition attentionRate (ds : list InteractionData) : Z :=
  JS.Math_round
    (100 * inject_Z (Z.of_nat (focused ds))
     / inject_Z (Z.of_nat (length ds)))%Q.

Definition avgPostureScore (ds : list InteractionData) : Q :=
  mean ((fun d => JS.or0 (postureScore d)) <$> ds).

Definition avgBlinkRate (ds : list InteractionData) : Z :=
  JS.Math_round (mean ((fun d => JS.or0 (blinkRate d)) <$> ds)).

Definition clamp (lo hi x : Z) : Z := Z.min hi (Z.max lo x).

(** Blink-rate compliance: 100 inside [15, 25], otherwise
    [max(0, 100 * (1 - min(dist, 50) / 50))]. *)
Definition dist (b : Q) : Q := Qmin (Qabs (b - 15)) (Qabs (b - 25)).

Definition compliance (b : Q) : Q :=
  if Qle_bool 15 b && Qle_bool b 25 then 100%Q
  else Qmax 0 (100 * (1 - Qmin (dist b) 50 / 50))%Q.

(** The composite score for a given attention rate. *)
Definition engagementScoreOf (attention : Z) (ds : list InteractionData)
    : Z :=
  clamp 0 100
    (JS.Math_round
       (inject_Z attention * (5 # 10)
        + avgPostureScore ds * (3 # 10)
        + compliance (inject_Z (avgBlinkRate ds)) * (2 # 10))%Q).

Definition engagementScore (ds : list InteractionData) : Z :=
  engagementScoreOf (attentionRate ds) ds.

(** Position [i] of [l] is a rising edge: the condition holds there and
    did not hold at the position before ([false] before the first). *)
Definition risingEdge (l : list bool) (i : nat) : bool :=
  default false (l !! i)
  && negb (match i with
           | O => false
           | S j => default false (l !! j)
           end).

Definition risingEdges (l : list bool) : nat :=
  length (List.filter (risingEdge l) (seq 0 (length l))).

Definition hasPhoneSequence (ds : list InteractionData) : list bool :=
  (fun d => JS.truthy (hasPhone d)) <$> ds.

(** *** Anomalies *)

Definition absent (l : list Metric.t) (i : nat) : bool :=
  match l !! i with
  | Some m => negb (Metric.presence_detected m)
  | None => false
  end.

(** Position [i] holds the fifth sample of a maximal run of absent
    samples: positions [i-4 .. i] are absent and the run starts at
    [i-4]. *)
Definition fifthOfAbsenceRun (l : list Metric.t) (i : nat) : bool :=
  (4 <=? i)%nat
  && forallb (fun k => absent l (i - k)) [4; 3; 2; 1; 0]%nat
  && negb ((5 <=? i)%nat && absent l (i - 5)).

Definition prolongedAbsenceAt (m : Metric.t) : Metric.Anomaly :=
  {| Metric.anomaly_type := Metric.prolonged_absence;
     Metric.anomaly_timestamp := Metric.timestamp m;
     Metric.severity := Metric.high;
     Metric.details := Metric.Student_absent_for_extended_period |}.

(** The anomaly of position [i], if that position is the fifth of a
    run. *)
Definition prolongedAbsenceOf (l : list Metric.t) (i : nat)
    : option Metric.Anomaly :=
  if fifthOfAbsenceRun l i then prolongedAbsenceAt <$> l !! i else None.

Definition prolongedAbsences (l : list Metric.t) : list Metric.Anomaly :=
  omap (prolongedAbsenceOf l) (seq 0 (length l)).

(** The adjacent pairs [(prev, curr)] of a sequence, in order. *)
Definition adjacentPairs (l : list Metric.t) : list (Metric.t * Metric.t) :=
  zip l (drop 1 l).

Definition engagementDropOf (pair : Metric.t * Metric.t)
    : option Metric.Anomaly :=
  let '(prev, curr) := pair in
  let drop :=
    (Metric.engagement_score prev - Metric.engagement_score curr)%Q in
  if Qlt_le_dec 30 drop
  then Some {| Metric.anomaly_type := Metric.engagement_drop;
               Metric.anomaly_timestamp := Metric.timestamp curr;
               Metric.severity :=
                 if Qlt_le_dec 50 drop then Metric.high else Metric.medium;
               Metric.details := Metric.Engagement_dropped_by drop |}
  else None.

Definition engagementDrops (l : list Metric.t) : list Metric.Anomaly :=
  omap engagementDropOf (adjacentPairs l).

Definition ofType (ty : Metric.AnomalyType) (l : list Metric.Anomaly)
    : list Metric.Anomaly :=
  List.filter (fun a => bool_decide (Metric.anomaly_type a = ty)) l.

(** *** Productivity score *)

(** Session frequency against a target of [target] sessions per day,
    capped at 100. *)
Definition sessionFrequency (target : Q) (sessions : nat) (days : Z) : Q :=
  Qmin 100 (inject_Z (Z.of_nat sessions) / inject_Z days / target * 100)%Q.

Definition normalized (x : Q) : Prop := (0 <= x)%Q ∧ (x <= 100)%Q.

(** The aggregated rates are in the ranges of the data model: the average
    engagement in [0, 100], the presence and distraction rates in
    [0, 1]. *)
Definition rates_in_range (e : option Analytics.EngagementData) : Prop :=
  ∀ d, e = Some d →
    (∀ x, Analytics.avg_engagement d = Some x → (0 <= x)%Q ∧ (x <= 100)%Q)
    ∧ (∀ x, Analytics.presence_rate d = Some x → (0 <= x)%Q ∧ (x <= 1)%Q)
    ∧ (∀ x, Analytics.distraction_rate d = Some x → (0 <= x)%Q ∧ (x <= 1)%Q).

(** No session ends before it starts. *)
Definition times_ordered (sessions : list Analytics.SessionTimes) : Prop :=
  Forall (fun s => ∀ b e, Analytics.start_time s = Some b →
                          Analytics.end_time s = Some e → b ≤ e)
         sessions.

End Spec.

(** ** Recursive forms of the counting loops, used in the proofs *)

Module Loops.

(** Rising edges of [l] when the condition was [prev] just before. *)
Fixpoint edgesFrom (prev : bool) (l : list bool) : nat :=
  match l with
  | [] => 0
  | b :: rest => ((if b && negb prev then 1 else 0) + edgesFrom b rest)%nat
  end.

(** Rising edge at position [i] when the condition was [prev] before
    position 0. *)
Definition risingEdgeFrom (prev : bool) (l : list bool) (i : nat) : bool :=
  default false (l !! i)
  && negb (match i with
           | O => prev
           | S j => default false (l !! j)
           end).

(** The number of absent samples at the head of [l]. *)
Fixpoint leadingAbsent (l : list Metric.t) : nat :=
  match l with
  | [] => 0
  | m :: rest =>
      if Metric.presence_detected m then 0%nat else S (leadingAbsent rest)
  end.

(** The sample at position [j] of [q] is an absent one. *)
Definition absentAt (q : list Metric.t) (j : nat) : bool :=
  match q !! j with
  | Some m => negb (Metric.presence_detected m)
  | None => false
  end.

(** The engagement drop between positions [i - 1] and [i], if any. *)
Definition dropAt (metrics : list Metric.t) (i : nat)
    : option Metric.Anomaly :=
  prev ← metrics !! (i - 1)%nat;
  curr ← metrics !! i;
  Spec.engagementDropOf (prev, curr).

End Loops.

(** ** Sample data *)

Module Examples.
Import Session.

Definition webcamSample (look phone : bool) (posture blink : Q)
    : Interaction :=
  {| type := webcam; timestamp := 0;
     data := Some {| lookingAtScreen := Some look;
                     postureScore := Some posture;
                     blinkRate := Some blink;
                     hasPhone := Some phone;
                     from := None; page := None;
                     time_spent := None; duration := None |} |}.

(** A webcam sample that only reports whether a phone is seen. *)
Definition phoneSample (phone : option bool) : Interaction :=
  {| type := webcam; timestamp := 0;
     data := Some {| lookingAtScreen := None; postureScore := None;
                     blinkRate := None; hasPhone := phone;
                     from := None; page := None;
                     time_spent := None; duration := None |} |}.

Definition pageTurn (p : Z) (spent : Q) : Interaction :=
  {| type := page_turn; timestamp := 0;
     data := Some {| lookingAtScreen := None; postureScore := None;
                     blinkRate := None; hasPhone := None;
                     from := Some p; page := None;
                     time_spent := Some spent; duration := None |} |}.

(** [looking] samples that look at the screen followed by [away] that do
    not, all with posture score 5 and blink rate 20. *)
Definition attentionSamples (looking away : nat) : list Interaction :=
  replicate looking (webcamSample true false 5 20)
  ++ replicate away (webcamSample false false 5 20).

Definition sessionOf (active : bool) (l : list Interaction) : Session.t :=
  {| _id := "s1"; student_id := "u1"; is_active := active;
     start_time := 0; end_time := if active then None else Some 60000;
     duration_seconds := if active then 0 else 60;
     interactions := l; metrics := None |}.

Definition metricOf (ts : Z) (present : bool) (score : Q) : Metric.t :=
  {| Metric.session_id := "s1"; Metric.user_id := "u1";
     Metric.timestamp := ts;
     Metric.presence_detected := present;
     Metric.facial_blink_rate := 18;
     Metric.facial_emotion := Metric.neutral;
     Metric.posture_score := 70;
     Metric.posture_quality := Metric.good;
     Metric.distraction_detected := false;
     Metric.distraction_type := Metric.none;
     Metric.health_eye_strain_risk := Metric.risk_low;
     Metric.health_fatigue_level := 0;
     Metric.health_break_recommended := false;
     Metric.engagement_score := score |}.

Definition absentSamples (timestamps : list Z) : list Metric.t :=
  (fun ts => metricOf ts false 70) <$> timestamps.

Definition completed (n : nat) : list Analytics.SessionTimes :=
  replicate n {| Analytics.start_time := Some 0;
                 Analytics.end_time := Some 3600000 |}.

End Examples.

(** ** models/Metric.js: instance methods and the save hook *)

Module MetricHooks.
Import Metric.

(** [x > y] on numbers. *)
Definition gt (x y : Q) : bool := if Qlt_le_dec y x then true else false.

(** [isEngaged]. *)
Definition isEngaged (this : t) : bool :=
  Qle_bool 60 (engagement_score this)
  && presence_detected this
  && negb (distraction_detected this).

(** [needsBreak]. *)
Definition needsBreak (this : t) : bool :=
  health_break_recommended this
  || bool_decide (health_eye_strain_risk this = critical)
  || gt (health_fatigue_level this) 70.

(** The [pre('save')] hook. [time_since_break] is the value of the path
    [health.time_since_break] of the document, which the record of a
    sample does not keep. *)
Definition preSave (time_since_break : Q) (this : t) : t :=
  let engagement_score' := Qmax 0 (Qmin 100 (engagement_score this)) in
  let break_recommended' :=
    if gt time_since_break 25
       || bool_decide (health_eye_strain_risk this = critical)
       || gt (health_fatigue_level this) 75
    then true
    else health_break_recommended this in
  {| session_id := session_id this;
     user_id := user_id this;
     timestamp := timestamp this;
     presence_detected := presence_detected this;
     facial_blink_rate := facial_blink_rate this;
     facial_emotion := facial_emotion this;
     posture_score := posture_score this;
     posture_quality := posture_quality this;
     distraction_detected := distraction_detected this;
     distraction_type := distraction_type this;
     health_eye_strain_risk := health_eye_strain_risk this;
     health_fatigue_level := health_fatigue_level this;
     health_break_recommended := break_recommended';
     engagement_score := engagement_score' |}.

End MetricHooks.

(** ** Objects used as counter tables *)

Module Counter.
Section Counter.
Context {K : Type} `{EqDecision K}.

(** [acc[k] = (acc[k] || 0) + 1]; a new key is added after the keys
    present. *)
Fixpoint increment (k : K) (acc : list (K * Z)) : list (K * Z) :=
  match acc with
  | [] => [(k, 1)]
  | (k', n) :: rest =>
      if decide (k' = k) then (k', n + 1) :: rest
      else (k', n) :: increment k rest
  end.

(** [acc[k] || 0]. *)
Fixpoint get (k : K) (acc : list (K * Z)) : Z :=
  match acc with
  | [] => 0
  | (k', n) :: rest => if decide (k' = k) then n else get k rest
  end.

(** The sum of the counters. *)
Definition total (acc : list (K * Z)) : Z := foldr Z.add 0 (acc.*2).

End Counter.
End Counter.

(** ** routes/metrics.js: timeline, health and distraction analysis *)

Module MetricsInsights.
Import Metric.

(** [arr.map((m, index) => ...)] with a callback that may throw;
    [index] is the index of the head of [arr]. *)
Fixpoint mapFrom {A B : Type} (callback : A → nat → JS.Completion B)
    (index : nat) (arr : list A) : JS.Completion (list B) :=
  match arr with
  | [] => mret []
  | m :: rest =>
      b ← callback m index;
      bs ← mapFrom callback (S index) rest;
      mret (b :: bs)
  end.

(** *** [GET /session/:sessionId/engagement-timeline] *)

(** The events ['absence'], ['distraction'], ['poor_posture'],
    ['engagement_spike'] and ['engagement_drop']. *)
Inductive Event :=
| ev_absence | ev_distraction | ev_poor_posture | ev_engagement_spike
| ev_engagement_drop.

Global Instance Event_eq_dec : EqDecision Event.
Proof. solve_decision. Defined.

Record TimelineEntry := {
  entry_timestamp : Z;
  entry_engagement_score : Q;
  entry_emotion : Emotion;
  entry_events : list Event
}.

Definition timelineEntry (metrics : list t) (m : t) (index : nat)
    : JS.Completion TimelineEntry :=
  let events := [] in
  let events :=
    if negb (presence_detected m) then events ++ [ev_absence] else events in
  let events :=
    if distraction_detected m then events ++ [ev_distraction] else events in
  let events :=
    if MetricHooks.gt 50 (posture_score m)
    then events ++ [ev_poor_posture] else events in
  events ←
    (if (0 <? index)%nat then
       prev ← JS.deref (metrics !! (index - 1)%nat);
       let prevScore := engagement_score prev in
       let diff := (engagement_score m - prevScore)%Q in
       let events :=
         if MetricHooks.gt diff 20
         then events ++ [ev_engagement_spike] else events in
       let events :=
         if MetricHooks.gt (-20) diff
         then events ++ [ev_engagement_drop] else events in
       mret events
     else mret events);
  mret {| entry_timestamp := timestamp m;
          entry_engagement_score := engagement_score m;
          entry_emotion := facial_emotion m;
          entry_events := events |}.

(** The argument [metrics] is the result of the handler's query, the
    samples of the session sorted by timestamp. *)
Definition get_engagement_timeline (metrics : list t)
    : Http.Response (list TimelineEntry) :=
  match mapFrom (timelineEntry metrics) 0 metrics with
  | JS.Return timeline =>
      {| Http.status := 200; Http.success := true; Http.message := None;
         Http.count := Some (length timeline);
         Http.data := Some timeline |}
  | JS.Throw _ => Http.failure 500 "Failed to fetch timeline"
  end.

(** *** [GET /health/:sessionId] *)

Record Health := {
  avg_blink_rate : Q;
  eye_strain_alerts : nat;
  posture_issues : nat;
  fatigue_timeline : list (Z * Q);
  health_score : Z
}.

(** [healthMetrics] is the result of the handler's query. The average
    of an empty list of blink rates is [NaN], which [|| 0] turns into
    [0]. *)
Definition get_health (healthMetrics : list t) : Http.Response Health :=
  let blinkRates :=
    List.filter (fun b => MetricHooks.gt b 0)
      (facial_blink_rate <$> healthMetrics) in
  let avgBlinkRate :=
    match blinkRates with
    | [] => 0%Q
    | _ =>
        let avg :=
          (foldl Qplus 0 blinkRates / Qnat (length blinkRates))%Q in
        if Qeq_bool avg 0 then 0%Q else avg
    end in
  let eyeStrainAlerts :=
    length
      (List.filter
         (fun m =>
            bool_decide (health_eye_strain_risk m = risk_high)
            || bool_decide (health_eye_strain_risk m = critical))
         healthMetrics) in
  let postureIssues :=
    length (List.filter (fun m => MetricHooks.gt 50 (posture_score m))
              healthMetrics) in
  let fatigueData :=
    (fun m => (timestamp m, health_fatigue_level m)) <$> healthMetrics in
  {| Http.status := 200; Http.success := true; Http.message := None;
     Http.count := None;
     Http.data := Some {|
       avg_blink_rate :=
         (inject_Z (JS.Math_round (avgBlinkRate * 10)) / 10)%Q;
       eye_strain_alerts := eyeStrainAlerts;
       posture_issues := postureIssues;
       fatigue_timeline := fatigueData;
       health_score :=
         Z.max 0 (100 - Z.of_nat eyeStrainAlerts * 5
                  - Z.of_nat postureIssues * 2) |} |}.

(** *** [GET /distractions/:sessionId] *)

Record Episode := {
  ep_start : Z;
  ep_end : Z;
  ep_type : DistractionType;
  ep_count : Z
}.

(** Body of [metrics.forEach] in the search for episodes; the state is
    the pair of [episodes] and [currentEpisode]. *)
Definition episodeStep (st : list Episode * option Episode) (m : t)
    : list Episode * option Episode :=
  let '(episodes, currentEpisode) := st in
  if distraction_detected m then
    match currentEpisode with
    | None =>
        (episodes,
         Some {| ep_start := timestamp m; ep_end := timestamp m;
                 ep_type := distraction_type m; ep_count := 1 |})
    | Some ep =>
        (episodes,
         Some {| ep_start := ep_start ep; ep_end := timestamp m;
                 ep_type := ep_type ep; ep_count := ep_count ep + 1 |})
    end
  else
    match currentEpisode with
    | Some ep => (episodes ++ [ep], None)
    | None => (episodes, None)
    end.

(** The last episode is added if there is one. *)
Definition closeEpisode (st : list Episode * option Episode)
    : list Episode :=
  let '(episodes, currentEpisode) := st in
  match currentEpisode with
  | Some ep => episodes ++ [ep]
  | None => episodes
  end.

(** The episodes found in [metrics]. *)
Definition findEpisodes (metrics : list t) : list Episode :=
  closeEpisode (foldl episodeStep ([], None) metrics).

(** [ep.duration_seconds], set on every episode after the search. *)
Definition duration_seconds (ep : Episode) : Q :=
  (inject_Z (ep_end ep - ep_start ep) / 1000)%Q.

Record Distractions := {
  total_distractions : nat;
  distraction_rate : option Q;
  by_type : list (DistractionType * Z);
  episodes : nat;
  total_distraction_time : Z;
  avg_episode_duration : Q;
  longest_episode : Q;
  distraction_timeline : list (Episode * Q)
}.

(** [metrics] is the result of the handler's query. The distraction
    rate of an empty result is [NaN], written [None]. *)
Definition get_distractions (metrics : list t)
    : Http.Response Distractions :=
  let distractions := List.filter distraction_detected metrics in
  let distractionsByType :=
    foldl (fun acc m => Counter.increment (distraction_type m) acc) []
      distractions in
  let episodes := findEpisodes metrics in
  let timed := (fun ep => (ep, duration_seconds ep)) <$> episodes in
  let totalDistractionTime :=
    foldl (fun sum ep => (sum + ep.2)%Q) 0%Q timed in
  {| Http.status := 200; Http.success := true; Http.message := None;
     Http.count := None;
     Http.data := Some {|
       total_distractions := length distractions;
       distraction_rate :=
         match metrics with
         | [] => None
         | _ => Some (Qnat (length distractions) / Qnat (length metrics)
                      * 100)%Q
         end;
       by_type := distractionsByType;
       episodes := length episodes;
       total_distraction_time := JS.Math_round totalDistractionTime;
       avg_episode_duration :=
         match episodes with
         | [] => 0%Q
         | _ => (totalDistractionTime / Qnat (length episodes))%Q
         end;
       longest_episode :=
         match JS.Math_max (snd <$> timed) with
         | Some longest => longest
         | None => 0%Q
         end;
       distraction_timeline := timed |} |}.

End MetricsInsights.

(** ** routes/sessions.js: creating, reading and deleting sessions *)

Module SessionsStore.
Import Session.

(** Truthiness of a string of the request body that may be absent. *)
Definition truthyS (s : option string) : bool :=
  match s with
  | None => false
  | Some s => negb (bool_decide (s = EmptyString))
  end.

(** [Session.findOne({ student_id, is_active: true })]: one of the
    active sessions of the student, if there is any. *)
Definition findOneActive (db : gmap string Session.t) (student : string)
    : option Session.t :=
  List.find (fun s => bool_decide (student_id s = student) && is_active s)
    ((map_to_list db).*2).

(** The [session] object of the answer to a create request. *)
Record Created := {
  created_id : string;
  created_student_id : string;
  created_is_active : bool;
  created_start_time : Z
}.

(** [POST /]. [newId] is the identifier drawn for the new document,
    [user] is [req.user.id], [ended_at] and [started_at] are the values
    of the two calls of [new Date()]. Saving a document under an
    identifier in use fails, which the handler answers with 500. *)
Definition post_create (db : gmap string Session.t) (newId user : string)
    (document_id document_path : option string) (ended_at started_at : Z)
    : gmap string Session.t * Http.Response Created :=
  if negb (truthyS document_id) || negb (truthyS document_path) then
    (db, Http.failure 400
           "Document ID and path are required to start a session")
  else
    let db :=
      match findOneActive db user with
      | Some existingSession =>
          let end_time := ended_at in
          let duration_seconds :=
            JS.Math_floor
              (inject_Z (end_time - start_time existingSession) / 1000)%Q in
          <[_id existingSession :=
              {| _id := _id existingSession;
                 student_id := student_id existingSession;
                 is_active := false;
                 start_time := start_time existingSession;
                 end_time := Some end_time;
                 duration_seconds := duration_seconds;
                 interactions := interactions existingSession;
                 metrics := metrics existingSession |}]> db
      | None => db
      end in
    match db !! newId with
    | Some _ => (db, Http.failure 500 "Failed to create session")
    | None =>
        let session :=
          {| _id := newId;
             student_id := user;
             is_active := true;
             start_time := started_at;
             end_time := None;
             duration_seconds := 0;
             interactions := [];
             metrics := None |} in
        (<[newId := session]> db,
         {| Http.status := 201; Http.success := true;
            Http.message := None; Http.count := None;
            Http.data := Some {| created_id := _id session;
                                 created_student_id := student_id session;
                                 created_is_active := is_active session;
                                 created_start_time := start_time session |}
         |})
    end.

(** The [metrics] object of [GET /:sessionId/metrics]; [stored] stands
    for the fields spread from [session.metrics]. *)
Record MetricsView := {
  totalInteractions : nat;
  webcamEvents : nat;
  pageChanges : nat;
  duration : Z;
  isActive : bool;
  stored : option FinalMetrics
}.

(** [GET /:sessionId/metrics]; [now] is the value of [new Date()]. *)
Definition get_metrics (db : gmap string Session.t) (sessionId : string)
    (now : Z) : Http.Response MetricsView :=
  match db !! sessionId with
  | None => Http.failure 404 "Session not found"
  | Some session =>
      let webcamInteractions :=
        List.filter (is_type webcam) (interactions session) in
      let pageInteractions :=
        List.filter (is_type page_turn) (interactions session) in
      {| Http.status := 200; Http.success := true; Http.message := None;
         Http.count := None;
         Http.data := Some {|
           totalInteractions := length (interactions session);
           webcamEvents := length webcamInteractions;
           pageChanges := length pageInteractions;
           duration :=
             if is_active session
             then JS.Math_floor
                    (inject_Z (now - start_time session) / 1000)%Q
             else duration_seconds session;
           isActive := is_active session;
           stored := metrics session |} |}
  end.

(** [DELETE /:sessionId]; [role] is [req.user.role]. *)
Definition delete_session (db : gmap string Session.t)
    (sessionId user role : string)
    : gmap string Session.t * Http.Response unit :=
  match db !! sessionId with
  | None => (db, Http.failure 404 "Session not found")
  | Some session =>
      if negb (bool_decide (student_id session = user))
         && negb (bool_decide (role = "teacher"))
      then (db, Http.failure 403 "Access denied")
      else
        (delete sessionId db,
         {| Http.status := 200; Http.success := true;
            Http.message := Some "Session deleted successfully";
            Http.count := None; Http.data := None |})
  end.

(** No student has two active sessions. *)
Definition single_active (db : gmap string Session.t) : Prop :=
  ∀ k1 k2 s1 s2,
    db !! k1 = Some s1 → db !! k2 = Some s2 →
    student_id s1 = student_id s2 →
    is_active s1 = true → is_active s2 = true → k1 = k2.

End SessionsStore.

(** ** routes/interactions.js *)

Module InteractionsRoutes.
Import Session.

(** [POST /:sessionId]. [type] is [None] for a string that is not one
    of [validTypes], which the message of the answer goes on to name;
    [now] is the value of [new Date()]. The answer to a valid request
    carries the saved interaction. *)
Definition post_interaction (db : gmap string Session.t)
    (sessionId user : string) (type : option InteractionType)
    (data : option InteractionData) (now : Z)
    : gmap string Session.t * Http.Response Interaction :=
  match type with
  | None => (db, Http.failure 400 "Invalid interaction type")
  | Some type =>
      match db !! sessionId with
      | None => (db, Http.failure 404 "Session not found")
      | Some session =>
          if negb (bool_decide (student_id session = user)) then
            (db, Http.failure 403 "Access denied")
          else
            let savedInteraction :=
              {| Session.type := type; timestamp := now;
                 Session.data := data |} in
            let session :=
              {| _id := _id session;
                 student_id := student_id session;
                 is_active := is_active session;
                 start_time := start_time session;
                 end_time := end_time session;
                 duration_seconds := duration_seconds session;
                 interactions := interactions session ++ [savedInteraction];
                 metrics := metrics session |} in
            (<[_id session := session]> db,
             {| Http.status := 200; Http.success := true;
                Http.message := Some "Interaction logged successfully";
                Http.count := None;
                Http.data := Some savedInteraction |})
      end
  end.

(** *** Streak of [GET /analytics/overall]

    A date string names a local day; it is written as the midnight
    that begins the day, at the fixed offset [tz] from UTC. *)
Section Streak.
Variable tz : Z.

(** [new Date(d).toDateString()]. *)
Definition toDateString (d : Z) : Z := Analytics.setHours0 tz d.

(** The [for ... of] loop with its [break]. *)
Fixpoint streakLoop (sessionDates : list Z) (streak : Z) (currentDate : Z)
    : Z :=
  match sessionDates with
  | [] => streak
  | dateStr :: rest =>
      if bool_decide (dateStr = currentDate) then
        streakLoop rest (streak + 1) (Analytics.previousDay dateStr)
      else streak
  end.

(** [now] is the time of the request, [end_times] the end times of the
    completed sessions as the query returns them. The dates are the
    distinct date strings in the order of their first occurrence,
    sorted from the latest to the earliest. *)
Definition streak (now : Z) (end_times : list Z) : Z :=
  let sessionDates :=
    Analytics.sortDescending (JS.Set_from (toDateString <$> end_times)) in
  streakLoop sessionDates 0 (toDateString now).
End Streak.

End InteractionsRoutes.

(** ** cleanup.js *)

Module Cleanup.
Import Session.

(** [Session.updateMany({ is_active: true },
    { is_active: false, end_time: new Date() })], with the number of
    documents modified. *)
Definition cleanup (db : gmap string Session.t) (now : Z)
    : gmap string Session.t * nat :=
  ((fun session =>
      if is_active session then
        {| _id := _id session;
           student_id := student_id session;
           is_active := false;
           start_time := start_time session;
           end_time := Some now;
           duration_seconds := duration_seconds session;
           interactions := interactions session;
           metrics := metrics session |}
      else session) <$> db,
   length (List.filter is_active ((map_to_list db).*2))).

End Cleanup.

(** ** routes/analytics.js: the study time of the dashboard *)

Module Dashboard.
Import Analytics.

(** [sessions.reduce(...) / 60000]: the minutes between start and end,
    over the sessions that have both. *)
Definition studyTimeMinutes (sessions : list SessionTimes) : Q :=
  (foldl (fun sum s =>
            match end_time s, start_time s with
            | Some e, Some b => (sum + inject_Z (e - b))%Q
            | _, _ => sum
            end) 0%Q sessions / 60000)%Q.

(** The fields [totalHours] and [thisWeek] of the answer of
    [GET /analytics]. [sessions] is the result of the handler's
    query and [now] the value of [new Date()]; a session without a
    start time compares as not started within the week. *)
Definition hours (now : Z) (sessions : list SessionTimes) : Z * Z :=
  let totalStudyTimeMinutes := studyTimeMinutes sessions in
  let totalStudyTimeHours := JS.Math_round (totalStudyTimeMinutes / 60) in
  let oneWeekAgo := now - 7 * MS_PER_DAY in
  let thisWeekTimeMinutes :=
    studyTimeMinutes
      (List.filter
         (fun s =>
            match start_time s with
            | Some b => oneWeekAgo <=? b
            | None => false
            end) sessions) in
  let thisWeekTimeHours := JS.Math_round (thisWeekTimeMinutes / 60) in
  (totalStudyTimeHours, thisWeekTimeHours).

End Dashboard.

(** ** Further sample data *)

Module Fixtures.

(** A present sample of session ["s1"] with a given emotion, distraction
    (if any), eye-strain risk and engagement score. *)
Definition sample (ts : Z) (emotion : Metric.Emotion)
    (distraction : option Metric.DistractionType)
    (risk : Metric.EyeStrainRisk) (score : Q) : Metric.t :=
  {| Metric.session_id := "s1"; Metric.user_id := "u1";
     Metric.timestamp := ts;
     Metric.presence_detected := true;
     Metric.facial_blink_rate := 18;
     Metric.facial_emotion := emotion;
     Metric.posture_score := 70;
     Metric.posture_quality := Metric.good;
     Metric.distraction_detected := bool_decide (is_Some distraction);
     Metric.distraction_type := default Metric.none distraction;
     Metric.health_eye_strain_risk := risk;
     Metric.health_fatigue_level := 0;
     Metric.health_break_recommended := false;
     Metric.engagement_score := score |}.

End Fixtures.

(** ** Further notions used in the statements below *)

Module Props.
Import Session.

(** The page an event is booked on, [data.from || data.page], and the
    time it adds, [data.time_spent || data.duration || 0]. *)
Definition pageOf (d : InteractionData) : option Z :=
  match JS.truthyZ (from d) with
  | Some p => Some p
  | None => JS.truthyZ (page d)
  end.

Definition timeOf (d : InteractionData) : Q :=
  match time_spent d with
  | Some x => if Qeq_bool x 0 then JS.or0 (duration d) else x
  | None => JS.or0 (duration d)
  end.

(** The payloads of the page events of a session, in order. *)
Definition pageEvents (session : Session.t) : list InteractionData :=
  omap data
    (List.filter (fun i => is_type page_turn i || is_type page_change i)
       (interactions session)).

(** The number of samples of [l] that satisfy [p]. *)
Definition countIf {A : Type} (p : A → bool) (l : list A) : nat :=
  length (List.filter p l).

End Props.

(** ** Double-precision numbers

    The numeric results of the code are computed in IEEE-754 double
    precision. The modules below evaluate them on primitive floats, with
    every operation rounded as the code's is; they take the place of the
    exact rationals above wherever a result depends on the rounding. *)

#[local] Set Warnings "-inexact-float".

Module Number.

(** The double nearest to an integer (ties to even); [Infinity] beyond
    the range of doubles. Integers below [2^53] are exact. *)
Definition of_Z (z : Z) : float :=
  SF2Prim (binary_normalize prec emax z 0 false).

(** The double nearest to a rational (ties to even): the value of a
    decimal numeral of a JSON document. *)
Definition of_Q (q : Q) : float :=
  match Qnum q with
  | Z0 => 0%float
  | Zpos n =>
      SF2Prim (SF64div (S754_finite false n 0) (S754_finite false (Qden q) 0))
  | Zneg n =>
      SF2Prim (SF64div (S754_finite true n 0) (S754_finite false (Qden q) 0))
  end.

(** The exact value of a finite double; [0] stands in for the values
    that are not finite. *)
Definition value (x : float) : Q :=
  match Prim2SF x with
  | S754_finite s m e =>
      ((if s then -1 else 1) * inject_Z (Z.pos m) * Qpower 2 e)%Q
  | _ => 0%Q
  end.

(** [Math.min] and [Math.max] of two numbers: [NaN] if one of them is
    [NaN], and [-0] is below [+0]. *)
Definition Math_min (x y : float) : float :=
  if is_nan x || is_nan y then nan
  else if (x <? y)%float then x
  else if (y <? x)%float then y
  else if get_sign x then x else y.

Definition Math_max (x y : float) : float :=
  if is_nan x || is_nan y then nan
  else if (x <? y)%float then y
  else if (y <? x)%float then x
  else if get_sign x then y else x.

(** [Math.max(...xs)] and [Math.min(...xs)]. *)
Definition Math_max_of (xs : list float) : float :=
  foldl Math_max neg_infinity xs.

Definition Math_min_of (xs : list float) : float :=
  foldl Math_min infinity xs.

(** [Math.round]: the nearest integer, halves towards [+Infinity];
    [NaN] and the infinities are returned as they are, and a result of
    zero keeps the sign of the argument. *)
Definition Math_round (x : float) : float :=
  match Prim2SF x with
  | S754_finite s _ _ =>
      let z := Qfloor (value x + (1 # 2)) in
      if z =? 0 then (if s then neg_zero else zero) else of_Z z
  | _ => x
  end.

(** Truthiness of a number: [0], [-0] and [NaN] are falsy. *)
Definition truthy (x : float) : bool := negb (is_nan x || is_zero x).

(** [x || y] on numbers, the first of which may be [undefined]. *)
Definition or (x : option float) (y : float) : float :=
  match x with
  | Some x => if truthy x then x else y
  | None => y
  end.

(** The sum of [arr.reduce((s, m) => s + f(m), 0)]. *)
Definition sum {A : Type} (f : A → float) (arr : list A) : float :=
  foldl (fun s m => (s + f m)%float) 0%float arr.

(** [x] is a number other than [NaN] in the closed interval from [lo]
    to [hi]. *)
Definition between (lo hi x : float) : Prop :=
  (lo <=? x)%float = true ∧ (x <=? hi)%float = true.

End Number.

(** ** models/Session.js and services/nlpService.js in double precision *)

Module Session64.
Import Session.

(** The payload of an interaction with its numbers as doubles. *)
Record InteractionData := {
  lookingAtScreen : option bool;
  postureScore : option float;
  blinkRate : option float;
  hasPhone : option bool;
  from : option Z;
  page : option Z;
  time_spent : option float;
  duration : option float
}.

Record Interaction := {
  type : InteractionType;
  timestamp : Z;
  data : option InteractionData
}.

Record DocumentMetrics := {
  avgPostureScore : float;
  totalHighlights : nat;
  pageTimeAnalytics : gmap Z float;
  pagesVisited : nat
}.

Record FinalMetrics := {
  engagementScore : float;
  attentionRate : float;
  avgBlinkRate : float;
  distractionCount : Z;
  durationSeconds : Z;
  totalMetricsRecorded : nat;
  documentMetrics : option DocumentMetrics
}.

(** The paths of a session document read by the aggregation. *)
Record t := {
  duration_seconds : Z;
  interactions : list Interaction
}.

Definition is_type (ty : InteractionType) (i : Interaction) : bool :=
  bool_decide (type i = ty).

(** The document stored for a session whose numbers were received as
    the given decimal numerals. *)
Definition parse_data (d : Session.InteractionData) : InteractionData :=
  {| lookingAtScreen := Session.lookingAtScreen d;
     postureScore := Number.of_Q <$> Session.postureScore d;
     blinkRate := Number.of_Q <$> Session.blinkRate d;
     hasPhone := Session.hasPhone d;
     from := Session.from d;
     page := Session.page d;
     time_spent := Number.of_Q <$> Session.time_spent d;
     duration := Number.of_Q <$> Session.duration d |}.

Definition parse_interaction (i : Session.Interaction) : Interaction :=
  {| type := Session.type i;
     timestamp := Session.timestamp i;
     data := parse_data <$> Session.data i |}.

Definition parse (session : Session.t) : t :=
  {| duration_seconds := Session.duration_seconds session;
     interactions := parse_interaction <$> Session.interactions session |}.

(** [getPageTimeAnalytics]. *)
Definition getPageTimeAnalytics (this : t) : JS.Completion (gmap Z float) :=
  let pageTurnEvents :=
    List.filter (fun i => is_type page_turn i || is_type page_change i)
      (interactions this) in
  JS.forEach
    (fun (pageTime : gmap Z float) change =>
       d ← JS.deref (data change);
       let page := match JS.truthyZ (from d) with
                   | Some p => Some p
                   | None => JS.truthyZ (page d)
                   end in
       let time := Number.or (time_spent d) (Number.or (duration d) 0) in
       match page with
       | Some p =>
           mret (<[p := (Number.or (pageTime !! p) 0 + time)%float]> pageTime)
       | None => mret pageTime
       end)
    pageTurnEvents ∅.

End Session64.

Module NLPService64.
Import Session64.

Definition IDEAL_BLINK_RATE_MIN : float := 15.
Definition IDEAL_BLINK_RATE_MAX : float := 25.

Module ENGAGEMENT_WEIGHTS.
Definition attentionRate : float := 0.5.
Definition postureScore : float := 0.3.
Definition blinkRateCompliance : float := 0.2.
End ENGAGEMENT_WEIGHTS.

Definition _calculateBlinkCompliance (blinkRate : float) : float :=
  if ((IDEAL_BLINK_RATE_MIN <=? blinkRate)
      && (blinkRate <=? IDEAL_BLINK_RATE_MAX))%float
  then 100%float
  else
    let distanceToIdeal :=
      Number.Math_min (abs (blinkRate - IDEAL_BLINK_RATE_MIN))
                      (abs (blinkRate - IDEAL_BLINK_RATE_MAX)) in
    let MAX_DISTANCE := 50%float in
    let penalty := Number.Math_min (distanceToIdeal / MAX_DISTANCE) 1 in
    Number.Math_max 0 (100 * (1 - penalty))%float.

(** The local variables updated by the [forEach] over the webcam
    interactions. *)
Record Aggregation := {
  focusedCount : Z;
  postureScoreSum : float;
  totalBlinkRateSum : float;
  distractionCount : Z;
  phoneDetectedFlag : bool
}.

Definition aggregate (acc : Aggregation) (metric : Interaction)
    : JS.Completion Aggregation :=
  data ← JS.deref (Session64.data metric);
  let focusedCount :=
    if JS.truthy (lookingAtScreen data)
    then focusedCount acc + 1 else focusedCount acc in
  let postureScoreSum :=
    (postureScoreSum acc + Number.or (postureScore data) 0)%float in
  let totalBlinkRateSum :=
    (totalBlinkRateSum acc + Number.or (blinkRate data) 0)%float in
  let '(distractionCount, phoneDetectedFlag) :=
    if JS.truthy (hasPhone data) && negb (phoneDetectedFlag acc)
    then (distractionCount acc + 1, true)
    else if negb (JS.truthy (hasPhone data))
         then (distractionCount acc, false)
         else (distractionCount acc, phoneDetectedFlag acc) in
  mret {| focusedCount := focusedCount;
          postureScoreSum := postureScoreSum;
          totalBlinkRateSum := totalBlinkRateSum;
          distractionCount := distractionCount;
          phoneDetectedFlag := phoneDetectedFlag |}.

Definition initial : Aggregation :=
  {| focusedCount := 0; postureScoreSum := 0; totalBlinkRateSum := 0;
     distractionCount := 0; phoneDetectedFlag := false |}.

Inductive Result :=
| EmptyObject
| Metrics (m : FinalMetrics).

Definition webcamMetrics (session : Session64.t) : list Interaction :=
  List.filter (is_type Session.webcam) (interactions session).

Definition calculateFinalMetrics (db : gmap string Session64.t)
    (sessionId : string) : JS.Completion Result :=
  match db !! sessionId with
  | None => mret EmptyObject
  | Some session =>
      let webcamMetrics := webcamMetrics session in
      if (length webcamMetrics =? 0)%nat then
        mret (Metrics {|
          engagementScore := 0;
          attentionRate := 0;
          avgBlinkRate := 0;
          Session64.distractionCount := 0;
          durationSeconds := duration_seconds session;
          totalMetricsRecorded := 0;
          documentMetrics := None |})
      else
        let totalMetrics := length webcamMetrics in
        acc ← JS.forEach aggregate webcamMetrics initial;
        let total := Number.of_Z (Z.of_nat totalMetrics) in
        let attentionRate :=
          Number.Math_round
            ((Number.of_Z (focusedCount acc) / total) * 100)%float in
        let avgPostureScore := (postureScoreSum acc / total)%float in
        let avgBlinkRate :=
          Number.Math_round (totalBlinkRateSum acc / total)%float in
        let blinkComplianceScore := _calculateBlinkCompliance avgBlinkRate in
        let engagementScore :=
          Number.Math_round
            (attentionRate * ENGAGEMENT_WEIGHTS.attentionRate
             + avgPostureScore * ENGAGEMENT_WEIGHTS.postureScore
             + blinkComplianceScore
               * ENGAGEMENT_WEIGHTS.blinkRateCompliance)%float in
        let highlights :=
          List.filter (is_type Session.highlight) (interactions session) in
        pageTime ← getPageTimeAnalytics session;
        pageTime' ← getPageTimeAnalytics session;
        mret (Metrics {|
          engagementScore :=
            Number.Math_min 100 (Number.Math_max 0 engagementScore);
          attentionRate := attentionRate;
          avgBlinkRate := avgBlinkRate;
          Session64.distractionCount := distractionCount acc;
          durationSeconds := duration_seconds session;
          totalMetricsRecorded := totalMetrics;
          documentMetrics := Some {|
            avgPostureScore := Number.Math_round avgPostureScore;
            totalHighlights := length highlights;
            pageTimeAnalytics := pageTime;
            pagesVisited := size pageTime' |} |})
  end.

End NLPService64.

(** ** models/Metric.js in double precision *)

Module Metric64.
Import Metric.

(** A stored sample with its numbers as doubles. *)
Record t := {
  session_id : string;
  timestamp : Z;
  presence_detected : bool;
  facial_blink_rate : float;
  facial_emotion : Emotion;
  posture_score : float;
  posture_quality : PostureQuality;
  distraction_detected : bool;
  distraction_type : DistractionType;
  health_eye_strain_risk : EyeStrainRisk;
  health_fatigue_level : float;
  engagement_score : float
}.

(** The sample stored for numbers received as the given numerals. *)
Definition parse (m : Metric.t) : t :=
  {| session_id := Metric.session_id m;
     timestamp := Metric.timestamp m;
     presence_detected := Metric.presence_detected m;
     facial_blink_rate := Number.of_Q (Metric.facial_blink_rate m);
     facial_emotion := Metric.facial_emotion m;
     posture_score := Number.of_Q (Metric.posture_score m);
     posture_quality := Metric.posture_quality m;
     distraction_detected := Metric.distraction_detected m;
     distraction_type := Metric.distraction_type m;
     health_eye_strain_risk := Metric.health_eye_strain_risk m;
     health_fatigue_level := Number.of_Q (Metric.health_fatigue_level m);
     engagement_score := Number.of_Q (Metric.engagement_score m) |}.

Definition find (collection : list t) (sessionId : string) : list t :=
  List.filter (fun m => bool_decide (session_id m = sessionId)) collection.

(** *** Static [getSessionSummary] *)

Record Summary := {
  total_datapoints : nat;
  duration_minutes : float;
  avg_engagement : float;
  max_engagement : float;
  min_engagement : float;
  presence_rate : float;
  distraction_count : nat;
  distraction_rate : float;
  distraction_types : list DistractionType;
  avg_posture_score : float;
  poor_posture_count : nat;
  avg_blink_rate : float;
  eye_strain_alerts : nat;
  avg_fatigue : float;
  emotion_distribution : list (Emotion * Z);
  engagement_timeline : list (Z * float)
}.

Definition count (p : t -> bool) (metrics : list t) : nat :=
  length (List.filter p metrics).

(** [metrics.length] and the length of a filtered array, as numbers. *)
Definition number (n : nat) : float := Number.of_Z (Z.of_nat n).

Definition getSessionSummary (collection : list t) (sessionId : string)
    : option Summary :=
  let metrics := find collection sessionId in
  match metrics with
  | [] => None
  | first :: _ =>
      let n := number (length metrics) in
      let last_ := List.last metrics first in
      Some {|
        total_datapoints := length metrics;
        duration_minutes :=
          (Number.of_Z (timestamp last_ - timestamp first) / 60000)%float;
        avg_engagement := (Number.sum engagement_score metrics / n)%float;
        max_engagement := Number.Math_max_of (engagement_score <$> metrics);
        min_engagement := Number.Math_min_of (engagement_score <$> metrics);
        presence_rate :=
          (number (count presence_detected metrics) / n * 100)%float;
        distraction_count := count distraction_detected metrics;
        distraction_rate :=
          (number (count distraction_detected metrics) / n * 100)%float;
        distraction_types :=
          JS.Set_from
            (distraction_type <$> List.filter distraction_detected metrics);
        avg_posture_score := (Number.sum posture_score metrics / n)%float;
        poor_posture_count :=
          count (fun m => bool_decide (posture_quality m ∈ [poor; very_poor]))
                metrics;
        avg_blink_rate := (Number.sum facial_blink_rate metrics / n)%float;
        eye_strain_alerts :=
          count (fun m => bool_decide
                            (health_eye_strain_risk m ∈ [risk_high; critical]))
                metrics;
        avg_fatigue := (Number.sum health_fatigue_level metrics / n)%float;
        emotion_distribution :=
          foldl (fun acc m => Metric.increment (facial_emotion m) acc)
                [] metrics;
        engagement_timeline :=
          (fun m => (timestamp m, engagement_score m)) <$> metrics
      |}
  end.

(** *** Static [detectAnomalies] *)

(** The [details] text; the text of an engagement drop is determined by
    the drop, which stands for it. *)
Inductive Details :=
| Engagement_dropped_by (drop : float)
| Student_absent_for_extended_period.

Record Anomaly := {
  anomaly_type : AnomalyType;
  anomaly_timestamp : Z;
  severity : Severity;
  details : Details
}.

(** Body of [for (let i = 1; i < metrics.length; i++)]. *)
Definition dropStep (metrics : list t) (anomalies : list Anomaly) (i : nat)
    : JS.Completion (list Anomaly) :=
  prev ← JS.deref (metrics !! (i - 1)%nat);
  curr ← JS.deref (metrics !! i);
  let drop := (engagement_score prev - engagement_score curr)%float in
  if (30 <? drop)%float
  then mret (anomalies ++
               [{| anomaly_type := engagement_drop;
                   anomaly_timestamp := timestamp curr;
                   severity := if (50 <? drop)%float then high else medium;
                   details := Engagement_dropped_by drop |}])
  else mret anomalies.

(** Body of [for (const metric of metrics)]; the state is the pair of
    [absenceStreak] and [anomalies]. *)
Definition absenceStep (st : Z * list Anomaly) (metric : t)
    : JS.Completion (Z * list Anomaly) :=
  let '(absenceStreak, anomalies) := st in
  if negb (presence_detected metric) then
    let absenceStreak := absenceStreak + 1 in
    if absenceStreak =? 5
    then mret (absenceStreak,
               anomalies ++
                 [{| anomaly_type := prolonged_absence;
                     anomaly_timestamp := timestamp metric;
                     severity := high;
                     details := Student_absent_for_extended_period |}])
    else mret (absenceStreak, anomalies)
  else mret (0, anomalies).

Definition detectAnomalies (collection : list t) (sessionId : string)
    : JS.Completion (list Anomaly) :=
  let metrics := find collection sessionId in
  anomalies ←
    JS.forEach (dropStep metrics) (seq 1 (length metrics - 1)) [];
  st ← JS.forEach absenceStep metrics (0, anomalies);
  mret st.2.

End Metric64.

(** ** routes/analytics.js in double precision *)

Module Analytics64.
Import Http Analytics.

(** The single group of the [Metric.aggregate] pipeline. *)
Record EngagementData := {
  avg_engagement : option float;
  presence_rate : option float;
  distraction_rate : option float
}.

Record SubScores := {
  sessionScore : float;
  timeScore : float;
  engagementScore : float;
  presenceScore : float;
  focusScore : float;
  activityScore : float
}.

Record Components := {
  session_consistency : float;
  study_time : float;
  engagement : float;
  presence : float;
  focus : float;
  activity : float
}.

Record ProductivityScore := {
  overall_score : float;
  grade : Grade;
  components : Components
}.

Definition totalTime (sessions : list SessionTimes) : float :=
  foldl (fun sum s =>
           match end_time s, start_time s with
           | Some e, Some b => (sum + Number.of_Z (e - b) / 60000)%float
           | _, _ => sum
           end) 0%float sessions.

Definition subScores (days : Z) (sessions : list SessionTimes)
    (engagementData : option EngagementData) (highlights annotations : nat)
    : SubScores :=
  let totalSessions := Number.of_Z (Z.of_nat (length sessions)) in
  let totalTime := totalTime sessions in
  let days := Number.of_Z days in
  {| sessionScore := Number.Math_min 100 (totalSessions / days * 20)%float;
     timeScore := Number.Math_min 100 (totalTime / (days * 60) * 100)%float;
     engagementScore := Number.or (engagementData ≫= avg_engagement) 0;
     presenceScore :=
       (Number.or (engagementData ≫= presence_rate) 0 * 100)%float;
     focusScore :=
       Number.Math_max 0
         (100 - Number.or (engagementData ≫= distraction_rate) 0 * 100)%float;
     activityScore :=
       Number.Math_min 100
         (Number.of_Z (Z.of_nat (highlights + annotations)) / days * 5)%float
  |}.

Definition overall (s : SubScores) : float :=
  (sessionScore s * 0.15 + timeScore s * 0.20
   + engagementScore s * 0.25 + presenceScore s * 0.15
   + focusScore s * 0.15 + activityScore s * 0.10)%float.

Definition gradeOf (overall_score : float) : Grade :=
  if (90 <=? overall_score)%float then A_plus
  else if (85 <=? overall_score)%float then A
  else if (80 <=? overall_score)%float then A_minus
  else if (70 <=? overall_score)%float then B
  else if (60 <=? overall_score)%float then C
  else D.

(** [days] is [parseInt(period)] for a numeric [period]; the three
    database results are arguments. *)
Definition get_productivity_score (days : Z) (sessions : list SessionTimes)
    (engagementData : option EngagementData) (highlights annotations : nat)
    : Response ProductivityScore :=
  if days <=? 0 then
    {| status := 400; success := false;
       message := Some "Period must be a positive number.";
       count := None; data := None |}
  else
    let s := subScores days sessions engagementData highlights annotations in
    let overall_score := overall s in
    {| status := 200; success := true; message := None; count := None;
       data := Some {|
         overall_score := Number.Math_round overall_score;
         grade := gradeOf overall_score;
         components := {|
           session_consistency := Number.Math_round (sessionScore s);
           study_time := Number.Math_round (timeScore s);
           engagement := Number.Math_round (engagementScore s);
           presence := Number.Math_round (presenceScore s);
           focus := Number.Math_round (focusScore s);
           activity := Number.Math_round (activityScore s) |} |} |}.

End Analytics64.

(** ** The order of doubles, through a rank *)

Module Order64.

(** A rank that orders the doubles other than [NaN] as their values:
    the class (negative infinite, negative, zero, positive, positive
    infinite), then exponent and mantissa, reversed for the negative
    numbers. *)
Definition rank_of (f : spec_float) : Z * Z * Z :=
  match f with
  | S754_zero _ => (0, 0, 0)
  | S754_infinity s => (if s then -2 else 2, 0, 0)
  | S754_nan => (0, 0, 0)
  | S754_finite s m e => if s then (-1, - e, - Z.pos m) else (1, e, Z.pos m)
  end.

Definition rank (x : float) : Z * Z * Z := rank_of (Prim2SF x).

Definition lt (a b : Z * Z * Z) : Prop :=
  a.1.1 < b.1.1
  ∨ (a.1.1 = b.1.1 ∧ (a.1.2 < b.1.2 ∨ (a.1.2 = b.1.2 ∧ a.2 < b.2))).

Definition le (a b : Z * Z * Z) : Prop := lt a b ∨ a = b.

End Order64.

(** ** The numeric properties of the specification, in double precision *)

Module Spec64.
Import Session64.

(** *** Blink-rate compliance *)

(** The claimed compliance formula, [max(0, 100 * (1 - min(dist, 50) / 50))]
    outside [15, 25], with every operation rounded to double precision. *)
Definition dist (b : float) : float :=
  Number.Math_min (abs (b - 15)) (abs (b - 25)).

Definition compliance (b : float) : float :=
  if ((15 <=? b) && (b <=? 25))%float then 100%float
  else Number.Math_max 0 (100 * (1 - Number.Math_min (dist b) 50 / 50))%float.

(** *** Session aggregation *)

(** The webcam samples of a session: the payloads of its webcam
    interactions. *)
Definition samples (session : Session64.t) : list InteractionData :=
  omap data (NLPService64.webcamMetrics session).

(** Every interaction whose payload is read carries one. *)
Definition payloads_present (session : Session64.t) : Prop :=
  Forall (fun i => type i ∈ [Session.webcam; Session.page_turn;
                             Session.page_change] →
                   is_Some (data i))
         (interactions session).

Definition focused (ds : list InteractionData) : nat :=
  length (List.filter (fun d => JS.truthy (lookingAtScreen d)) ds).

Definition total (ds : list InteractionData) : float :=
  Number.of_Z (Z.of_nat (length ds)).

(** [round((focusedCount / totalSamples) * 100)]. *)
Definition attentionRate (ds : list InteractionData) : float :=
  Number.Math_round
    ((Number.of_Z (Z.of_nat (focused ds)) / total ds) * 100)%float.

(** The running sum of the posture scores, an absent or zero score
    counting as 0, divided by the number of samples. *)
Definition avgPostureScore (ds : list InteractionData) : float :=
  (Number.sum (fun d => Number.or (postureScore d) 0) ds / total ds)%float.

Definition avgBlinkRate (ds : list InteractionData) : float :=
  Number.Math_round
    (Number.sum (fun d => Number.or (blinkRate d) 0) ds / total ds)%float.

(** [attentionRate*0.5 + avgPostureScore*0.3 + complianceScore*0.2]. *)
Definition weightedSum (ds : list InteractionData) : float :=
  (attentionRate ds * 0.5 + avgPostureScore ds * 0.3
   + NLPService64._calculateBlinkCompliance (avgBlinkRate ds) * 0.2)%float.

(** The weighted sum rounded and clamped to [0, 100]. *)
Definition engagementScore (ds : list InteractionData) : float :=
  Number.Math_min 100 (Number.Math_max 0 (Number.Math_round (weightedSum ds))).

End Spec64.

(** ** Engagement drops in double precision *)

Module Anomalies64.
Import Metric Metric64.

(** The adjacent pairs [(prev, curr)] of a sequence, in order. *)
Definition adjacentPairs (l : list Metric64.t)
    : list (Metric64.t * Metric64.t) :=
  zip l (drop 1 l).

(** The anomaly of an adjacent pair: one if the difference of the two
    scores, rounded to double precision, exceeds 30. *)
Definition engagementDropOf (pair : Metric64.t * Metric64.t)
    : option Anomaly :=
  let '(prev, curr) := pair in
  let drop := (engagement_score prev - engagement_score curr)%float in
  if (30 <? drop)%float
  then Some {| anomaly_type := engagement_drop;
               anomaly_timestamp := timestamp curr;
               severity := if (50 <? drop)%float then high else medium;
               details := Engagement_dropped_by drop |}
  else None.

Definition engagementDrops (l : list Metric64.t) : list Anomaly :=
  omap engagementDropOf (adjacentPairs l).

Definition ofType (ty : AnomalyType) (l : list Anomaly) : list Anomaly :=
  List.filter (fun a => bool_decide (anomaly_type a = ty)) l.

(** The engagement drop between positions [i - 1] and [i], if any. *)
Definition dropAt (metrics : list Metric64.t) (i : nat) : option Anomaly :=
  prev ← metrics !! (i - 1)%nat;
  curr ← metrics !! i;
  engagementDropOf (prev, curr).

(** A sample of session ["s1"] with the given timestamp and engagement
    score. *)
Definition scored (ts : Z) (score : float) : Metric64.t :=
  {| session_id := "s1"; timestamp := ts; presence_detected := true;
     facial_blink_rate := 18; facial_emotion := neutral;
     posture_score := 70; posture_quality := good;
     distraction_detected := false; distraction_type := none;
     health_eye_strain_risk := risk_low; health_fatigue_level := 0;
     engagement_score := score |}.

End Anomalies64.

(** ** Page times in double precision *)

Module Props64.
Import Session64.

(** The page an event is booked on, [data.from || data.page], and the
    time it adds, [data.time_spent || data.duration || 0]. *)
Definition pageOf (d : InteractionData) : option Z :=
  match JS.truthyZ (from d) with
  | Some p => Some p
  | None => JS.truthyZ (page d)
  end.

Definition timeOf (d : InteractionData) : float :=
  Number.or (time_spent d) (Number.or (duration d) 0).

(** The payloads of the page events of a session, in order. *)
Definition pageEvents (session : Session64.t) : list InteractionData :=
  omap data
    (List.filter (fun i => is_type Session.page_turn i
                           || is_type Session.page_change i)
       (interactions session)).

(** [(v || 0) + time] for the value [v] booked so far, if any. *)
Definition book (v : option float) (time : float) : option float :=
  Some (Number.or v 0 + time)%float.

(** The time booked on page [p] by a list of events: their times added
    one after the other, in the order of the events. *)
Definition timeOn (p : Z) (ds : list InteractionData) : option float :=
  foldl book None
    (timeOf <$> List.filter (fun d => bool_decide (pageOf d = Some p)) ds).

(** A page turn away from page [p] after [spent] seconds. *)
Definition pageTurn (p : Z) (spent : Q) : Interaction :=
  parse_interaction (Examples.pageTurn p spent).

End Props64.

(** * Verification *)

(** ** Arithmetic on rationals *)

Section Rationals.
Local Open Scope Q_scope.

Lemma Qle_bool_false (x y : Q) : Qle_bool x y = false ↔ y < x.
Proof.
  split; intros H.
  - apply Qnot_le_lt. intros Hle. apply Qle_bool_iff in Hle. congruence.
  - destruct (Qle_bool x y) eqn:E; [|reflexivity].
    apply Qle_bool_iff in E. exfalso. eapply Qlt_not_le; eassumption.
Qed.

End Rationals.

(** ** Session aggregation *)

Section Aggregation.
Import Session NLPService.

Lemma forEach_returns {A S : Type} (body : S → A → JS.Completion S)
    (l : list A) :
  Forall (fun a => ∀ s, ∃ s', body s a = JS.Return s') l →
  ∀ s, ∃ s', JS.forEach body l s = JS.Return s'.
Proof.
  induction 1 as [|a l Ha _ IH]; intros s; simpl.
  - eauto.
  - destruct (Ha s) as [s' ->]. simpl. apply IH.
Qed.

Lemma filter_length_shift (P : nat → bool) (n k : nat) :
  length (List.filter P (seq (S k) n))
  = length (List.filter (fun i => P (S i)) (seq k n)).
Proof.
  revert k. induction n as [|n IH]; intros k; simpl; [reflexivity|].
  destruct (P (S k)); simpl; rewrite IH; reflexivity.
Qed.

Lemma edgesFrom_positions (prev : bool) (l : list bool) :
  Loops.edgesFrom prev l
  = length (List.filter (Loops.risingEdgeFrom prev l) (seq 0 (length l))).
Proof.
  revert prev. induction l as [|b l IH]; intros prev; [reflexivity|].
  cbn [Loops.edgesFrom length seq List.filter].
  assert (Hhead : Loops.risingEdgeFrom prev (b :: l) 0 = b && negb prev)
    by reflexivity.
  assert (Htail : ∀ i, Loops.risingEdgeFrom prev (b :: l) (S i)
                       = Loops.risingEdgeFrom b l i)
    by (intros [|i]; reflexivity).
  rewrite Hhead, IH.
  destruct (b && negb prev); cbn [length];
    rewrite filter_length_shift, (List.filter_ext _ _ Htail); reflexivity.
Qed.

Lemma edgesFrom_risingEdges (l : list bool) :
  Loops.edgesFrom false l = Spec.risingEdges l.
Proof. apply edgesFrom_positions. Qed.

Lemma aggregate_data (acc : Aggregation) (i : Interaction)
    (d : InteractionData) :
  data i = Some d →
  ∃ acc',
    aggregate acc i = JS.Return acc'
    ∧ focusedCount acc'
      = focusedCount acc + (if JS.truthy (lookingAtScreen d) then 1 else 0)
    ∧ postureScoreSum acc'
      = (postureScoreSum acc + JS.or0 (postureScore d))%Q
    ∧ totalBlinkRateSum acc'
      = (totalBlinkRateSum acc + JS.or0 (blinkRate d))%Q
    ∧ NLPService.distractionCount acc'
      = NLPService.distractionCount acc
        + (if JS.truthy (hasPhone d) && negb (phoneDetectedFlag acc)
           then 1 else 0)
    ∧ phoneDetectedFlag acc' = JS.truthy (hasPhone d).
Proof.
  intros Hd. unfold aggregate. rewrite Hd.
  cbn [JS.deref mbind JS.Completion_bind mret JS.Completion_ret].
  destruct (JS.truthy (lookingAtScreen d)), (JS.truthy (hasPhone d)),
    (phoneDetectedFlag acc) eqn:Hflag;
    eexists; (split; [reflexivity|]); cbn; rewrite ?Hflag;
    repeat split; lia.
Qed.

(** The state after the loop over webcam interactions that all carry a
    payload. *)
Lemma forEach_aggregate (l : list Interaction) (acc : Aggregation) :
  Forall (fun i => is_Some (data i)) l →
  ∃ acc',
    JS.forEach aggregate l acc = JS.Return acc'
    ∧ focusedCount acc'
      = focusedCount acc + Z.of_nat (Spec.focused (omap data l))
    ∧ (postureScoreSum acc'
       == postureScoreSum acc
          + Spec.Qsum ((fun d => JS.or0 (postureScore d)) <$> omap data l))%Q
    ∧ (totalBlinkRateSum acc'
       == totalBlinkRateSum acc
          + Spec.Qsum ((fun d => JS.or0 (blinkRate d)) <$> omap data l))%Q
    ∧ NLPService.distractionCount acc'
      = NLPService.distractionCount acc
        + Z.of_nat (Loops.edgesFrom (phoneDetectedFlag acc)
                      (Spec.hasPhoneSequence (omap data l))).
Proof.
  intros Hall. revert acc.
  induction Hall as [|i l [d Hd] _ IH]; intros acc.
  - exists acc. cbn. split; [reflexivity|].
    split; [lia|]. split; [ring|]. split; [ring|lia].
  - destruct (aggregate_data acc i d Hd)
      as (acc1 & Hstep & Hf1 & Hp1 & Hb1 & Hc1 & Hflag1).
    destruct (IH acc1) as (acc' & Hloop & Hf & Hp & Hb & Hc).
    exists acc'. cbn [JS.forEach]. rewrite Hstep.
    cbn [mbind JS.Completion_bind omap list_omap]. rewrite Hd.
    split; [exact Hloop|].
    unfold Spec.focused, Spec.hasPhoneSequence, Spec.Qsum in *.
    cbn [fmap list_fmap List.filter foldr Loops.edgesFrom].
    rewrite Hf, Hp, Hb, Hc, Hf1, Hp1, Hb1, Hc1, Hflag1.
    split; [|split; [ring|split; [ring|]]].
    + destruct (JS.truthy (lookingAtScreen d)); cbn [length]; lia.
    + destruct (JS.truthy (hasPhone d) && negb (phoneDetectedFlag acc)); lia.
Qed.

Lemma payloads_webcam (session : Session.t) :
  Spec.payloads_present session →
  Forall (fun i => is_Some (data i)) (webcamMetrics session).
Proof.
  unfold Spec.payloads_present, webcamMetrics. intros H.
  induction H as [|i l Hi _ IH]; cbn [List.filter]; [constructor|].
  unfold is_type at 1. case_bool_decide as Hty; [|exact IH].
  constructor; [|exact IH]. apply Hi. rewrite Hty. set_solver.
Qed.

Lemma samples_length (session : Session.t) :
  Spec.payloads_present session →
  length (Spec.samples session) = length (webcamMetrics session).
Proof.
  intros H. apply payloads_webcam in H. unfold Spec.samples.
  induction H as [|i l [d Hd] _ IH]; [reflexivity|].
  cbn [omap list_omap]. rewrite Hd. cbn [length]. rewrite IH. reflexivity.
Qed.

Lemma getPageTimeAnalytics_returns (session : Session.t) :
  Spec.payloads_present session →
  ∃ pageTime, getPageTimeAnalytics session = JS.Return pageTime.
Proof.
  unfold Spec.payloads_present, getPageTimeAnalytics. intros H.
  apply forEach_returns.
  induction H as [|i l Hi _ IH]; cbn [List.filter]; [constructor|].
  destruct (is_type page_turn i || is_type page_change i) eqn:Hty;
    [|exact IH].
  constructor; [|exact IH].
  destruct Hi as [d Hd].
  - unfold is_type in Hty. apply orb_true_iff in Hty.
    destruct Hty as [Hty|Hty]; apply bool_decide_eq_true in Hty;
      rewrite Hty; set_solver.
  - intros pageTime. rewrite Hd. cbn [JS.deref mbind JS.Completion_bind].
    destruct (match JS.truthyZ (from d) with
              | Some p => Some p
              | None => JS.truthyZ (page d)
              end); eauto.
Qed.

(** The snapshot of a session that has webcam samples, in terms of the
    state [acc] reached by the loop. *)
Lemma calculateFinalMetrics_computed (db : gmap string Session.t)
    (sessionId : string) (session : Session.t) :
  db !! sessionId = Some session →
  Spec.payloads_present session →
  webcamMetrics session ≠ [] →
  ∃ acc m,
    JS.forEach aggregate (webcamMetrics session) initial = JS.Return acc
    ∧ calculateFinalMetrics db sessionId = JS.Return (Metrics m)
    ∧ let total := inject_Z (Z.of_nat (length (webcamMetrics session))) in
      let attention :=
        Binary64.percentage (focusedCount acc)
          (Z.of_nat (length (webcamMetrics session))) in
      let blink := JS.Math_round (totalBlinkRateSum acc / total)%Q in
      attentionRate m = attention
      ∧ avgBlinkRate m = blink
      ∧ Session.distractionCount m = NLPService.distractionCount acc
      ∧ totalMetricsRecorded m = length (webcamMetrics session)
      ∧ durationSeconds m = duration_seconds session
      ∧ engagementScore m
        = Z.min 100
            (Z.max 0
               (JS.Math_round
                  (inject_Z attention * (5 # 10)
                   + postureScoreSum acc / total * (3 # 10)
                   + _calculateBlinkCompliance (inject_Z blink) * (2 # 10))%Q)).
Proof.
  intros Hdb Hpay Hne.
  destruct (forEach_aggregate (webcamMetrics session) initial
              (payloads_webcam session Hpay)) as (acc & Hloop & _).
  destruct (getPageTimeAnalytics_returns session Hpay) as [pageTime Hpage].
  exists acc. unfold calculateFinalMetrics. rewrite Hdb.
  destruct (length (webcamMetrics session) =? 0)%nat eqn:Hlen.
  { apply Nat.eqb_eq in Hlen. destruct (webcamMetrics session); [congruence|].
    discriminate. }
  rewrite Hloop, Hpage. cbn [mbind JS.Completion_bind mret JS.Completion_ret].
  eexists. split; [reflexivity|]. split; [reflexivity|].
  cbn. repeat split; reflexivity.
Qed.

(** C2. A session without webcam samples: no exception, the all-zero
    snapshot, [durationSeconds] read from the session record. *)
Theorem calculateFinalMetrics_no_samples (db : gmap string Session.t)
    (sessionId : string) (session : Session.t) :
  db !! sessionId = Some session →
  List.filter (is_type webcam) (interactions session) = [] →
  ∃ m,
    calculateFinalMetrics db sessionId = JS.Return (Metrics m)
    ∧ engagementScore m = 0
    ∧ attentionRate m = 0
    ∧ avgBlinkRate m = 0
    ∧ Session.distractionCount m = 0
    ∧ totalMetricsRecorded m = 0%nat
    ∧ durationSeconds m = duration_seconds session.
Proof.
  intros Hdb Hnone. unfold calculateFinalMetrics, webcamMetrics.
  rewrite Hdb, Hnone. cbn. eexists. split; [reflexivity|].
  cbn. repeat split; reflexivity.
Qed.

Lemma calculateFinalMetrics_no_samples_witness :
  ∃ m,
    calculateFinalMetrics
      {[ "s1" := Examples.sessionOf false [Examples.pageTurn 3 10] ]} "s1"
    = JS.Return (Metrics m)
    ∧ engagementScore m = 0
    ∧ attentionRate m = 0
    ∧ avgBlinkRate m = 0
    ∧ Session.distractionCount m = 0
    ∧ totalMetricsRecorded m = 0%nat
    ∧ durationSeconds m = 60.
Proof.
  apply (calculateFinalMetrics_no_samples
           {[ "s1" := Examples.sessionOf false [Examples.pageTurn 3 10] ]}
           "s1" (Examples.sessionOf false [Examples.pageTurn 3 10])).
  - reflexivity.
  - reflexivity.
Defined.

(** C3. The returned [distractionCount] is the number of rising edges of
    [hasPhone] over the webcam samples, an absent value counting as
    false; the sequence false, true, true, false, true has two. *)
Theorem calculateFinalMetrics_distractionCount (db : gmap string Session.t)
    (sessionId : string) (session : Session.t) :
  db !! sessionId = Some session →
  Spec.payloads_present session →
  (∃ m,
     calculateFinalMetrics db sessionId = JS.Return (Metrics m)
     ∧ Session.distractionCount m
       = Z.of_nat (Spec.risingEdges
                     (Spec.hasPhoneSequence (Spec.samples session))))
  ∧ Spec.risingEdges [false; true; true; false; true] = 2%nat.
Proof.
  intros Hdb Hpay. split; [|reflexivity].
  destruct (webcamMetrics session) as [|i0 rest] eqn:Hweb.
  { eexists. split.
    - unfold calculateFinalMetrics. rewrite Hdb, Hweb. reflexivity.
    - unfold Spec.samples. rewrite Hweb. reflexivity. }
  assert (Hne : webcamMetrics session ≠ []) by (rewrite Hweb; discriminate).
  destruct (calculateFinalMetrics_computed db sessionId session Hdb Hpay Hne)
    as (acc & m & Hloop & Hm & _ & _ & Hcount & _).
  destruct (forEach_aggregate (webcamMetrics session) initial
              (payloads_webcam session Hpay))
    as (acc' & Hloop' & _ & _ & _ & Hc).
  rewrite Hloop in Hloop'. injection Hloop' as <-.
  exists m. split; [exact Hm|].
  rewrite Hcount, Hc.
  cbn [initial NLPService.distractionCount phoneDetectedFlag].
  rewrite edgesFrom_risingEdges. reflexivity.
Qed.

Lemma calculateFinalMetrics_distractionCount_witness :
  ∃ m,
    calculateFinalMetrics
      {[ "s1" := Examples.sessionOf false
                   (Examples.phoneSample
                    <$> [Some false; Some true; Some true; None; Some true]) ]}
      "s1"
    = JS.Return (Metrics m)
    ∧ Session.distractionCount m = 2.
Proof.
  destruct (calculateFinalMetrics_distractionCount
              {[ "s1" := Examples.sessionOf false
                           (Examples.phoneSample
                            <$> [Some false; Some true; Some true; None;
                                 Some true]) ]}
              "s1"
              (Examples.sessionOf false
                 (Examples.phoneSample
                  <$> [Some false; Some true; Some true; None; Some true])))
    as [(m & Hm & Hcount) _].
  - reflexivity.
  - repeat constructor; intros _; eexists; reflexivity.
  - exists m. split; [exact Hm|]. rewrite Hcount. reflexivity.
Defined.

End Aggregation.

(** ** Anomaly detection *)

Section Anomalies.
Import Metric.

(** *** The loop over adjacent pairs *)

Lemma dropStep_dropAt (metrics : list Metric.t) (acc : list Anomaly)
    (i : nat) :
  (1 ≤ i < length metrics)%nat →
  dropStep metrics acc i
  = JS.Return (acc ++ from_option (fun a => [a]) [] (Loops.dropAt metrics i)).
Proof.
  intros Hi. unfold dropStep, Loops.dropAt, Spec.engagementDropOf.
  destruct (lookup_lt_is_Some_2 metrics (i - 1)) as [prev ->]; [lia|].
  destruct (lookup_lt_is_Some_2 metrics i) as [curr ->]; [lia|].
  cbn [JS.deref mbind JS.Completion_bind option_bind].
  destruct (Qlt_le_dec 30 _); cbn; [reflexivity|].
  rewrite app_nil_r. reflexivity.
Qed.

Lemma dropLoop (metrics : list Metric.t) (n k : nat) (acc : list Anomaly) :
  (1 ≤ k)%nat → (k + n ≤ length metrics)%nat →
  JS.forEach (dropStep metrics) (seq k n) acc
  = JS.Return (acc ++ omap (Loops.dropAt metrics) (seq k n)).
Proof.
  revert k acc. induction n as [|n IH]; intros k acc Hk Hn.
  - cbn. rewrite app_nil_r. reflexivity.
  - cbn [seq JS.forEach]. rewrite dropStep_dropAt by lia.
    cbn [mbind JS.Completion_bind]. rewrite IH by lia.
    cbn [omap list_omap].
    destruct (Loops.dropAt metrics k); cbn [from_option];
      rewrite <- ?app_assoc; reflexivity.
Qed.

Lemma omap_seq_shift {B : Type} (f g : nat → option B) (n k : nat) :
  (∀ i, (k ≤ i)%nat → f (S i) = g i) →
  omap f (seq (S k) n) = omap g (seq k n).
Proof.
  revert k. induction n as [|n IH]; intros k Hfg; [reflexivity|].
  cbn [seq omap list_omap]. rewrite Hfg by lia.
  rewrite IH; [reflexivity|]. intros i Hi. apply Hfg. lia.
Qed.

Lemma dropAt_pairs (x : Metric.t) (l : list Metric.t) :
  omap (Loops.dropAt (x :: l)) (seq 1 (length l))
  = omap Spec.engagementDropOf (zip (x :: l) l).
Proof.
  revert x. induction l as [|y l IH]; intros x; [reflexivity|].
  change (zip (x :: y :: l) (y :: l)) with ((x, y) :: zip (y :: l) l).
  cbn [length seq omap list_omap].
  change (Loops.dropAt (x :: y :: l) 1) with (Spec.engagementDropOf (x, y)).
  rewrite <- IH.
  rewrite (omap_seq_shift (Loops.dropAt (x :: y :: l))
             (Loops.dropAt (y :: l)) (length l) 1);
    [reflexivity|].
  intros [|i] Hi; [lia|]. unfold Loops.dropAt.
  replace (S (S i) - 1)%nat with (S i) by lia.
  replace (S i - 1)%nat with i by lia. reflexivity.
Qed.

Lemma dropLoop_engagementDrops (metrics : list Metric.t) :
  JS.forEach (dropStep metrics) (seq 1 (length metrics - 1)) []
  = JS.Return (Spec.engagementDrops metrics).
Proof.
  destruct metrics as [|x l]; [reflexivity|].
  replace (length (x :: l) - 1)%nat with (length l) by (cbn [length]; lia).
  rewrite dropLoop by (cbn [length]; lia).
  rewrite dropAt_pairs. reflexivity.
Qed.

(** *** The loop that counts consecutive absent samples *)

Lemma absent_prefix (q l : list Metric.t) (k : nat) :
  (1 ≤ k ≤ length q)%nat →
  Spec.absent (reverse q ++ l) (length q - k) = Loops.absentAt q (k - 1).
Proof.
  intros Hk. unfold Spec.absent, Loops.absentAt.
  rewrite lookup_app_l by (rewrite length_reverse; lia).
  rewrite reverse_lookup by lia.
  replace (length q - S (length q - k))%nat with (k - 1)%nat by lia.
  reflexivity.
Qed.

Lemma absent_boundary (q l : list Metric.t) (m : Metric.t) :
  Spec.absent (reverse q ++ m :: l) (length q) = negb (presence_detected m).
Proof.
  unfold Spec.absent.
  rewrite list_lookup_middle by (rewrite length_reverse; reflexivity).
  reflexivity.
Qed.

Lemma absentAt_lt (q : list Metric.t) (j : nat) :
  Loops.absentAt q j = true → (j < length q)%nat.
Proof.
  unfold Loops.absentAt. destruct (q !! j) eqn:E; [|discriminate].
  intros _. eapply lookup_lt_Some. exact E.
Qed.

Lemma absentAt_ge (q : list Metric.t) (j : nat) :
  (length q ≤ j)%nat → Loops.absentAt q j = false.
Proof.
  intros H. unfold Loops.absentAt. rewrite lookup_ge_None_2 by exact H.
  reflexivity.
Qed.

Lemma leadingAbsent_four (q : list Metric.t) :
  (Loops.leadingAbsent q =? 4)%nat
  = Loops.absentAt q 0 && Loops.absentAt q 1 && Loops.absentAt q 2
    && Loops.absentAt q 3 && negb (Loops.absentAt q 4).
Proof.
  unfold Loops.absentAt.
  destruct q as [|a [|b [|c [|d [|e q]]]]];
    cbn [Loops.leadingAbsent lookup list_lookup];
    repeat match goal with
           | |- context [presence_detected ?x] =>
               destruct (presence_detected x)
           end;
    reflexivity.
Qed.

Lemma fifth_at_boundary (q l : list Metric.t) (m : Metric.t) :
  Spec.fifthOfAbsenceRun (reverse q ++ m :: l) (length q)
  = negb (presence_detected m) && (Loops.leadingAbsent q =? 4)%nat.
Proof.
  unfold Spec.fifthOfAbsenceRun. cbn [forallb].
  rewrite Nat.sub_0_r, absent_boundary, leadingAbsent_four.
  destruct (le_lt_dec 5 (length q)) as [H5|H5].
  - rewrite !absent_prefix by lia. cbn [Nat.sub].
    rewrite (leb_correct 4), (leb_correct 5) by lia.
    destruct (Loops.absentAt q 0), (Loops.absentAt q 1),
      (Loops.absentAt q 2), (Loops.absentAt q 3), (Loops.absentAt q 4),
      (presence_detected m); reflexivity.
  - rewrite (leb_correct_conv (length q) 5) by lia.
    rewrite (absentAt_ge q 4) by lia.
    destruct (le_lt_dec 4 (length q)) as [H4|H4].
    + rewrite !absent_prefix by lia. cbn [Nat.sub].
      rewrite (leb_correct 4) by lia.
      destruct (Loops.absentAt q 0), (Loops.absentAt q 1),
        (Loops.absentAt q 2), (Loops.absentAt q 3),
        (presence_detected m); reflexivity.
    + rewrite (leb_correct_conv (length q) 4) by lia.
      rewrite (absentAt_ge q 3) by lia.
      rewrite !andb_false_r. reflexivity.
Qed.

Lemma absenceLoop (l q post : list Metric.t) (acc : list Anomaly) :
  JS.forEach absenceStep l (Z.of_nat (Loops.leadingAbsent q), acc)
  = JS.Return
      (Z.of_nat (Loops.leadingAbsent (reverse l ++ q)),
       acc ++ omap (Spec.prolongedAbsenceOf (reverse q ++ l ++ post))
                (seq (length q) (length l))).
Proof.
  revert q acc. induction l as [|m l IH]; intros q acc.
  - cbn. rewrite app_nil_r. reflexivity.
  - cbn [JS.forEach length seq omap list_omap].
    unfold Spec.prolongedAbsenceOf at 1.
    change ((m :: l) ++ post) with (m :: (l ++ post)).
    rewrite fifth_at_boundary.
    rewrite list_lookup_middle by (rewrite length_reverse; reflexivity).
    assert (Hwhole : reverse q ++ m :: (l ++ post)
                     = reverse (m :: q) ++ l ++ post)
      by (rewrite reverse_cons, <- app_assoc; reflexivity).
    assert (Hend : reverse (m :: l) ++ q = reverse l ++ m :: q)
      by (rewrite reverse_cons, <- app_assoc; reflexivity).
    rewrite Hend, Hwhole. unfold absenceStep.
    destruct (presence_detected m) eqn:Hm; cbn [negb andb].
    + cbn [mret JS.Completion_ret mbind JS.Completion_bind].
      specialize (IH (m :: q) acc).
      cbn [Loops.leadingAbsent length] in IH. rewrite Hm in IH.
      exact IH.
    + destruct (Nat.eqb_spec (Loops.leadingAbsent q) 4) as [E|E].
      * rewrite (proj2 (Z.eqb_eq _ 5)) by lia.
        cbn [mret JS.Completion_ret mbind JS.Completion_bind fmap option_fmap
             option_map].
        specialize (IH (m :: q) (acc ++ [Spec.prolongedAbsenceAt m])).
        cbn [Loops.leadingAbsent length] in IH. rewrite Hm in IH.
        rewrite Nat2Z.inj_succ in IH. unfold Z.succ in IH.
        rewrite <- app_assoc in IH. exact IH.
      * rewrite (proj2 (Z.eqb_neq _ 5)) by lia.
        cbn [mret JS.Completion_ret mbind JS.Completion_bind].
        specialize (IH (m :: q) acc).
        cbn [Loops.leadingAbsent length] in IH. rewrite Hm in IH.
        rewrite Nat2Z.inj_succ in IH. unfold Z.succ in IH.
        exact IH.
Qed.

Lemma absenceStep_absent (c : Z) (acc : list Anomaly) (m : Metric.t) :
  presence_detected m = false →
  absenceStep (c, acc) m
  = JS.Return (c + 1,
               if c + 1 =? 5 then acc ++ [Spec.prolongedAbsenceAt m] else acc).
Proof.
  intros Hm. unfold absenceStep. rewrite Hm. cbn [negb].
  destruct (c + 1 =? 5); reflexivity.
Qed.

(** The loop over a stretch of absent samples entered with the counter
    at [c]. *)
Lemma absenceLoop_run (run : list Metric.t) (c : nat) (acc : list Anomaly) :
  Forall (fun m => presence_detected m = false) run →
  ∃ c',
    JS.forEach absenceStep run (Z.of_nat c, acc)
    = JS.Return
        (c',
         acc ++ (if (c <? 5)%nat
                 then from_option (fun m => [Spec.prolongedAbsenceAt m]) []
                        (run !! (4 - c)%nat)
                 else [])).
Proof.
  intros Hrun. revert c acc.
  induction Hrun as [|m run Hm _ IH]; intros c acc.
  - exists (Z.of_nat c). cbn [JS.forEach].
    rewrite lookup_nil. cbn [from_option].
    destruct (c <? 5)%nat; rewrite app_nil_r; reflexivity.
  - cbn [JS.forEach]. rewrite absenceStep_absent by exact Hm.
    cbn [mbind JS.Completion_bind].
    destruct (Nat.eqb_spec c 4) as [E|E].
    + subst c. change (Z.of_nat 4 + 1) with (Z.of_nat 5).
      change (Z.of_nat 5 =? 5) with true. cbn iota.
      destruct (IH 5%nat (acc ++ [Spec.prolongedAbsenceAt m])) as [c' Hc'].
      exists c'. rewrite Hc'. cbn. rewrite app_nil_r. reflexivity.
    + rewrite (proj2 (Z.eqb_neq _ 5)) by lia.
      destruct (IH (S c) acc) as [c' Hc'].
      exists c'. rewrite Nat2Z.inj_succ in Hc'. unfold Z.succ in Hc'.
      rewrite Hc'. do 2 f_equal.
      destruct (Nat.ltb_spec c 5) as [Hlt|Hge].
      * rewrite (proj2 (Nat.ltb_lt (S c) 5)) by lia.
        replace (4 - c)%nat with (S (4 - S c)) by lia. reflexivity.
      * rewrite (proj2 (Nat.ltb_ge (S c) 5)) by lia. reflexivity.
Qed.

(** A stretch of absent samples that starts a run contributes the
    anomaly of its fifth sample and nothing else. *)
Lemma run_fires_once (pre run post : list Metric.t) :
  Forall (fun m => presence_detected m = false) run →
  pre = [] ∨ (∃ pre' m, pre = pre' ++ [m] ∧ presence_detected m = true) →
  omap (Spec.prolongedAbsenceOf (pre ++ run ++ post))
    (seq (length pre) (length run))
  = from_option (fun m => [Spec.prolongedAbsenceAt m]) [] (run !! 4%nat).
Proof.
  intros Hrun Hpre.
  assert (Hlead : Loops.leadingAbsent (reverse pre) = 0%nat).
  { destruct Hpre as [->|(pre' & m & -> & Hm)]; [reflexivity|].
    rewrite reverse_app. cbn. rewrite Hm. reflexivity. }
  pose proof (absenceLoop run (reverse pre) post []) as Hloop.
  rewrite Hlead, reverse_involutive, length_reverse in Hloop.
  destruct (absenceLoop_run run 0 [] Hrun) as [c' Hc'].
  change (Z.of_nat 0) with 0 in Hc'. change (Z.of_nat 0) with 0 in Hloop.
  rewrite Hc' in Hloop. injection Hloop as _ Hloop.
  symmetry. exact Hloop.
Qed.

Lemma present_fires_nothing (l : list Metric.t) (i : nat) (m : Metric.t) :
  l !! i = Some m → presence_detected m = true →
  Spec.prolongedAbsenceOf l i = None.
Proof.
  intros Hi Hm. unfold Spec.prolongedAbsenceOf, Spec.fifthOfAbsenceRun.
  cbn [forallb]. rewrite Nat.sub_0_r. unfold Spec.absent at 5.
  rewrite Hi, Hm. cbn [negb]. rewrite !andb_false_r. reflexivity.
Qed.

Lemma detectAnomalies_computed (collection : list Metric.t)
    (sessionId : string) :
  detectAnomalies collection sessionId
  = JS.Return (Spec.engagementDrops (find collection sessionId)
               ++ Spec.prolongedAbsences (find collection sessionId)).
Proof.
  unfold detectAnomalies. rewrite dropLoop_engagementDrops.
  cbn [mbind JS.Completion_bind].
  rewrite (absenceLoop (find collection sessionId) [] []).
  rewrite !app_nil_r. reflexivity.
Qed.

(** *** Selecting the anomalies of one type *)

Lemma ofType_all (ty : AnomalyType) (l : list Anomaly) :
  Forall (fun a => anomaly_type a = ty) l → Spec.ofType ty l = l.
Proof.
  unfold Spec.ofType. induction 1 as [|a l Ha _ IH]; [reflexivity|].
  cbn [List.filter]. rewrite bool_decide_eq_true_2 by exact Ha.
  rewrite IH. reflexivity.
Qed.

Lemma ofType_none (ty : AnomalyType) (l : list Anomaly) :
  Forall (fun a => anomaly_type a ≠ ty) l → Spec.ofType ty l = [].
Proof.
  unfold Spec.ofType. induction 1 as [|a l Ha _ IH]; [reflexivity|].
  cbn [List.filter]. rewrite bool_decide_eq_false_2 by exact Ha.
  exact IH.
Qed.

Lemma ofType_app (ty : AnomalyType) (l1 l2 : list Anomaly) :
  Spec.ofType ty (l1 ++ l2) = Spec.ofType ty l1 ++ Spec.ofType ty l2.
Proof. unfold Spec.ofType. apply List.filter_app. Qed.

Lemma engagementDrops_type (l : list Metric.t) :
  Forall (fun a => anomaly_type a = engagement_drop) (Spec.engagementDrops l).
Proof.
  apply Forall_forall. intros a Ha. unfold Spec.engagementDrops in Ha.
  apply list_elem_of_omap in Ha. destruct Ha as ([prev curr] & _ & Ha).
  unfold Spec.engagementDropOf in Ha.
  destruct (Qlt_le_dec 30 _); [|discriminate].
  injection Ha as <-. reflexivity.
Qed.

Lemma prolongedAbsences_type (l : list Metric.t) :
  Forall (fun a => anomaly_type a = prolonged_absence)
    (Spec.prolongedAbsences l).
Proof.
  apply Forall_forall. intros a Ha. unfold Spec.prolongedAbsences in Ha.
  apply list_elem_of_omap in Ha. destruct Ha as (i & _ & Ha).
  unfold Spec.prolongedAbsenceOf in Ha.
  destruct (Spec.fifthOfAbsenceRun l i); [|discriminate].
  destruct (l !! i); [|discriminate]. injection Ha as <-. reflexivity.
Qed.

(** C5. In the sequence of samples of a session, a stretch [run] of
    absent samples that starts a run (nothing or a present sample comes
    before it) yields exactly one [prolonged_absence] anomaly when it has
    at least five samples, of severity high and at the timestamp of its
    fifth sample, and none when it is shorter; a present sample yields
    none. The [prolonged_absence] anomalies returned are those of the
    positions that are the fifth of a run. *)
Theorem detectAnomalies_prolonged_absence (collection : list Metric.t)
    (sessionId : string) (pre run post : list Metric.t) :
  find collection sessionId = pre ++ run ++ post →
  Forall (fun m => presence_detected m = false) run →
  pre = [] ∨ (∃ pre' m, pre = pre' ++ [m] ∧ presence_detected m = true) →
  ∃ anomalies,
    detectAnomalies collection sessionId = JS.Return anomalies
    ∧ Spec.ofType prolonged_absence anomalies
      = omap (Spec.prolongedAbsenceOf (pre ++ run ++ post))
          (seq 0 (length (pre ++ run ++ post)))
    ∧ omap (Spec.prolongedAbsenceOf (pre ++ run ++ post))
        (seq (length pre) (length run))
      = match run !! 4%nat with
        | Some fifth =>
            [{| anomaly_type := prolonged_absence;
                anomaly_timestamp := timestamp fifth;
                severity := high;
                details := Student_absent_for_extended_period |}]
        | None => []
        end
    ∧ (∀ i m, (pre ++ run ++ post) !! i = Some m →
              presence_detected m = true →
              Spec.prolongedAbsenceOf (pre ++ run ++ post) i = None).
Proof.
  intros Hfind Hrun Hpre.
  exists (Spec.engagementDrops (find collection sessionId)
          ++ Spec.prolongedAbsences (find collection sessionId)).
  split; [apply detectAnomalies_computed|].
  split; [|split].
  - rewrite ofType_app.
    rewrite (ofType_none prolonged_absence (Spec.engagementDrops _)).
    + rewrite (ofType_all _ _ (prolongedAbsences_type _)), Hfind.
      reflexivity.
    + eapply Forall_impl; [apply engagementDrops_type|].
      intros a Ha. cbn beta in Ha. rewrite Ha. discriminate.
  - rewrite (run_fires_once pre run post Hrun Hpre).
    destruct (run !! 4%nat); reflexivity.
  - intros i m. apply present_fires_nothing.
Qed.

Lemma detectAnomalies_prolonged_absence_witness :
  ∃ anomalies,
    detectAnomalies
      ([Examples.metricOf 1 true 70]
       ++ Examples.absentSamples [2; 3; 4; 5; 6; 7; 8]
       ++ [Examples.metricOf 9 true 70]) "s1"
    = JS.Return anomalies
    ∧ Spec.ofType prolonged_absence anomalies
      = [{| anomaly_type := prolonged_absence; anomaly_timestamp := 6;
            severity := high;
            details := Student_absent_for_extended_period |}].
Proof.
  destruct (detectAnomalies_prolonged_absence
              ([Examples.metricOf 1 true 70]
               ++ Examples.absentSamples [2; 3; 4; 5; 6; 7; 8]
               ++ [Examples.metricOf 9 true 70]) "s1"
              [Examples.metricOf 1 true 70]
              (Examples.absentSamples [2; 3; 4; 5; 6; 7; 8])
              [Examples.metricOf 9 true 70])
    as (anomalies & Hrun & Htype & _).
  - reflexivity.
  - repeat constructor.
  - right. exists [], (Examples.metricOf 1 true 70). split; reflexivity.
  - exists anomalies. split; [exact Hrun|]. rewrite Htype. reflexivity.
Defined.

End Anomalies.

(** ** Streak *)

Section StreakProps.
Import Analytics.
Variable tz : Z.

Lemma setHours0_shift (d k : Z) :
  setHours0 tz (d - k * MS_PER_DAY) = setHours0 tz d - k * MS_PER_DAY.
Proof.
  unfold setHours0.
  replace (d - k * MS_PER_DAY + tz) with (d + tz + (- k) * MS_PER_DAY) by lia.
  rewrite Z_mod_plus_full. lia.
Qed.

Lemma streakLoop_same_day (currentDate : Z) (rest : list Z) (n : Z) :
  streakLoop (currentDate :: rest) n currentDate
  = streakLoop rest (n + 1) (currentDate - MS_PER_DAY).
Proof. cbn [streakLoop]. rewrite Z.sub_diag. reflexivity. Qed.

Lemma streakLoop_day_before (currentDate : Z) (rest : list Z) (n : Z) :
  streakLoop (currentDate - MS_PER_DAY :: rest) n currentDate
  = streakLoop rest (n + 1) (currentDate - MS_PER_DAY).
Proof.
  cbn [streakLoop].
  replace (currentDate - (currentDate - MS_PER_DAY)) with MS_PER_DAY by lia.
  reflexivity.
Qed.

Ltac sort_dates :=
  unfold sortDescending, merge_sort; cbn;
  repeat first
    [ rewrite list_merge_nil_r
    | rewrite list_merge_nil_l
    | rewrite list_merge_cons
    | rewrite decide_True by (unfold flip, MS_PER_DAY; lia)
    | rewrite decide_False by (unfold flip, MS_PER_DAY; lia) ];
  reflexivity.

Lemma sortDescending2 (a b : Z) : b < a → sortDescending [a; b] = [a; b].
Proof. intros H. sort_dates. Qed.

Lemma sortDescending3 (a b c : Z) :
  c < b → b < a → sortDescending [a; b; c] = [a; b; c].
Proof. intros H1 H2. sort_dates. Qed.

Lemma Set_from_acc (acc l : list Z) :
  NoDup (acc ++ l) →
  foldl (fun acc x => if decide (x ∈ acc) then acc else acc ++ [x]) acc l
  = acc ++ l.
Proof.
  revert acc. induction l as [|x l IH]; intros acc Hnd.
  - cbn. rewrite app_nil_r. reflexivity.
  - cbn [foldl]. apply NoDup_app in Hnd as Hparts.
    destruct Hparts as (_ & Hdisj & _).
    rewrite decide_False by (intros Hin; apply (Hdisj x Hin); left).
    rewrite IH by (rewrite <- app_assoc; exact Hnd).
    rewrite <- app_assoc. reflexivity.
Qed.

Lemma Set_from_NoDup (l : list Z) : NoDup l → JS.Set_from l = l.
Proof. intros H. unfold JS.Set_from. apply (Set_from_acc [] l H). Qed.

Ltac distinct_dates :=
  rewrite Set_from_NoDup
    by (repeat (apply NoDup_cons; split;
                [rewrite ?elem_of_cons, elem_of_nil; unfold MS_PER_DAY; lia|]);
        apply NoDup_nil; exact I).

Lemma latest_recent (today latest x : Z) :
  today - latest ≤ MS_PER_DAY →
  (if Qlt_le_dec 1 (inject_Z (today - latest) / inject_Z MS_PER_DAY)
   then 0 else x) = x.
Proof.
  intros H. destruct (Qlt_le_dec 1 _) as [Hlt|_]; [|reflexivity].
  exfalso. revert Hlt. generalize (today - latest) H. intros z Hz.
  unfold Qlt, Qdiv, Qmult, Qinv, inject_Z, MS_PER_DAY in *. simpl. lia.
Qed.

Lemma latest_stale (today latest x : Z) :
  MS_PER_DAY < today - latest →
  (if Qlt_le_dec 1 (inject_Z (today - latest) / inject_Z MS_PER_DAY)
   then 0 else x) = 0.
Proof.
  intros H. destruct (Qlt_le_dec 1 _) as [_|Hle]; [reflexivity|].
  exfalso. revert Hle. generalize (today - latest) H. intros z Hz.
  unfold Qle, Qdiv, Qmult, Qinv, inject_Z, MS_PER_DAY in *. simpl. lia.
Qed.

(** C7. Sessions today and two days ago, none yesterday: the code
    returns a streak of 2, not 1; the day after a counted day may be
    skipped once. Sessions on three consecutive days ending today give
    3, and the streak is 0 when the latest session day is two days
    ago. *)
Theorem streak_counts_across_gap (now : Z) :
  streak tz now [now; now - 2 * MS_PER_DAY] = 2
  ∧ streak tz now [now; now - 1 * MS_PER_DAY; now - 2 * MS_PER_DAY] = 3
  ∧ streak tz now [now - 2 * MS_PER_DAY; now - 3 * MS_PER_DAY] = 0.
Proof.
  unfold streak. cbn [fmap list_fmap].
  rewrite !setHours0_shift. set (today := setHours0 tz now).
  split; [|split]; distinct_dates.
  - rewrite sortDescending2 by (unfold MS_PER_DAY; lia).
    rewrite latest_recent by (unfold MS_PER_DAY; lia).
    rewrite streakLoop_same_day.
    replace (today - 2 * MS_PER_DAY) with (today - MS_PER_DAY - MS_PER_DAY)
      by lia.
    rewrite streakLoop_day_before. reflexivity.
  - rewrite sortDescending3 by (unfold MS_PER_DAY; lia).
    rewrite latest_recent by (unfold MS_PER_DAY; lia).
    rewrite streakLoop_same_day.
    replace (today - 1 * MS_PER_DAY) with (today - MS_PER_DAY) by lia.
    rewrite streakLoop_same_day.
    replace (today - 2 * MS_PER_DAY) with (today - MS_PER_DAY - MS_PER_DAY)
      by lia.
    rewrite streakLoop_same_day. reflexivity.
  - rewrite sortDescending2 by (unfold MS_PER_DAY; lia).
    apply latest_stale. unfold MS_PER_DAY. lia.
Qed.

End StreakProps.

(** ** Productivity score *)

Section Productivity.
Import Analytics.
Local Open Scope Q_scope.

Lemma Qnat_nonneg (n : nat) : 0 <= Metric.Qnat n.
Proof. unfold Metric.Qnat, Qle. simpl. lia. Qed.

Lemma Qdiv_nonneg (a b : Q) : 0 <= a → 0 < b → 0 <= a / b.
Proof. intros Ha Hb. apply Qle_shift_div_l; [exact Hb|]. lra. Qed.

Lemma capped_normalized (x : Q) : 0 <= x → Spec.normalized (Qmin 100 x).
Proof.
  intros Hx. split.
  - apply Q.min_glb; [discriminate|exact Hx].
  - apply Q.le_min_l.
Qed.

Lemma totalTime_nonneg (sessions : list SessionTimes) :
  Spec.times_ordered sessions → 0 <= totalTime sessions.
Proof.
  unfold totalTime. intros H.
  assert (Hacc : ∀ acc, 0 <= acc →
            0 <= foldl (fun sum s =>
                          match end_time s, start_time s with
                          | Some e, Some b => sum + inject_Z (e - b) / 60000
                          | _, _ => sum
                          end) acc sessions).
  { induction H as [|s l Hs _ IH]; intros acc Hacc; [exact Hacc|].
    cbn [foldl]. apply IH.
    destruct (end_time s) as [e|] eqn:He, (start_time s) as [b|] eqn:Hb;
      try exact Hacc.
    specialize (Hs b e eq_refl eq_refl).
    assert (0 <= inject_Z (e - b) / 60000).
    { apply Qdiv_nonneg; [|reflexivity]. unfold Qle. simpl. lia. }
    lra. }
  apply Hacc. discriminate.
Qed.

Ltac qle_cases :=
  repeat match goal with
         | |- context [Qle_bool ?a ?b] =>
             let H := fresh "H" in
             destruct (Qle_bool a b) eqn:H;
             [apply Qle_bool_iff in H | apply Qle_bool_false in H]
         end.

Lemma gradeOf_thresholds (o : Q) :
  (90 <= o → gradeOf o = A_plus)
  ∧ (85 <= o ∧ o < 90 → gradeOf o = A)
  ∧ (80 <= o ∧ o < 85 → gradeOf o = A_minus)
  ∧ (70 <= o ∧ o < 80 → gradeOf o = B)
  ∧ (60 <= o ∧ o < 70 → gradeOf o = C)
  ∧ (o < 60 → gradeOf o = D).
Proof.
  unfold gradeOf. qle_cases;
    repeat split; intros; try reflexivity; exfalso; lra.
Qed.

Lemma or0_range (x : option Q) (hi : Q) :
  0 <= hi → (∀ y, x = Some y → 0 <= y ∧ y <= hi) →
  0 <= JS.or0 x ∧ JS.or0 x <= hi.
Proof.
  intros Hhi H. destruct x as [y|]; cbn; [apply H; reflexivity|].
  split; [discriminate|exact Hhi].
Qed.

Lemma subScores_normalized (days : Z) (sessions : list SessionTimes)
    (engagementData : option EngagementData) (highlights annotations : nat) :
  (0 < days)%Z →
  Spec.times_ordered sessions →
  Spec.rates_in_range engagementData →
  let s := subScores days sessions engagementData highlights annotations in
  Spec.normalized (sessionScore s) ∧ Spec.normalized (timeScore s)
  ∧ Spec.normalized (engagementScore s) ∧ Spec.normalized (presenceScore s)
  ∧ Spec.normalized (focusScore s) ∧ Spec.normalized (activityScore s).
Proof.
  intros Hdays Htimes Hrates s.
  assert (Hd : 0 < inject_Z days) by (unfold Qlt; simpl; lia).
  assert (He : 0 <= JS.or0 (engagementData ≫= avg_engagement)
               ∧ JS.or0 (engagementData ≫= avg_engagement) <= 100).
  { apply or0_range; [discriminate|]. intros y Hy.
    destruct engagementData as [d|]; [|discriminate].
    destruct (Hrates d eq_refl) as (H & _). apply H. exact Hy. }
  assert (Hp : 0 <= JS.or0 (engagementData ≫= presence_rate)
               ∧ JS.or0 (engagementData ≫= presence_rate) <= 1).
  { apply or0_range; [discriminate|]. intros y Hy.
    destruct engagementData as [d|]; [|discriminate].
    destruct (Hrates d eq_refl) as (_ & H & _). apply H. exact Hy. }
  assert (Hf : 0 <= JS.or0 (engagementData ≫= distraction_rate)
               ∧ JS.or0 (engagementData ≫= distraction_rate) <= 1).
  { apply or0_range; [discriminate|]. intros y Hy.
    destruct engagementData as [d|]; [|discriminate].
    destruct (Hrates d eq_refl) as (_ & _ & H). apply H. exact Hy. }
  subst s. unfold subScores.
  cbn [sessionScore timeScore engagementScore presenceScore focusScore
       activityScore].
  split; [|split; [|split; [|split; [|split]]]].
  - apply capped_normalized.
    pose proof (Qdiv_nonneg _ _ (Qnat_nonneg (length sessions)) Hd). lra.
  - apply capped_normalized.
    assert (0 <= totalTime sessions / (inject_Z days * 60)).
    { apply Qdiv_nonneg; [apply totalTime_nonneg; exact Htimes|]. lra. }
    lra.
  - exact He.
  - split; lra.
  - split.
    + apply Q.le_max_l.
    + apply Q.max_lub; [discriminate|]. lra.
  - apply capped_normalized.
    pose proof (Qdiv_nonneg _ _
                  (Qnat_nonneg (highlights + annotations)) Hd). lra.
Qed.

End Productivity.

(** ** Read operations without data *)

Section NoData.
Import MetricsRoutes.

Lemma findLatest_none (collection : list Metric.t) (sessionId : string) :
  Metric.find collection sessionId = [] →
  Metric.findLatest collection sessionId = None.
Proof. intros H. unfold Metric.findLatest. rewrite H. reflexivity. Qed.

Lemma getSessionSummary_none (collection : list Metric.t)
    (sessionId : string) :
  Metric.find collection sessionId = [] →
  Metric.getSessionSummary collection sessionId = None.
Proof. intros H. unfold Metric.getSessionSummary. rewrite H. reflexivity. Qed.

(** C9, as the code has it. For a session without samples, the summary
    of an owned session is answered with status 404 and the message
    [No metrics found for this session]; the anomaly and alert
    operations answer with a success carrying count 0 and an empty list,
    and the productivity score of a period without any data is a
    success. *)
Theorem read_operations_without_data (session : Session.t)
    (collection : list Metric.t) (sessionId : string) (days : Z) :
  Metric.find collection sessionId = [] →
  0 < days →
  get_summary (Some session) collection sessionId
  = Http.failure 404 "No metrics found for this session"
  ∧ get_anomalies collection sessionId
    = {| Http.status := 200; Http.success := true; Http.message := None;
         Http.count := Some 0%nat; Http.data := Some [] |}
  ∧ get_alerts collection sessionId
    = {| Http.status := 200; Http.success := true; Http.message := None;
         Http.count := Some 0%nat; Http.data := Some [] |}
  ∧ Http.is_success
      (Analytics.get_productivity_score days [] None 0 0) = true.
Proof.
  intros Hnone Hdays. split; [|split; [|split]].
  - unfold get_summary. rewrite getSessionSummary_none by exact Hnone.
    reflexivity.
  - unfold get_anomalies. rewrite detectAnomalies_computed, Hnone.
    reflexivity.
  - unfold get_alerts. rewrite findLatest_none by exact Hnone. reflexivity.
  - unfold Analytics.get_productivity_score.
    rewrite (proj2 (Z.leb_gt days 0)) by lia. reflexivity.
Qed.

Lemma read_operations_without_data_witness :
  Http.status
    (get_summary (Some (Examples.sessionOf false []))
       [Examples.metricOf 1 true 70] "s2") = 404
  ∧ Http.data (get_anomalies [Examples.metricOf 1 true 70] "s2") = Some [].
Proof.
  destruct (read_operations_without_data (Examples.sessionOf false [])
              [Examples.metricOf 1 true 70] "s2" 7)
    as (Hsummary & Hanomalies & _).
  - reflexivity.
  - reflexivity.
  - rewrite Hsummary, Hanomalies. split; reflexivity.
Defined.

(** C9 as stated fails: the summary of an owned session without samples
    is an error answer, not a success with an empty payload. *)
Lemma summary_without_data_counterexample :
  Http.is_success
    (get_summary (Some (Examples.sessionOf false [])) [] "s1") = false
  ∧ Http.status
      (get_summary (Some (Examples.sessionOf false [])) [] "s1") = 404
  ∧ Http.data
      (get_summary (Some (Examples.sessionOf false [])) [] "s1") = None.
Proof. repeat split. Qed.

End NoData.

(** ** Ending a session *)

Section EndSession.
Import Session SessionsRoutes.

Lemma patch_end_cases (db : gmap string Session.t) (sessionId user : string)
    (now : Z) :
  (∃ r, patch_end db sessionId user now = (db, r) ∧ Http.status r ≠ 200)
  ∨ (∃ s s' r,
       db !! sessionId = Some s ∧ is_active s = true
       ∧ _id s' = _id s ∧ is_active s' = false
       ∧ patch_end db sessionId user now = (<[_id s := s']> db, r)).
Proof.
  unfold patch_end. destruct (db !! sessionId) as [s|] eqn:Hs.
  - destruct (bool_decide (student_id s = user)); cbn [negb].
    + destruct (is_active s) eqn:Hactive; cbn [negb].
      * right. eexists s, _, _.
        split; [reflexivity|]. split; [exact Hactive|].
        split; [|split]; [| |reflexivity]; reflexivity.
      * left. eexists. split; [reflexivity|]. discriminate.
    + left. eexists. split; [reflexivity|]. discriminate.
  - left. eexists. split; [reflexivity|]. discriminate.
Qed.

Lemma patch_end_keyed (db : gmap string Session.t) (sessionId user : string)
    (now : Z) :
  keyed db → keyed (patch_end db sessionId user now).1.
Proof.
  intros Hk.
  destruct (patch_end_cases db sessionId user now)
    as [(r & -> & _)|(s & s' & r & Hs & _ & Hid & _ & ->)]; [exact Hk|].
  cbn [fst]. intros k x Hx.
  destruct (decide (_id s = k)) as [<-|Hne].
  - rewrite lookup_insert_eq in Hx. injection Hx as <-. exact Hid.
  - rewrite lookup_insert_ne in Hx by exact Hne. apply Hk. exact Hx.
Qed.

Lemma patch_end_ended (db : gmap string Session.t)
    (sessionId sid user : string) (now : Z) :
  keyed db → ended db sid →
  ended (patch_end db sessionId user now).1 sid.
Proof.
  intros Hk (x & Hx & Hinactive).
  destruct (patch_end_cases db sessionId user now)
    as [(r & -> & _)|(s & s' & r & Hs & Hactive & Hid & _ & ->)];
    [exists x; split; assumption|].
  cbn [fst]. exists x. split; [|exact Hinactive].
  rewrite lookup_insert_ne; [exact Hx|].
  intros Heq. rewrite (Hk _ _ Hs) in Heq. subst sid. congruence.
Qed.

Lemma patch_end_success (db : gmap string Session.t)
    (sessionId user : string) (now : Z) :
  keyed db →
  Http.status (patch_end db sessionId user now).2 = 200 →
  ended (patch_end db sessionId user now).1 sessionId.
Proof.
  intros Hk Hok.
  destruct (patch_end_cases db sessionId user now)
    as [(r & Hr & Hne)|(s & s' & r & Hs & _ & Hid & Hinactive & ->)].
  - rewrite Hr in Hok. contradiction.
  - cbn [fst]. exists s'. split; [|exact Hinactive].
    rewrite (Hk _ _ Hs). apply lookup_insert_eq.
Qed.

Lemma patch_end_refused (db : gmap string Session.t)
    (sessionId user : string) (now : Z) :
  ended db sessionId →
  Http.status (patch_end db sessionId user now).2 ≠ 200.
Proof.
  intros (x & Hx & Hinactive).
  destruct (patch_end_cases db sessionId user now)
    as [(r & -> & Hne)|(s & s' & r & Hs & Hactive & _)]; [exact Hne|].
  congruence.
Qed.

Lemma serve_cons (db : gmap string Session.t) (r : EndRequest)
    (rest : list EndRequest) :
  serve db (r :: rest)
  = let step := patch_end db (req_sessionId r) (req_user r) (req_now r) in
    ((serve step.1 rest).1, step.2 :: (serve step.1 rest).2).
Proof.
  cbn [serve]. cbv zeta. destruct (patch_end _ _ _ _) as [db' resp].
  cbn [fst snd]. destruct (serve db' rest). reflexivity.
Qed.

Lemma transitions_cons (sid : string) (r : EndRequest)
    (rest : list EndRequest) (resp : Http.Response Ended)
    (resps : list (Http.Response Ended)) :
  transitions sid (r :: rest) (resp :: resps)
  = ((if bool_decide (req_sessionId r = sid) && (Http.status resp =? 200)%Z
      then 1 else 0)
     + transitions sid rest resps)%nat.
Proof.
  unfold transitions. cbn [zip zip_with List.filter].
  destruct (bool_decide (req_sessionId r = sid) && (Http.status resp =? 200));
    reflexivity.
Qed.

Lemma ended_no_transition (sid : string) (reqs : list EndRequest)
    (db : gmap string Session.t) :
  keyed db → ended db sid →
  transitions sid reqs (serve db reqs).2 = 0%nat.
Proof.
  revert db. induction reqs as [|r rest IH]; intros db Hk Hended;
    [reflexivity|].
  rewrite serve_cons. cbn [snd]. rewrite transitions_cons.
  rewrite IH by (apply patch_end_keyed || apply patch_end_ended; assumption).
  case_bool_decide as Hsid; cbn [andb]; [|reflexivity].
  subst sid.
  pose proof (patch_end_refused db (req_sessionId r) (req_user r)
                (req_now r) Hended) as Hne.
  apply Z.eqb_neq in Hne. rewrite Hne. reflexivity.
Qed.

Lemma at_most_one_transition (sid : string) (reqs : list EndRequest)
    (db : gmap string Session.t) :
  keyed db → (transitions sid reqs (serve db reqs).2 ≤ 1)%nat.
Proof.
  revert db. induction reqs as [|r rest IH]; intros db Hk;
    [cbn; lia|].
  rewrite serve_cons. cbn [snd]. rewrite transitions_cons.
  case_bool_decide as Hsid; cbn [andb].
  - destruct (Z.eqb_spec
                (Http.status (patch_end db (req_sessionId r) (req_user r)
                                (req_now r)).2) 200) as [Hok|Hno].
    + rewrite ended_no_transition; [lia|apply patch_end_keyed; exact Hk|].
      subst sid. apply patch_end_success; assumption.
    + specialize (IH _ (patch_end_keyed db (req_sessionId r) (req_user r)
                          (req_now r) Hk)). lia.
  - specialize (IH _ (patch_end_keyed db (req_sessionId r) (req_user r)
                        (req_now r) Hk)). lia.
Qed.

(** C10. Ending a session whose [is_active] flag is already false is
    answered to its owner with status 400 and [Session is already ended],
    and the collection, hence the record with its [end_time],
    [duration_seconds] and [metrics], is unchanged; no requester obtains
    a success or a change for such a session. Among requests served one
    after the other, at most one makes the transition for a given
    session, and none once the session is ended. *)
Theorem patch_end_already_ended (db : gmap string Session.t)
    (sessionId user : string) (now : Z) (session : Session.t) :
  db !! sessionId = Some session →
  student_id session = user →
  is_active session = false →
  patch_end db sessionId user now
  = (db, Http.failure 400 "Session is already ended")
  ∧ (patch_end db sessionId user now).1 !! sessionId = Some session
  ∧ (∀ user' now',
       (patch_end db sessionId user' now').1 = db
       ∧ Http.status (patch_end db sessionId user' now').2 ≠ 200)
  ∧ (∀ reqs, keyed db →
       transitions sessionId reqs (serve db reqs).2 = 0%nat)
  ∧ (∀ db0 reqs, keyed db0 →
       (transitions sessionId reqs (serve db0 reqs).2 ≤ 1)%nat).
Proof.
  intros Hs Hu Hinactive.
  assert (Hresp : patch_end db sessionId user now
                  = (db, Http.failure 400 "Session is already ended")).
  { unfold patch_end. rewrite Hs, Hinactive.
    rewrite bool_decide_eq_true_2 by exact Hu. reflexivity. }
  split; [exact Hresp|]. split; [rewrite Hresp; exact Hs|].
  split; [|split].
  - intros user' now'.
    destruct (patch_end_cases db sessionId user' now')
      as [(r & -> & Hne)|(s & s' & r & Hs' & Hactive & _)].
    + split; [reflexivity|exact Hne].
    + congruence.
  - intros reqs Hk. apply ended_no_transition; [exact Hk|].
    exists session. split; assumption.
  - intros db0 reqs Hk. apply at_most_one_transition. exact Hk.
Qed.

Lemma patch_end_already_ended_witness :
  patch_end {[ "s1" := Examples.sessionOf false [] ]} "s1" "u1" 99000
  = ({[ "s1" := Examples.sessionOf false [] ]},
     Http.failure 400 "Session is already ended")
  ∧ Http.status
      (patch_end {[ "s1" := Examples.sessionOf true [] ]} "s1" "u1" 99000).2
    = 200.
Proof.
  destruct (patch_end_already_ended
              {[ "s1" := Examples.sessionOf false [] ]} "s1" "u1" 99000
              (Examples.sessionOf false []))
    as (Hresp & _).
  - reflexivity.
  - reflexivity.
  - reflexivity.
  - split; [exact Hresp|]. reflexivity.
Defined.

End EndSession.

(** * Further properties of the code *)

(** ** Session aggregation: bounds and failures *)

Section AggregationMore.
Import Session NLPService.

Lemma calculateFinalMetrics_empty (db : gmap string Session.t)
    (sessionId : string) (session : Session.t) :
  db !! sessionId = Some session →
  webcamMetrics session = [] →
  calculateFinalMetrics db sessionId
  = JS.Return (Metrics {|
      engagementScore := 0; attentionRate := 0; avgBlinkRate := 0;
      Session.distractionCount := 0;
      durationSeconds := duration_seconds session;
      totalMetricsRecorded := 0; documentMetrics := None |}).
Proof.
  intros Hdb Hnone. unfold calculateFinalMetrics. rewrite Hdb, Hnone.
  reflexivity.
Qed.

Lemma edgesFrom_bounds (prev : bool) (l : list bool) :
  (Loops.edgesFrom prev l ≤ Props.countIf id l)%nat
  ∧ (2 * Loops.edgesFrom prev l
     ≤ length l + (if prev then 0 else 1))%nat.
Proof.
  revert prev. induction l as [|b l IH]; intros prev.
  - cbn. destruct prev; lia.
  - destruct (IH b) as [Hc Hl]. unfold Props.countIf in *.
    cbn [Loops.edgesFrom List.filter length id].
    destruct b, prev; cbn [andb negb length] in *; lia.
Qed.

Lemma countIf_fmap {A B : Type} (f : A → B) (p : B → bool) (l : list A) :
  Props.countIf p (f <$> l) = Props.countIf (fun a => p (f a)) l.
Proof.
  unfold Props.countIf. induction l as [|a l IH]; [reflexivity|].
  cbn [fmap list_fmap List.filter]. fold (fmap f l).
  destruct (p (f a)); cbn [length]; rewrite IH; reflexivity.
Qed.

(** The number of phone episodes counted is at most the number of
    samples that show a phone, and at most half the number of samples,
    rounded up. *)
Theorem distractionCount_bounds (db : gmap string Session.t)
    (sessionId : string) (session : Session.t) :
  db !! sessionId = Some session →
  Spec.payloads_present session →
  ∃ m,
    calculateFinalMetrics db sessionId = JS.Return (Metrics m)
    ∧ 0 ≤ Session.distractionCount m
    ∧ Session.distractionCount m
      ≤ Z.of_nat (Props.countIf (fun d => JS.truthy (hasPhone d))
                    (Spec.samples session))
    ∧ 2 * Session.distractionCount m
      ≤ Z.of_nat (totalMetricsRecorded m) + 1.
Proof.
  intros Hdb Hpay.
  destruct (webcamMetrics session) as [|i0 rest] eqn:Hweb.
  { rewrite (calculateFinalMetrics_empty db sessionId session Hdb Hweb).
    eexists. split; [reflexivity|]. cbn. lia. }
  assert (Hne : webcamMetrics session ≠ []) by (rewrite Hweb; discriminate).
  destruct (calculateFinalMetrics_computed db sessionId session Hdb Hpay Hne)
    as (acc & m & Hloop & Hm & _ & _ & Hcount & Htotal & _).
  destruct (forEach_aggregate (webcamMetrics session) initial
              (payloads_webcam session Hpay))
    as (acc' & Hloop' & _ & _ & _ & Hc).
  rewrite Hloop in Hloop'. injection Hloop' as <-.
  cbn [initial NLPService.distractionCount phoneDetectedFlag] in Hc.
  fold (Spec.samples session) in Hc.
  destruct (edgesFrom_bounds false
              (Spec.hasPhoneSequence (Spec.samples session))) as [Hb1 Hb2].
  assert (Hcnt : Props.countIf id
                   (Spec.hasPhoneSequence (Spec.samples session))
                 = Props.countIf (fun d => JS.truthy (hasPhone d))
                     (Spec.samples session)).
  { unfold Spec.hasPhoneSequence.
    rewrite (countIf_fmap (fun d => JS.truthy (hasPhone d)) id).
    reflexivity. }
  assert (Hlen : length (Spec.hasPhoneSequence (Spec.samples session))
                 = length (webcamMetrics session)).
  { unfold Spec.hasPhoneSequence. rewrite length_fmap.
    apply samples_length. exact Hpay. }
  rewrite Hlen in Hb2. rewrite Hcnt in Hb1.
  exists m. split; [exact Hm|]. rewrite Hcount, Hc, Htotal. lia.
Qed.

Lemma distractionCount_bounds_witness :
  ∃ m,
    calculateFinalMetrics
      {[ "s1" := Examples.sessionOf false
                   (Examples.phoneSample
                    <$> [Some true; None; Some true; Some true; Some true]) ]}
      "s1"
    = JS.Return (Metrics m)
    ∧ Session.distractionCount m ≤ 4
    ∧ 2 * Session.distractionCount m ≤ 6.
Proof.
  destruct (distractionCount_bounds
              {[ "s1" := Examples.sessionOf false
                           (Examples.phoneSample
                            <$> [Some true; None; Some true; Some true;
                                 Some true]) ]}
              "s1"
              (Examples.sessionOf false
                 (Examples.phoneSample
                  <$> [Some true; None; Some true; Some true; Some true])))
    as (m & Hm & _ & Hphone & Hhalf).
  - reflexivity.
  - repeat constructor; intros _; eexists; reflexivity.
  - exists m. split; [exact Hm|]. split.
    + etransitivity; [exact Hphone|]. reflexivity.
    + etransitivity; [exact Hhalf|].
      assert (Ht : totalMetricsRecorded m = 5%nat).
      { vm_compute in Hm. injection Hm as <-. reflexivity. }
      rewrite Ht. reflexivity.
Defined.

End AggregationMore.

Section AggregationFailures.
Import Session NLPService.

Lemma aggregate_no_data (acc : Aggregation) (i : Interaction) :
  data i = None → aggregate acc i = JS.Throw JS.TypeError.
Proof. intros H. unfold aggregate. rewrite H. reflexivity. Qed.

Lemma forEach_aggregate_throws (l : list Interaction) (acc : Aggregation) :
  Exists (fun i => data i = None) l →
  JS.forEach aggregate l acc = JS.Throw JS.TypeError.
Proof.
  revert acc. induction l as [|i l IH]; intros acc Hex.
  - inversion Hex.
  - cbn [JS.forEach]. destruct (data i) as [d|] eqn:Hd.
    + destruct (aggregate_data acc i d Hd) as (acc1 & -> & _).
      cbn [mbind JS.Completion_bind]. apply IH.
      inversion Hex as [? ? Hnone|]; [congruence|assumption].
    + rewrite aggregate_no_data by exact Hd. reflexivity.
Qed.

Lemma webcamMetrics_elem (session : Session.t) (i : Interaction) :
  i ∈ interactions session → type i = webcam → i ∈ webcamMetrics session.
Proof.
  intros Hin Hty. unfold webcamMetrics. apply list_elem_of_In.
  apply List.filter_In. split; [apply list_elem_of_In; exact Hin|].
  unfold is_type. apply bool_decide_eq_true. exact Hty.
Qed.

(** A webcam interaction stored without a payload makes the aggregation
    fail with a [TypeError]; an unknown session gives the empty object. *)
Theorem calculateFinalMetrics_failures (db : gmap string Session.t)
    (sessionId : string) :
  (db !! sessionId = None →
   calculateFinalMetrics db sessionId = JS.Return EmptyObject)
  ∧ (∀ session i,
       db !! sessionId = Some session →
       i ∈ interactions session → type i = webcam → data i = None →
       calculateFinalMetrics db sessionId = JS.Throw JS.TypeError).
Proof.
  split.
  - intros Hnone. unfold calculateFinalMetrics. rewrite Hnone. reflexivity.
  - intros session i Hdb Hin Hty Hd.
    pose proof (webcamMetrics_elem session i Hin Hty) as Hweb.
    unfold calculateFinalMetrics. rewrite Hdb.
    destruct (length (webcamMetrics session) =? 0)%nat eqn:Hlen.
    { apply Nat.eqb_eq in Hlen.
      destruct (webcamMetrics session); [inversion Hweb|discriminate]. }
    rewrite forEach_aggregate_throws; [reflexivity|].
    apply Exists_exists. exists i. split; assumption.
Qed.

Lemma calculateFinalMetrics_failures_witness :
  calculateFinalMetrics
    {[ "s1" := Examples.sessionOf false
                 [Examples.webcamSample true false 80 20;
                  {| type := webcam; timestamp := 5; data := None |}] ]} "s1"
  = JS.Throw JS.TypeError.
Proof.
  apply (proj2 (calculateFinalMetrics_failures _ "s1")
           (Examples.sessionOf false
              [Examples.webcamSample true false 80 20;
               {| type := webcam; timestamp := 5; data := None |}])
           {| type := webcam; timestamp := 5; data := None |}).
  - reflexivity.
  - cbn. set_solver.
  - reflexivity.
  - reflexivity.
Defined.

End AggregationFailures.

(** ** The instance methods and the save hook of a sample *)

Section SampleMethods.
Import Metric MetricHooks.
Local Open Scope Q_scope.

Lemma gt_true (x y : Q) : gt x y = true ↔ y < x.
Proof.
  unfold gt. destruct (Qlt_le_dec y x) as [H|H]; split; intros H';
    try reflexivity; try assumption; try discriminate. lra.
Qed.

Lemma gt_false (x y : Q) : gt x y = false ↔ x <= y.
Proof.
  unfold gt. destruct (Qlt_le_dec y x) as [H|H]; split; intros H';
    try reflexivity; try assumption; try discriminate. lra.
Qed.

Lemma gt_weaken (x a b : Q) : a <= b → gt x b = true → gt x a = true.
Proof. rewrite !gt_true. intros. lra. Qed.

(** Clamping to [0, 100] returns one of [0], [100] and its argument. *)
Lemma clamp_cases (x : Q) :
  (x <= 0 ∧ Qmax 0 (Qmin 100 x) = 0)
  ∨ (100 <= x ∧ Qmax 0 (Qmin 100 x) = 100)
  ∨ (0 < x ∧ x < 100 ∧ Qmax 0 (Qmin 100 x) = x).
Proof.
  unfold Qmax, Qmin, GenericMinMax.gmax, GenericMinMax.gmin.
  destruct (Qcompare_spec 100 x) as [H|H|H].
  - right. left. split; [lra|reflexivity].
  - right. left. split; [lra|reflexivity].
  - destruct (Qcompare_spec 0 x) as [H0|H0|H0].
    + left. split; [lra|reflexivity].
    + right. right. split; [lra|]. split; [lra|reflexivity].
    + left. split; [lra|reflexivity].
Qed.

Lemma clamp_idempotent (x : Q) :
  Qmax 0 (Qmin 100 (Qmax 0 (Qmin 100 x))) = Qmax 0 (Qmin 100 x).
Proof.
  destruct (clamp_cases x) as [[_ ->]|[[_ ->]|(_ & _ & Hx)]];
    [reflexivity|reflexivity|].
  rewrite !Hx. reflexivity.
Qed.

Lemma Qle_bool_comp (a x y : Q) : x == y → Qle_bool a x = Qle_bool a y.
Proof.
  intros H. destruct (Qle_bool a y) eqn:Hy.
  - apply Qle_bool_iff. apply Qle_bool_iff in Hy. lra.
  - destruct (Qle_bool a x) eqn:Hx; [|reflexivity].
    apply Qle_bool_iff in Hx.
    assert (Qle_bool a y = true) by (apply Qle_bool_iff; lra). congruence.
Qed.

(** The save hook stores an engagement score in [0, 100], does
    nothing when applied a second time, leaves [isEngaged] as it was,
    and makes [needsBreak] hold exactly when it held before or more
    than 25 minutes have passed since the last break. *)
Theorem preSave_effects (time_since_break : Q) (this : Metric.t) :
  let saved := preSave time_since_break this in
  (0 <= engagement_score saved ∧ engagement_score saved <= 100)
  ∧ preSave time_since_break saved = saved
  ∧ isEngaged saved = isEngaged this
  ∧ needsBreak saved = needsBreak this || gt time_since_break 25.
Proof.
  cbv zeta. split; [|split; [|split]].
  - unfold preSave. cbn [engagement_score].
    destruct (clamp_cases (engagement_score this))
      as [[H ->]|[[H ->]|(H0 & H1 & ->)]]; lra.
  - unfold preSave.
    cbn [engagement_score health_eye_strain_risk health_fatigue_level
         health_break_recommended session_id user_id timestamp
         presence_detected facial_blink_rate facial_emotion posture_score
         posture_quality distraction_detected distraction_type].
    rewrite clamp_idempotent.
    destruct (gt time_since_break 25
              || bool_decide (health_eye_strain_risk this = critical)
              || gt (health_fatigue_level this) 75);
      reflexivity.
  - unfold isEngaged, preSave.
    cbn [engagement_score presence_detected distraction_detected].
    f_equal. f_equal.
    destruct (clamp_cases (engagement_score this))
      as [[H ->]|[[H ->]|(H0 & H1 & ->)]]; [| |reflexivity].
    + transitivity false; [reflexivity|]. symmetry.
      apply Qle_bool_false. lra.
    + transitivity true; [reflexivity|]. symmetry.
      apply Qle_bool_iff. lra.
  - unfold needsBreak, preSave.
    cbn [health_break_recommended health_eye_strain_risk
         health_fatigue_level].
    destruct (gt time_since_break 25); cbn [orb].
    + rewrite !orb_true_r. reflexivity.
    + rewrite orb_false_r.
      destruct (bool_decide (health_eye_strain_risk this = critical));
        cbn [orb]; [rewrite !orb_true_r; reflexivity|].
      destruct (gt (health_fatigue_level this) 75) eqn:H75.
      * rewrite (gt_weaken _ 70 75) by (lra || exact H75).
        cbn [orb]. rewrite orb_true_r. reflexivity.
      * reflexivity.
Qed.

(** The alert types, in the order in which [getAlerts] pushes them. *)
Lemma getAlerts_types (this : Metric.t) :
  alert_type <$> getAlerts this
  = List.filter
      (fun ty =>
         match ty with
         | alert_absence => negb (presence_detected this)
         | alert_distraction => distraction_detected this
         | alert_posture =>
             bool_decide (posture_quality this ∈ [poor; very_poor])
         | alert_health =>
             bool_decide (health_eye_strain_risk this ∈ [risk_high; critical])
         | alert_break => health_break_recommended this
         end)
      [alert_absence; alert_distraction; alert_posture; alert_health;
       alert_break].
Proof.
  unfold getAlerts. cbn [List.filter].
  destruct (presence_detected this), (distraction_detected this),
    (bool_decide (posture_quality this ∈ [poor; very_poor])),
    (bool_decide (health_eye_strain_risk this ∈ [risk_high; critical])),
    (health_break_recommended this); reflexivity.
Qed.

Lemma filter_sublist {A : Type} (p : A → bool) (l : list A) :
  sublist (List.filter p l) l.
Proof.
  induction l as [|x l IH]; cbn [List.filter]; [constructor|].
  destruct (p x); constructor; exact IH.
Qed.

(** [getAlerts] raises each alert at most once and in a fixed
    order; an engaged sample raises neither an absence nor a distraction
    alert; a sample with a break alert needs a break; and a sample saved
    with a critical eye strain carries the health and the break alert. *)
Theorem getAlerts_consistent (time_since_break : Q) (this : Metric.t) :
  sublist (alert_type <$> getAlerts this)
    [alert_absence; alert_distraction; alert_posture; alert_health;
     alert_break]
  ∧ (isEngaged this = true →
     (alert_absence ∉ (alert_type <$> getAlerts this))
     ∧ (alert_distraction ∉ (alert_type <$> getAlerts this)))
  ∧ (alert_break ∈ (alert_type <$> getAlerts this) → needsBreak this = true)
  ∧ (health_eye_strain_risk this = critical →
     let saved := preSave time_since_break this in
     alert_health ∈ (alert_type <$> getAlerts saved)
     ∧ alert_break ∈ (alert_type <$> getAlerts saved)).
Proof.
  split; [|split; [|split]].
  - rewrite getAlerts_types. apply filter_sublist.
  - unfold isEngaged. rewrite !andb_true_iff, negb_true_iff.
    intros [[_ Hp] Hd]. rewrite getAlerts_types.
    split; rewrite list_elem_of_In, filter_In, ?Hp, ?Hd; cbn [negb];
      intros [_ H]; discriminate.
  - rewrite getAlerts_types, list_elem_of_In, filter_In. intros [_ H].
    unfold needsBreak. rewrite H. reflexivity.
  - intros Hc. cbv zeta.
    rewrite getAlerts_types.
    unfold preSave. cbn [health_eye_strain_risk health_break_recommended].
    rewrite Hc. rewrite (bool_decide_eq_true_2 (critical = critical)) by done.
    rewrite orb_true_r. cbn [orb].
    split; rewrite list_elem_of_In, filter_In; (split; [cbn; tauto|]);
      [|reflexivity].
    apply bool_decide_eq_true_2. set_solver.
Qed.

Lemma getAlerts_consistent_witness :
  let saved := preSave 0 (Fixtures.sample 0 tired None critical 40) in
  alert_health ∈ (alert_type <$> getAlerts saved)
  ∧ alert_break ∈ (alert_type <$> getAlerts saved).
Proof.
  apply (getAlerts_consistent 0 (Fixtures.sample 0 tired None critical 40)).
  reflexivity.
Defined.

End SampleMethods.

(** ** Counts as rationals *)

Section Summary.
Import Metric.
Local Open Scope Q_scope.

Lemma Qnat_pos (n : nat) : (0 < n)%nat → 0 < Qnat n.
Proof.
  intros H. unfold Qnat. change 0 with (inject_Z 0).
  rewrite <- Zlt_Qlt. lia.
Qed.

End Summary.

(** ** Counter tables and sets built by the code *)

Section Tables.
Context {K : Type} `{EqDecision K}.

Lemma get_increment (k k' : K) (acc : list (K * Z)) :
  Counter.get k (Counter.increment k' acc)
  = Counter.get k acc + (if decide (k' = k) then 1 else 0).
Proof.
  induction acc as [|[k0 n] acc IH]; cbn [Counter.get Counter.increment].
  - destruct (decide (k' = k)); lia.
  - destruct (decide (k0 = k')) as [->|Hne]; cbn [Counter.get].
    + destruct (decide (k' = k)); lia.
    + destruct (decide (k0 = k)) as [->|Hne'].
      * rewrite decide_False by congruence. lia.
      * exact IH.
Qed.

Lemma keys_increment (k : K) (acc : list (K * Z)) :
  (Counter.increment k acc).*1
  = if decide (k ∈ acc.*1) then acc.*1 else acc.*1 ++ [k].
Proof.
  induction acc as [|[k0 n] acc IH]; cbn [Counter.increment fmap list_fmap].
  - rewrite decide_False by (apply not_elem_of_nil). reflexivity.
  - destruct (decide (k0 = k)) as [->|Hne]; cbn [fmap list_fmap fst].
    + rewrite decide_True by (left). reflexivity.
    + change (list_fmap _ _ fst ?l) with (l.*1). rewrite IH.
      destruct (decide (k ∈ acc.*1)) as [Hin|Hout].
      * rewrite decide_True by (right; exact Hin). reflexivity.
      * rewrite decide_False; [reflexivity|].
        rewrite elem_of_cons. intros [->|Hin]; [congruence|tauto].
Qed.

Lemma total_increment (k : K) (acc : list (K * Z)) :
  Counter.total (Counter.increment k acc) = Counter.total acc + 1.
Proof.
  unfold Counter.total.
  induction acc as [|[k0 n] acc IH]; cbn [Counter.increment]; [reflexivity|].
  destruct (decide (k0 = k)); cbn [fmap list_fmap foldr snd] in *; lia.
Qed.

Lemma get_absent (k : K) (acc : list (K * Z)) :
  k ∉ acc.*1 → Counter.get k acc = 0.
Proof.
  induction acc as [|[k0 n] acc IH]; cbn [Counter.get fmap list_fmap fst];
    [reflexivity|].
  rewrite not_elem_of_cons. intros [Hne Hout].
  rewrite decide_False by congruence. apply IH. exact Hout.
Qed.

Lemma get_entry (k : K) (n : Z) (acc : list (K * Z)) :
  NoDup acc.*1 → (k, n) ∈ acc ↔ k ∈ acc.*1 ∧ Counter.get k acc = n.
Proof.
  induction acc as [|[k0 n0] acc IH]; cbn [Counter.get fmap list_fmap fst].
  - intros _. rewrite !elem_of_nil. tauto.
  - rewrite NoDup_cons. intros [Hout Hnd]. rewrite !elem_of_cons.
    destruct (decide (k0 = k)) as [->|Hne].
    + split.
      * intros [Heq|Hin]; [injection Heq as ->; tauto|].
        exfalso. apply Hout. apply list_elem_of_fmap. exists (k, n).
        split; [reflexivity|exact Hin].
      * intros [_ ->]. left. reflexivity.
    + rewrite (IH Hnd). split.
      * intros [Heq|Hin]; [congruence|tauto].
      * intros [[Heq|Hin] Hget]; [congruence|tauto].
Qed.

Lemma occurs_count {A : Type} (f : A → K) (k : K) (l : list A) :
  k ∈ f <$> l
  ↔ (0 < length (List.filter (fun m => bool_decide (f m = k)) l))%nat.
Proof.
  induction l as [|m l IH].
  - cbn. rewrite elem_of_nil. lia.
  - rewrite fmap_cons, elem_of_cons. cbn [List.filter].
    case_bool_decide as He; cbn [length]; [split; [lia|auto]|].
    rewrite IH. split; [intros [?|?]; [congruence|assumption]|auto].
Qed.

(** The table built by [reduce] over [l] from the table [acc]. *)
Lemma tally_spec {A : Type} (f : A → K) (l : list A) (acc : list (K * Z)) :
  NoDup acc.*1 →
  let table := foldl (fun acc m => Counter.increment (f m) acc) acc l in
  NoDup table.*1
  ∧ (∀ k, k ∈ table.*1 ↔ k ∈ acc.*1 ∨ k ∈ f <$> l)
  ∧ (∀ k, Counter.get k table
          = Counter.get k acc
            + Z.of_nat (length (List.filter
                                  (fun m => bool_decide (f m = k)) l)))
  ∧ Counter.total table = Counter.total acc + Z.of_nat (length l).
Proof.
  revert acc. induction l as [|m l IH]; intros acc Hnd; cbv zeta.
  - cbn [foldl fmap list_fmap List.filter length].
    split; [exact Hnd|]. split; [|split; [intros k|]; lia].
    intros k. rewrite elem_of_nil. tauto.
  - cbn [foldl].
    assert (Hnd' : NoDup (Counter.increment (f m) acc).*1).
    { rewrite keys_increment. destruct (decide (f m ∈ acc.*1)); [exact Hnd|].
      apply NoDup_app. split; [exact Hnd|]. split; [|apply NoDup_singleton].
      intros x Hx Hx'. apply list_elem_of_singleton in Hx'. congruence. }
    destruct (IH _ Hnd') as (H1 & H2 & H3 & H4).
    split; [exact H1|]. split; [|split].
    + intros k. rewrite H2, keys_increment, fmap_cons, elem_of_cons.
      destruct (decide (f m ∈ acc.*1)) as [Hin|Hout].
      * split; [tauto|]. intros [?|[->|?]]; tauto.
      * rewrite elem_of_app, list_elem_of_singleton. tauto.
    + intros k. rewrite H3, get_increment. cbn [List.filter].
      case_bool_decide as Hk.
      * rewrite decide_True by exact Hk. cbn [length]. lia.
      * rewrite decide_False by exact Hk. lia.
    + rewrite H4, total_increment. cbn [length]. lia.
Qed.

(** [[...new Set(l)]] continued from the distinct elements [acc]. *)
Lemma Set_from_spec (l acc : list K) :
  NoDup acc →
  let set :=
    foldl (fun acc x => if decide (x ∈ acc) then acc else acc ++ [x]) acc l in
  NoDup set
  ∧ (∀ x, x ∈ set ↔ x ∈ acc ∨ x ∈ l)
  ∧ (length set ≤ length acc + length l)%nat.
Proof.
  revert acc. induction l as [|y l IH]; intros acc Hnd; cbv zeta.
  - cbn [foldl length]. split; [exact Hnd|]. split; [|lia].
    intros x. rewrite elem_of_nil. tauto.
  - cbn [foldl length]. destruct (decide (y ∈ acc)) as [Hin|Hout].
    + destruct (IH acc Hnd) as (H1 & H2 & H3).
      split; [exact H1|]. split; [|lia].
      intros x. rewrite H2, elem_of_cons. split; [tauto|].
      intros [?|[->|?]]; tauto.
    + assert (Hnd' : NoDup (acc ++ [y])).
      { apply NoDup_app. split; [exact Hnd|]. split; [|apply NoDup_singleton].
        intros x Hx Hx'. apply list_elem_of_singleton in Hx'. congruence. }
      destruct (IH _ Hnd') as (H1 & H2 & H3).
      split; [exact H1|]. split.
      * intros x. rewrite H2, elem_of_app, list_elem_of_singleton, elem_of_cons.
        tauto.
      * rewrite length_app in H3. cbn [length] in H3. lia.
Qed.

End Tables.

Section SummaryTables.
Import Metric.

Lemma increment_counter (k : Emotion) (acc : list (Emotion * Z)) :
  Metric.increment k acc = Counter.increment k acc.
Proof.
  induction acc as [|[k0 n] acc IH]; cbn [increment Counter.increment];
    [reflexivity|].
  rewrite IH. reflexivity.
Qed.

Lemma foldl_increment_counter (l : list Metric.t) (acc : list (Emotion * Z)) :
  foldl (fun acc m => Metric.increment (facial_emotion m) acc) acc l
  = foldl (fun acc m => Counter.increment (facial_emotion m) acc) acc l.
Proof.
  revert acc. induction l as [|m l IH]; intros acc; [reflexivity|].
  cbn [foldl]. rewrite increment_counter. apply IH.
Qed.

Lemma summary_metrics (collection : list Metric.t) (sessionId : string)
    (s : Summary) :
  getSessionSummary collection sessionId = Some s →
  total_datapoints s = length (find collection sessionId)
  ∧ emotion_distribution s
    = foldl (fun acc m => Counter.increment (facial_emotion m) acc) []
        (find collection sessionId)
  ∧ distraction_types s
    = JS.Set_from
        (distraction_type
           <$> List.filter distraction_detected (find collection sessionId))
  ∧ distraction_count s
    = length (List.filter distraction_detected (find collection sessionId)).
Proof.
  unfold getSessionSummary.
  destruct (find collection sessionId) as [|first rest]; [discriminate|].
  intros [= <-].
  cbn [total_datapoints emotion_distribution distraction_types
       distraction_count].
  split; [reflexivity|]. split; [|split; reflexivity].
  exact (foldl_increment_counter (first :: rest) []).
Qed.

(** The [emotion_distribution] of a summary has one entry for every
    emotion that occurs among the samples, its counter is the number of
    samples with that emotion, and the counters add up to
    [total_datapoints]. *)
Theorem getSessionSummary_emotion_distribution (collection : list Metric.t)
    (sessionId : string) (s : Summary) :
  getSessionSummary collection sessionId = Some s →
  NoDup (emotion_distribution s).*1
  ∧ (∀ e n,
       (e, n) ∈ emotion_distribution s
       ↔ 0 < n
         ∧ n = Z.of_nat
                 (count (fun m => bool_decide (facial_emotion m = e))
                    (find collection sessionId)))
  ∧ Counter.total (emotion_distribution s) = Z.of_nat (total_datapoints s).
Proof.
  intros Hs. destruct (summary_metrics _ _ _ Hs) as (Hn & -> & _).
  destruct (tally_spec facial_emotion (find collection sessionId) []
              (NoDup_nil_2)) as (Hnd & Hkeys & Hget & Htotal).
  split; [exact Hnd|]. split; [|rewrite Htotal, Hn; reflexivity].
  intros e n. rewrite (get_entry e n _ Hnd), Hkeys, Hget.
  cbn [Counter.get]. unfold count. rewrite elem_of_nil.
  rewrite (occurs_count facial_emotion e).
  lia.
Qed.

Lemma getSessionSummary_emotion_distribution_witness :
  ∃ s,
    getSessionSummary
      [Fixtures.sample 0 focused None risk_low 80;
       Fixtures.sample 1 tired None risk_low 40;
       Fixtures.sample 2 focused None risk_low 70] "s1" = Some s
    ∧ (focused, 2) ∈ emotion_distribution s
    ∧ Counter.total (emotion_distribution s) = 3.
Proof.
  eexists. split; [reflexivity|].
  edestruct (getSessionSummary_emotion_distribution
               [Fixtures.sample 0 focused None risk_low 80;
                Fixtures.sample 1 tired None risk_low 40;
                Fixtures.sample 2 focused None risk_low 70] "s1")
    as (_ & Hentries & Htotal); [reflexivity|].
  split; [|exact Htotal].
  apply Hentries. split; [lia|reflexivity].
Defined.

(** The [distraction_types] of a summary list each distraction type of
    a distracted sample once, and nothing else. *)
Theorem getSessionSummary_distraction_types (collection : list Metric.t)
    (sessionId : string) (s : Summary) :
  getSessionSummary collection sessionId = Some s →
  NoDup (distraction_types s)
  ∧ (∀ ty,
       ty ∈ distraction_types s
       ↔ ∃ m, m ∈ find collection sessionId
              ∧ distraction_detected m = true ∧ distraction_type m = ty)
  ∧ (length (distraction_types s) ≤ distraction_count s)%nat.
Proof.
  intros Hs. destruct (summary_metrics _ _ _ Hs) as (_ & _ & -> & ->).
  destruct (Set_from_spec
              (distraction_type
                 <$> List.filter distraction_detected
                       (find collection sessionId)) [] (NoDup_nil_2))
    as (Hnd & Hin & Hlen).
  split; [exact Hnd|]. split.
  - intros ty. unfold JS.Set_from. rewrite Hin, elem_of_nil, list_elem_of_fmap.
    split.
    + intros [[]|(m & -> & Hm)]. exists m.
      apply list_elem_of_In, filter_In in Hm. destruct Hm as [Hm Hd].
      split; [apply list_elem_of_In; exact Hm|]. split; [exact Hd|reflexivity].
    + intros (m & Hm & Hd & <-). right. exists m. split; [reflexivity|].
      apply list_elem_of_In, filter_In. split; [|exact Hd].
      apply list_elem_of_In. exact Hm.
  - unfold JS.Set_from. rewrite length_fmap in Hlen. exact Hlen.
Qed.

Lemma getSessionSummary_distraction_types_witness :
  ∃ s,
    getSessionSummary
      [Fixtures.sample 0 focused (Some phone) risk_low 80;
       Fixtures.sample 1 tired None risk_low 40;
       Fixtures.sample 2 focused (Some phone) risk_low 70] "s1" = Some s
    ∧ NoDup (distraction_types s)
    ∧ (phone ∈ distraction_types s).
Proof.
  eexists. split; [reflexivity|].
  edestruct (getSessionSummary_distraction_types
               [Fixtures.sample 0 focused (Some phone) risk_low 80;
                Fixtures.sample 1 tired None risk_low 40;
                Fixtures.sample 2 focused (Some phone) risk_low 70] "s1")
    as (Hnd & Hin & _); [reflexivity|].
  split; [exact Hnd|]. apply Hin.
  exists (Fixtures.sample 0 focused (Some phone) risk_low 80).
  split; [left|split; reflexivity].
Defined.

End SummaryTables.

(** ** Distraction episodes and health insights *)

Section Insights.
Import Metric MetricsInsights.

(** The sum of the sample counts of a list of episodes. *)
Lemma countSum_app (l1 l2 : list Episode) :
  foldr Z.add 0 (ep_count <$> (l1 ++ l2))
  = foldr Z.add 0 (ep_count <$> l1) + foldr Z.add 0 (ep_count <$> l2).
Proof.
  induction l1 as [|e l1 IH]; cbn [app fmap list_fmap foldr] in *; lia.
Qed.

(** The episodes found from a state of the search: their number, the
    sum of their sample counts, and a property that holds of all of
    them. *)
Lemma episodes_loop (P : Episode → Prop) (l : list Metric.t)
    (eps : list Episode) (cur : option Episode) :
  (∀ m, P {| ep_start := timestamp m; ep_end := timestamp m;
             ep_type := distraction_type m; ep_count := 1 |}) →
  (∀ ep m, P ep →
     P {| ep_start := ep_start ep; ep_end := timestamp m;
          ep_type := ep_type ep; ep_count := ep_count ep + 1 |}) →
  Forall P (closeEpisode (eps, cur)) →
  let found := closeEpisode (foldl episodeStep (eps, cur) l) in
  length found
  = (length (closeEpisode (eps, cur))
     + Loops.edgesFrom (bool_decide (is_Some cur))
         (distraction_detected <$> l))%nat
  ∧ foldr Z.add 0 (ep_count <$> found)
    = foldr Z.add 0 (ep_count <$> closeEpisode (eps, cur))
      + Z.of_nat (length (List.filter distraction_detected l))
  ∧ Forall P found.
Proof.
  intros Hnew Hext. revert eps cur.
  induction l as [|m l IH]; intros eps cur HP; cbv zeta.
  - cbn [foldl fmap list_fmap Loops.edgesFrom List.filter length].
    split; [lia|]. split; [lia|exact HP].
  - cbn [foldl fmap list_fmap Loops.edgesFrom List.filter].
    remember (episodeStep (eps, cur) m) as st eqn:Hst.
    unfold episodeStep in Hst.
    destruct (distraction_detected m) eqn:Hd, cur as [ep|];
      subst st; cbn [andb negb].
    + match goal with
      | |- context [foldl episodeStep (eps, Some ?e) l] =>
          destruct (IH eps (Some e)) as (H1 & H2 & H3)
      end.
      { cbn [closeEpisode] in *. apply Forall_app in HP as [HP1 HP2].
        apply Forall_app. split; [exact HP1|].
        constructor; [|constructor]. apply Hext.
        inversion HP2; assumption. }
      rewrite H1, H2. split; [|split; [|exact H3]].
      * cbn [closeEpisode]. rewrite !length_app.
        rewrite !bool_decide_eq_true_2 by eauto. cbn. lia.
      * cbn [closeEpisode]. rewrite !countSum_app. cbn. lia.
    + match goal with
      | |- context [foldl episodeStep (eps, Some ?e) l] =>
          destruct (IH eps (Some e)) as (H1 & H2 & H3)
      end.
      { cbn [closeEpisode] in *. apply Forall_app. split; [exact HP|].
        constructor; [|constructor]. apply Hnew. }
      rewrite H1, H2. split; [|split; [|exact H3]].
      * cbn [closeEpisode]. rewrite !length_app.
        rewrite bool_decide_eq_true_2 by eauto.
        rewrite bool_decide_eq_false_2 by (intros [? ?]; discriminate).
        cbn. lia.
      * cbn [closeEpisode]. rewrite !countSum_app. cbn. lia.
    + destruct (IH (eps ++ [ep]) None) as (H1 & H2 & H3).
      { cbn [closeEpisode] in *. exact HP. }
      rewrite H1, H2. split; [|split; [|exact H3]].
      * cbn [closeEpisode]. reflexivity.
      * cbn [closeEpisode]. lia.
    + destruct (IH eps None) as (H1 & H2 & H3); [exact HP|].
      rewrite H1, H2. split; [|split; [|exact H3]].
      * cbn [closeEpisode]. reflexivity.
      * cbn [closeEpisode]. lia.
Qed.

(** The distraction analysis of any sequence of samples: the episodes
    are the maximal runs of distracted samples, one for each sample
    that is distracted when the sample before it is not; every episode
    counts at least one sample and the counts add up to the number of
    distracted samples, as do the counters by type. *)
Theorem distraction_episodes (metrics : list Metric.t) :
  ∃ d,
    Http.data (get_distractions metrics) = Some d
    ∧ episodes d = Loops.edgesFrom false (distraction_detected <$> metrics)
    ∧ length (distraction_timeline d) = episodes d
    ∧ foldr Z.add 0 ((fun e => ep_count e.1) <$> distraction_timeline d)
      = Z.of_nat (total_distractions d)
    ∧ Forall (fun e => 1 ≤ ep_count e.1) (distraction_timeline d)
    ∧ (episodes d ≤ total_distractions d)%nat
    ∧ Counter.total (by_type d) = Z.of_nat (total_distractions d).
Proof.
  eexists. split; [reflexivity|].
  cbn [episodes distraction_timeline total_distractions by_type].
  destruct (episodes_loop (fun ep => 1 ≤ ep_count ep) metrics [] None)
    as (Hlen & Hsum & Hall).
  { intros m. cbn. lia. }
  { intros ep m Hep. cbn. lia. }
  { constructor. }
  fold (findEpisodes metrics) in Hlen, Hsum, Hall.
  cbn [closeEpisode length fmap list_fmap foldr] in Hlen, Hsum.
  rewrite bool_decide_eq_false_2 in Hlen by (intros [? ?]; discriminate).
  assert (Hmap : ∀ l : list Episode, (λ e : Episode * Q, ep_count e.1)
                        <$> ((λ ep, (ep, duration_seconds ep)) <$> l)
                      = ep_count <$> l).
  { intros l. rewrite <- list_fmap_compose. reflexivity. }
  split; [exact Hlen|]. split; [apply length_fmap|].
  split; [rewrite Hmap; lia|]. split.
  - apply Forall_fmap. exact Hall.
  - split.
    + assert (Hle : Z.of_nat (length (findEpisodes metrics))
                    ≤ foldr Z.add 0 (ep_count <$> findEpisodes metrics)).
      { clear Hlen Hsum. induction Hall as [|e l He _ IH]; cbn; [lia|].
        cbn in IH. lia. }
      lia.
    + destruct (tally_spec distraction_type
                  (List.filter distraction_detected metrics) []
                  (NoDup_nil_2)) as (_ & _ & _ & Htotal).
      rewrite Htotal. reflexivity.
Qed.

Lemma filter_length_Permutation {A : Type} (p : A → bool) (l1 l2 : list A) :
  l1 ≡ₚ l2 → length (List.filter p l1) = length (List.filter p l2).
Proof.
  induction 1 as [|x l1 l2 _ IH|x y l|l1 l2 l3 _ IH1 _ IH2];
    cbn [List.filter]; [reflexivity| | |congruence].
  - destruct (p x); cbn [length]; rewrite IH; reflexivity.
  - destruct (p x), (p y); reflexivity.
Qed.

Lemma foldl_Qplus_nonneg (l : list Q) (a : Q) :
  (0 <= a)%Q → Forall (fun b => 0 < b)%Q l → (0 <= foldl Qplus a l)%Q.
Proof.
  intros Ha Hl. revert a Ha.
  induction Hl as [|b l Hb _ IH]; intros a Ha; cbn [foldl]; [exact Ha|].
  apply IH. lra.
Qed.

Lemma Math_round_nonneg (x : Q) : (0 <= x)%Q → 0 ≤ JS.Math_round x.
Proof.
  intros H. unfold JS.Math_round. change 0 with (Qfloor 0).
  apply Qfloor_resp_le. lra.
Qed.

(** The health insights of a sequence of samples: the health score lies
    in [0, 100] and is 100 exactly when there is neither an eye-strain
    alert nor a posture issue; the average blink rate is not negative;
    and the number of eye-strain alerts is the one of the summary of
    the session, whatever the order of the samples. *)
Theorem health_insights (healthMetrics : list Metric.t) :
  ∃ h,
    Http.data (get_health healthMetrics) = Some h
    ∧ 0 ≤ health_score h ≤ 100
    ∧ (health_score h = 100
       ↔ MetricsInsights.eye_strain_alerts h = 0%nat
         ∧ posture_issues h = 0%nat)
    ∧ (0 <= MetricsInsights.avg_blink_rate h)%Q
    ∧ ∀ collection sessionId s,
        healthMetrics ≡ₚ find collection sessionId →
        getSessionSummary collection sessionId = Some s →
        MetricsInsights.eye_strain_alerts h = Metric.eye_strain_alerts s.
Proof.
  eexists. split; [reflexivity|].
  cbn [health_score MetricsInsights.eye_strain_alerts posture_issues
       MetricsInsights.avg_blink_rate].
  split; [lia|]. split; [lia|]. split.
  - set (blinkRates := List.filter _ _).
    assert (Hpos : Forall (fun b => 0 < b)%Q blinkRates).
    { apply Forall_forall. intros b Hb. subst blinkRates.
      apply list_elem_of_In, filter_In in Hb. destruct Hb as [_ Hb].
      apply gt_true in Hb. exact Hb. }
    match goal with
    | |- context [JS.Math_round (?a * 10)] =>
        assert (Havg : (0 <= a)%Q); [|revert Havg; generalize a; intros avg Havg]
    end.
    { destruct blinkRates as [|b rest] eqn:Hb; [lra|]. cbv zeta.
      destruct (Qeq_bool _ 0); [lra|].
      apply Qle_shift_div_l.
      - apply Qnat_pos. cbn. lia.
      - rewrite Qmult_0_l. apply foldl_Qplus_nonneg; [lra|exact Hpos]. }
    apply Qle_shift_div_l; [lra|]. rewrite Qmult_0_l.
    change 0%Q with (inject_Z 0). rewrite <- Zle_Qle.
    apply Math_round_nonneg. lra.
  - intros collection sessionId s Hperm Hs.
    unfold getSessionSummary in Hs.
    destruct (find collection sessionId) as [|first rest] eqn:Hfind;
      [discriminate|].
    injection Hs as <-. cbn [Metric.eye_strain_alerts]. unfold count.
    rewrite (filter_length_Permutation _ _ _ Hperm).
    f_equal. apply List.filter_ext. intros m.
    destruct (health_eye_strain_risk m); reflexivity.
Qed.

Lemma health_insights_witness :
  ∃ h s,
    Http.data
      (get_health
         [Fixtures.sample 5 tired None critical 40;
          Fixtures.sample 0 focused None risk_low 80]) = Some h
    ∧ getSessionSummary
        [Fixtures.sample 0 focused None risk_low 80;
         Fixtures.sample 5 tired None critical 40] "s1" = Some s
    ∧ MetricsInsights.eye_strain_alerts h = Metric.eye_strain_alerts s.
Proof.
  destruct (health_insights
              [Fixtures.sample 5 tired None critical 40;
               Fixtures.sample 0 focused None risk_low 80])
    as (h & Hh & _ & _ & _ & Hs).
  eexists h, _. split; [exact Hh|]. split; [reflexivity|].
  apply (Hs [Fixtures.sample 0 focused None risk_low 80;
             Fixtures.sample 5 tired None critical 40] "s1").
  - apply Permutation_swap.
  - reflexivity.
Defined.

End Insights.

(** ** The engagement timeline and the anomalies *)

Section Timeline.
Import Metric MetricsInsights.
Local Open Scope Q_scope.

(** The entry computed for a sample; [prev] is the sample before it, if
    its index is not 0. *)
Lemma timelineEntry_computed (metrics : list Metric.t) (m : Metric.t)
    (index : nat) :
  (index = 0%nat ∨ is_Some (metrics !! (index - 1)%nat)) →
  let prev := if (0 <? index)%nat then metrics !! (index - 1)%nat else None in
  timelineEntry metrics m index
  = JS.Return
      {| entry_timestamp := timestamp m;
         entry_engagement_score := engagement_score m;
         entry_emotion := facial_emotion m;
         entry_events :=
           List.filter
             (fun ev =>
                match ev with
                | ev_absence => negb (presence_detected m)
                | ev_distraction => distraction_detected m
                | ev_poor_posture => MetricHooks.gt 50 (posture_score m)
                | ev_engagement_spike =>
                    match prev with
                    | Some prev =>
                        MetricHooks.gt
                          (engagement_score m - engagement_score prev) 20
                    | None => false
                    end
                | ev_engagement_drop =>
                    match prev with
                    | Some prev =>
                        MetricHooks.gt (-20)
                          (engagement_score m - engagement_score prev)
                    | None => false
                    end
                end)
             [ev_absence; ev_distraction; ev_poor_posture;
              ev_engagement_spike; ev_engagement_drop] |}.
Proof.
  intros Hprev. cbv zeta. unfold timelineEntry.
  destruct (0 <? index)%nat eqn:Hidx.
  - apply Nat.ltb_lt in Hidx.
    destruct Hprev as [->|[prev Hp]]; [lia|]. rewrite Hp.
    cbn [JS.deref mbind JS.Completion_bind mret JS.Completion_ret
         List.filter].
    destruct (presence_detected m), (distraction_detected m),
      (MetricHooks.gt 50 (posture_score m)),
      (MetricHooks.gt (engagement_score m - engagement_score prev) 20),
      (MetricHooks.gt (-20) (engagement_score m - engagement_score prev));
      reflexivity.
  - cbn [JS.deref mbind JS.Completion_bind mret JS.Completion_ret
         List.filter].
    destruct (presence_detected m), (distraction_detected m),
      (MetricHooks.gt 50 (posture_score m)); reflexivity.
Qed.

(** One entry of the timeline, for a sample that has a predecessor when
    its index is not 0. *)
Lemma timelineEntry_events (metrics : list Metric.t) (m : Metric.t)
    (index : nat) :
  (index = 0%nat ∨ is_Some (metrics !! (index - 1)%nat)) →
  ∃ entry,
    timelineEntry metrics m index = JS.Return entry
    ∧ entry_timestamp entry = timestamp m
    ∧ (ev_absence ∈ entry_events entry ↔ presence_detected m = false)
    ∧ (ev_engagement_drop ∈ entry_events entry
       ↔ ∃ prev, (0 < index)%nat ∧ metrics !! (index - 1)%nat = Some prev
                 ∧ 20 < engagement_score prev - engagement_score m)
    ∧ (ev_engagement_spike ∈ entry_events entry
       ↔ ∃ prev, (0 < index)%nat ∧ metrics !! (index - 1)%nat = Some prev
                 ∧ 20 < engagement_score m - engagement_score prev).
Proof.
  intros Hprev. eexists. split; [apply timelineEntry_computed, Hprev|].
  cbn [entry_timestamp entry_events]. split; [reflexivity|].
  rewrite !list_elem_of_In, !filter_In.
  split; [rewrite negb_true_iff; cbn [In]; tauto|].
  destruct (0 <? index)%nat eqn:Hidx.
  - apply Nat.ltb_lt in Hidx.
    destruct (metrics !! (index - 1)%nat) as [prev|].
    + rewrite !gt_true. split.
      * split; [intros [_ H]; exists prev; split; [exact Hidx|];
                split; [reflexivity|lra]|].
        intros (p & _ & [= <-] & H). split; [cbn [In]; tauto|lra].
      * split; [intros [_ H]; exists prev; split; [exact Hidx|];
                split; [reflexivity|lra]|].
        intros (p & _ & [= <-] & H). split; [cbn [In]; tauto|lra].
    + split; (split; [intros [_ H]; discriminate
                     |intros (p & _ & H & _); discriminate]).
  - apply Nat.ltb_ge in Hidx.
    split; (split; [intros [_ H]; discriminate|intros (p & H & _); lia]).
Qed.

(** The timeline of the samples [arr] that follow the samples [pre]. *)
Lemma mapFrom_timeline (pre arr : list Metric.t) :
  ∃ timeline,
    mapFrom (timelineEntry (pre ++ arr)) (length pre) arr
    = JS.Return timeline
    ∧ length timeline = length arr
    ∧ ∀ j m, arr !! j = Some m →
        ∃ entry,
          timeline !! j = Some entry
          ∧ timelineEntry (pre ++ arr) m (length pre + j) = JS.Return entry.
Proof.
  revert pre. induction arr as [|m arr IH]; intros pre.
  - exists []. split; [reflexivity|]. split; [reflexivity|].
    intros j m Hj. rewrite lookup_nil in Hj. discriminate.
  - cbn [mapFrom].
    destruct (timelineEntry_events (pre ++ m :: arr) m (length pre))
      as (entry & Hentry & _).
    { destruct pre as [|x pre] using rev_ind; [left; reflexivity|].
      right. rewrite length_app. cbn [length].
      replace (length pre + 1 - 1)%nat with (length pre) by lia.
      rewrite <- !app_assoc. cbn [app].
      rewrite list_lookup_middle by reflexivity.
      eauto. }
    rewrite Hentry. cbn [mbind JS.Completion_bind].
    destruct (IH (pre ++ [m])) as (timeline & Htl & Hlen & Hentries).
    rewrite <- app_assoc in Htl, Hentries. cbn [app] in Htl, Hentries.
    rewrite length_app in Htl, Hentries. cbn [length] in Htl, Hentries.
    replace (length pre + 1)%nat with (S (length pre)) in Htl by lia.
    rewrite Htl. cbn [mbind JS.Completion_bind mret JS.Completion_ret].
    eexists. split; [reflexivity|]. split; [cbn [length]; lia|].
    intros [|j] x Hx.
    + cbn in Hx. injection Hx as <-. exists entry.
      split; [reflexivity|]. rewrite Nat.add_0_r. exact Hentry.
    + cbn in Hx. destruct (Hentries j x Hx) as (e & He & Hcomp).
      exists e. split; [exact He|].
      replace (length pre + S j)%nat with (length pre + 1 + j)%nat by lia.
      exact Hcomp.
Qed.

(** When the samples of a session are stored in the order of the
    timeline query, the timeline has one entry for every sample and
    shows every anomaly that [detectAnomalies] reports: an entry with
    the timestamp of the anomaly carries the event ['engagement_drop']
    for an engagement drop and ['absence'] for a prolonged absence. *)
Theorem timeline_shows_anomalies (collection : list Metric.t)
    (sessionId : string) (metrics : list Metric.t) :
  find collection sessionId = metrics →
  ∃ timeline anomalies,
    Http.data (get_engagement_timeline metrics) = Some timeline
    ∧ Http.count (get_engagement_timeline metrics) = Some (length metrics)
    ∧ detectAnomalies collection sessionId = JS.Return anomalies
    ∧ ∀ a, a ∈ anomalies →
        ∃ entry,
          entry ∈ timeline
          ∧ entry_timestamp entry = anomaly_timestamp a
          ∧ match anomaly_type a with
            | engagement_drop => ev_engagement_drop
            | prolonged_absence => ev_absence
            end ∈ entry_events entry.
Proof.
  intros Hfind.
  destruct (mapFrom_timeline [] metrics) as (timeline & Htl & Hlen & Hentries).
  cbn [app length] in Htl, Hentries.
  exists timeline. eexists. unfold get_engagement_timeline. rewrite Htl.
  cbn [Http.data Http.count]. split; [reflexivity|].
  split; [rewrite Hlen; reflexivity|].
  split; [apply detectAnomalies_computed|].
  rewrite Hfind. intros a Ha. apply elem_of_app in Ha as [Ha|Ha].
  - unfold Spec.engagementDrops, Spec.adjacentPairs in Ha.
    apply list_elem_of_omap in Ha as ([prev curr] & Hpair & Hdrop).
    apply list_elem_of_lookup in Hpair as [i Hi].
    apply lookup_zip_with_Some in Hi as (p & c & [= -> ->] & Hp & Hc).
    rewrite lookup_drop in Hc.
    destruct (Hentries _ _ Hc) as (entry & Hentry & Hcomp).
    destruct (timelineEntry_events metrics c (1 + i))
      as (entry' & Hcomp' & Hts & _ & Hev & _).
    { right. replace (1 + i - 1)%nat with i by lia. eauto. }
    cbn [Nat.add] in Hcomp, Hcomp'. rewrite Hcomp in Hcomp'.
    injection Hcomp' as <-.
    exists entry. split; [eapply list_elem_of_lookup_2; exact Hentry|].
    unfold Spec.engagementDropOf in Hdrop.
    destruct (Qlt_le_dec 30 (engagement_score p - engagement_score c))
      as [Hlt|Hle]; [|discriminate].
    injection Hdrop as <-. cbn [anomaly_timestamp anomaly_type].
    split; [exact Hts|]. apply Hev. exists p.
    split; [lia|]. replace (1 + i - 1)%nat with i by lia.
    split; [exact Hp|lra].
  - unfold Spec.prolongedAbsences in Ha.
    apply list_elem_of_omap in Ha as (i & _ & Hi).
    unfold Spec.prolongedAbsenceOf in Hi.
    destruct (Spec.fifthOfAbsenceRun metrics i) eqn:Hfifth; [|discriminate].
    destruct (metrics !! i) as [m|] eqn:Hm; [|discriminate].
    injection Hi as <-.
    destruct (Hentries _ _ Hm) as (entry & Hentry & Hcomp).
    assert (Habsent : presence_detected m = false).
    { unfold Spec.fifthOfAbsenceRun in Hfifth.
      apply andb_true_iff in Hfifth as [Hfifth _].
      apply andb_true_iff in Hfifth as [_ Hfifth].
      cbn [forallb] in Hfifth. rewrite !andb_true_iff in Hfifth.
      destruct Hfifth as (_ & _ & _ & _ & H0 & _).
      unfold Spec.absent in H0. rewrite Nat.sub_0_r, Hm in H0.
      apply negb_true_iff in H0. exact H0. }
    destruct (timelineEntry_events metrics m i)
      as (entry' & Hcomp' & Hts & Hev & _).
    { destruct i as [|i]; [left; reflexivity|right].
      apply lookup_lt_is_Some. apply lookup_lt_Some in Hm.
      cbn. lia. }
    cbn [Nat.add] in Hcomp. rewrite Hcomp in Hcomp'.
    injection Hcomp' as <-.
    exists entry. split; [eapply list_elem_of_lookup_2; exact Hentry|].
    cbn [anomaly_timestamp anomaly_type Spec.prolongedAbsenceAt].
    split; [exact Hts|]. apply Hev. exact Habsent.
Qed.

Lemma timeline_shows_anomalies_witness :
  ∃ timeline anomalies,
    Http.data
      (get_engagement_timeline
         [Examples.metricOf 0 true 90; Examples.metricOf 1000 true 50])
    = Some timeline
    ∧ detectAnomalies
        [Examples.metricOf 0 true 90; Examples.metricOf 1000 true 50] "s1"
      = JS.Return anomalies
    ∧ ∀ a, a ∈ anomalies →
        ∃ entry, entry ∈ timeline
                 ∧ entry_timestamp entry = anomaly_timestamp a.
Proof.
  destruct (timeline_shows_anomalies
              [Examples.metricOf 0 true 90; Examples.metricOf 1000 true 50]
              "s1"
              [Examples.metricOf 0 true 90; Examples.metricOf 1000 true 50])
    as (timeline & anomalies & Htl & _ & Han & Hshow).
  - reflexivity.
  - exists timeline, anomalies. split; [exact Htl|]. split; [exact Han|].
    intros a Ha. destruct (Hshow a Ha) as (entry & Hin & Hts & _).
    exists entry. split; assumption.
Defined.

End Timeline.

(** ** The streak of the overall analytics *)

Section OverallStreak.
Import Analytics.
Variable tz : Z.

Lemma flip_le_total : Total (flip Z.le).
Proof. intros x y. unfold flip. lia. Qed.

Lemma flip_le_trans : Transitive (flip Z.le).
Proof. intros x y z. unfold flip. lia. Qed.

(** Local midnights are a whole number of days apart, and later
    instants have later or equal midnights. *)
Lemma setHours0_aligned (a b : Z) :
  (setHours0 tz a - setHours0 tz b) `mod` MS_PER_DAY = 0.
Proof.
  unfold setHours0.
  replace (a - (a + tz) `mod` MS_PER_DAY - (b - (b + tz) `mod` MS_PER_DAY))
    with ((a + tz - (a + tz) `mod` MS_PER_DAY)
          - (b + tz - (b + tz) `mod` MS_PER_DAY)) by lia.
  assert (HD : MS_PER_DAY ≠ 0) by (unfold MS_PER_DAY; lia).
  pose proof (Z.div_mod (a + tz) MS_PER_DAY HD) as Ha.
  pose proof (Z.div_mod (b + tz) MS_PER_DAY HD) as Hb.
  replace (a + tz - (a + tz) `mod` MS_PER_DAY
           - (b + tz - (b + tz) `mod` MS_PER_DAY))
    with (((a + tz) `div` MS_PER_DAY - (b + tz) `div` MS_PER_DAY)
          * MS_PER_DAY) by lia.
  apply Z.mod_mul. exact HD.
Qed.

Lemma setHours0_mono (a b : Z) : a ≤ b → setHours0 tz a ≤ setHours0 tz b.
Proof.
  intros Hab. unfold setHours0.
  assert (HD : 0 < MS_PER_DAY) by (unfold MS_PER_DAY; lia).
  pose proof (Z.div_mod (a + tz) MS_PER_DAY ltac:(lia)) as Ha.
  pose proof (Z.div_mod (b + tz) MS_PER_DAY ltac:(lia)) as Hb.
  pose proof (Z.div_le_mono (a + tz) (b + tz) MS_PER_DAY HD ltac:(lia)).
  nia.
Qed.

(** The loop on dates sorted from the latest to the earliest, all
    distinct, none after [currentDate] and all a whole number of days
    from it: the streak grows by the number of consecutive days, from
    [currentDate] backwards, that are among the dates. *)
Lemma streakLoop_consecutive (l : list Z) (streak currentDate : Z) :
  StronglySorted (flip Z.le) l → NoDup l →
  Forall (fun x => x ≤ currentDate
                   ∧ (currentDate - x) `mod` MS_PER_DAY = 0) l →
  ∃ n : nat,
    InteractionsRoutes.streakLoop l streak currentDate = streak + Z.of_nat n
    ∧ (∀ j : nat, (j < n)%nat →
         currentDate - Z.of_nat j * MS_PER_DAY ∈ l)
    ∧ currentDate - Z.of_nat n * MS_PER_DAY ∉ l.
Proof.
  assert (HD : 0 < MS_PER_DAY) by (unfold MS_PER_DAY; lia).
  intros Hsorted. revert streak currentDate.
  induction Hsorted as [|x rest Hrest IH Hx]; intros streak c Hnd Hall.
  - exists 0%nat. split; [cbn; lia|]. split; [lia|apply not_elem_of_nil].
  - apply NoDup_cons in Hnd as [Hout Hnd].
    apply Forall_cons in Hall as [[Hle Hmod] Hall].
    cbn [InteractionsRoutes.streakLoop]. case_bool_decide as Heq.
    + subst x.
      assert (Hbelow : Forall (fun y => y ≤ c - MS_PER_DAY
                                        ∧ (c - MS_PER_DAY - y)
                                            `mod` MS_PER_DAY = 0) rest).
      { rewrite Forall_forall in Hall, Hx. apply Forall_forall.
        intros y Hy. destruct (Hall y Hy) as [Hyle Hymod].
        assert (y ≠ c) by (intros ->; contradiction).
        apply Z.mod_divide in Hymod as [k Hk]; [|lia].
        assert (1 ≤ k) by (destruct (Z_le_gt_dec k 0); [nia|lia]).
        split; [nia|].
        replace (c - MS_PER_DAY - y) with ((k - 1) * MS_PER_DAY) by lia.
        apply Z.mod_mul. lia. }
      destruct (IH (streak + 1) (previousDay c) Hnd Hbelow)
        as (n & Hn & Hin & Hnot).
      exists (S n). unfold previousDay in *. split; [lia|]. split.
      * intros [|j] Hj.
        { replace (c - Z.of_nat 0 * MS_PER_DAY) with c by lia. left. }
        right.
        replace (c - Z.of_nat (S j) * MS_PER_DAY)
          with (c - MS_PER_DAY - Z.of_nat j * MS_PER_DAY) by lia.
        apply Hin. lia.
      * replace (c - Z.of_nat (S n) * MS_PER_DAY)
          with (c - MS_PER_DAY - Z.of_nat n * MS_PER_DAY) by lia.
        rewrite not_elem_of_cons. split; [nia|exact Hnot].
    + exists 0%nat. split; [lia|]. split; [lia|].
      replace (c - Z.of_nat 0 * MS_PER_DAY) with c by lia.
      rewrite not_elem_of_cons. split; [congruence|].
      intros Hin. rewrite Forall_forall in Hx. specialize (Hx c Hin).
      unfold flip in Hx. lia.
Qed.

(** The streak of [GET /analytics/overall], for sessions that ended
    before the request: it is the number of consecutive local days,
    from the day of the request backwards, on which a session ended. *)
Theorem overall_streak_consecutive (now : Z) (end_times : list Z) :
  Forall (fun t => t ≤ now) end_times →
  ∃ n : nat,
    InteractionsRoutes.streak tz now end_times = Z.of_nat n
    ∧ (∀ j : nat, (j < n)%nat →
         ∃ t, t ∈ end_times
              ∧ setHours0 tz t = setHours0 tz now - Z.of_nat j * MS_PER_DAY)
    ∧ ¬ ∃ t, t ∈ end_times
             ∧ setHours0 tz t = setHours0 tz now - Z.of_nat n * MS_PER_DAY.
Proof.
  intros Hpast. unfold InteractionsRoutes.streak.
  set (days := InteractionsRoutes.toDateString tz <$> end_times).
  destruct (Set_from_spec days [] NoDup_nil_2) as (Hnd & Hin & _).
  fold (JS.Set_from days) in Hnd, Hin.
  assert (Hperm : sortDescending (JS.Set_from days) ≡ₚ JS.Set_from days)
    by apply merge_sort_Permutation.
  assert (Hmem : ∀ x, x ∈ sortDescending (JS.Set_from days)
                      ↔ ∃ t, t ∈ end_times ∧ setHours0 tz t = x).
  { intros x. rewrite Hperm, Hin, elem_of_nil. subst days.
    rewrite list_elem_of_fmap. unfold InteractionsRoutes.toDateString.
    split.
    - intros [[]|(t & -> & Ht)]. exists t. split; [exact Ht|reflexivity].
    - intros (t & Ht & <-). right. exists t. split; [reflexivity|exact Ht]. }
  destruct (streakLoop_consecutive (sortDescending (JS.Set_from days)) 0
              (InteractionsRoutes.toDateString tz now))
    as (n & Hn & Hyes & Hno).
  - pose proof flip_le_total. pose proof flip_le_trans.
    apply StronglySorted_merge_sort; assumption.
  - rewrite Hperm. exact Hnd.
  - apply Forall_forall. intros x Hx. apply Hmem in Hx as (t & Ht & <-).
    rewrite Forall_forall in Hpast. unfold InteractionsRoutes.toDateString.
    split; [apply setHours0_mono, Hpast, Ht|apply setHours0_aligned].
  - exists n. split; [rewrite Hn; lia|].
    unfold InteractionsRoutes.toDateString in *. split.
    + intros j Hj. apply Hmem, Hyes, Hj.
    + intros Hex. apply Hno, Hmem, Hex.
Qed.

(** The dashboard loop never lowers the streak. *)
Lemma streakLoop_grows (l : list Z) (n c : Z) : n ≤ streakLoop l n c.
Proof.
  revert n c. induction l as [|x l IH]; intros n c; cbn [streakLoop]; [lia|].
  destruct (Qlt_le_dec _ 0); [apply IH|].
  destruct (Qeq_bool _ 0 || Qeq_bool _ 1); [|lia].
  etransitivity; [|apply IH]. lia.
Qed.

Lemma streakLoop_le (l : list Z) (n c : Z) :
  InteractionsRoutes.streakLoop l n c ≤ streakLoop l n c.
Proof.
  revert n c. induction l as [|x l IH]; intros n c; [cbn; lia|].
  destruct (decide (x = c)) as [->|Hne].
  - rewrite streakLoop_same_day. cbn [InteractionsRoutes.streakLoop].
    rewrite bool_decide_eq_true_2 by reflexivity. apply IH.
  - cbn [InteractionsRoutes.streakLoop].
    rewrite bool_decide_eq_false_2 by exact Hne. apply streakLoop_grows.
Qed.

Lemma streakLoop_upper (l : list Z) (n c : Z) :
  streakLoop l n c ≤ n + Z.of_nat (length l).
Proof.
  revert n c. induction l as [|x l IH]; intros n c;
    cbn [streakLoop length]; [lia|].
  destruct (Qlt_le_dec _ 0); [specialize (IH n c); lia|].
  destruct (Qeq_bool _ 0 || Qeq_bool _ 1); [|lia].
  specialize (IH (n + 1) (previousDay c)). lia.
Qed.

(** Whatever the instants, the streak of the dashboard, which accepts a
    date one day before the expected one, is at least the streak of the
    overall analytics computed from the same instants, and at most the
    number of distinct local days among them. *)
Theorem dashboard_streak_bounds (now : Z) (instants : list Z) :
  InteractionsRoutes.streak tz now instants ≤ Analytics.streak tz now instants
  ∧ Analytics.streak tz now instants
    ≤ Z.of_nat (length (JS.Set_from (setHours0 tz <$> instants))).
Proof.
  unfold InteractionsRoutes.streak, Analytics.streak,
    InteractionsRoutes.toDateString.
  assert (Hlen : length (sortDescending
                           (JS.Set_from (setHours0 tz <$> instants)))
                 = length (JS.Set_from (setHours0 tz <$> instants))).
  { apply Permutation_length, merge_sort_Permutation. }
  rewrite <- Hlen. clear Hlen.
  set (l := sortDescending (JS.Set_from (setHours0 tz <$> instants))).
  destruct l as [|latest rest] eqn:Hl; [cbn; lia|].
  destruct (Qlt_le_dec 1 _) as [Hstale|Hrecent].
  - split; [|lia]. cbn [InteractionsRoutes.streakLoop].
    rewrite bool_decide_eq_false_2; [lia|].
    intros ->. rewrite Z.sub_diag in Hstale. revert Hstale.
    unfold Qlt, Qdiv, Qmult, Qinv, inject_Z, MS_PER_DAY. cbn. lia.
  - split; [apply streakLoop_le|].
    pose proof (streakLoop_upper (latest :: rest) 0 (setHours0 tz now)).
    lia.
Qed.

End OverallStreak.

Lemma overall_streak_consecutive_witness :
  ∃ n : nat,
    InteractionsRoutes.streak 0 (3 * Analytics.MS_PER_DAY + 5)
      [3 * Analytics.MS_PER_DAY + 1; 2 * Analytics.MS_PER_DAY + 7; 0]
    = Z.of_nat n
    ∧ ∀ j : nat, (j < n)%nat →
        ∃ t, t ∈ [3 * Analytics.MS_PER_DAY + 1;
                  2 * Analytics.MS_PER_DAY + 7; 0]
             ∧ Analytics.setHours0 0 t
               = Analytics.setHours0 0 (3 * Analytics.MS_PER_DAY + 5)
                 - Z.of_nat j * Analytics.MS_PER_DAY.
Proof.
  destruct (overall_streak_consecutive 0 (3 * Analytics.MS_PER_DAY + 5)
              [3 * Analytics.MS_PER_DAY + 1; 2 * Analytics.MS_PER_DAY + 7; 0])
    as (n & Hn & Hyes & _).
  - repeat constructor; unfold Analytics.MS_PER_DAY; lia.
  - exists n. split; assumption.
Defined.

(** ** Creating, reading and deleting sessions *)

Section Store.
Import Session SessionsRoutes SessionsStore.

Lemma findOneActive_Some (db : gmap string Session.t) (student : string)
    (s : Session.t) :
  findOneActive db student = Some s →
  (∃ k, db !! k = Some s) ∧ student_id s = student ∧ is_active s = true.
Proof.
  unfold findOneActive. intros H. apply find_some in H as [Hin Hs].
  apply andb_true_iff in Hs as [Hu Ha]. apply bool_decide_eq_true in Hu.
  split; [|split; assumption].
  apply list_elem_of_In, list_elem_of_fmap in Hin as ([k s'] & -> & Hin).
  exists k. apply elem_of_map_to_list. exact Hin.
Qed.

Lemma findOneActive_None (db : gmap string Session.t) (student : string) :
  findOneActive db student = None →
  ∀ k s, db !! k = Some s → student_id s = student → is_active s = false.
Proof.
  unfold findOneActive. intros H k s Hs Hu.
  assert (Hin : In s ((map_to_list db).*2)).
  { apply list_elem_of_In, list_elem_of_fmap. exists (k, s).
    split; [reflexivity|]. apply elem_of_map_to_list. exact Hs. }
  apply (find_none _ _ H) in Hin.
  rewrite bool_decide_eq_true_2 in Hin by exact Hu. exact Hin.
Qed.

(** The collection after the active session of [user], if any, has been
    ended by a create request. *)
Lemma existing_ended (db : gmap string Session.t) (user : string)
    (ended_at : Z) :
  keyed db → single_active db →
  let db1 :=
    match findOneActive db user with
    | Some existingSession =>
        <[_id existingSession :=
            {| _id := _id existingSession;
               student_id := student_id existingSession;
               is_active := false;
               start_time := start_time existingSession;
               end_time := Some ended_at;
               duration_seconds :=
                 JS.Math_floor
                   (inject_Z (ended_at - start_time existingSession)
                    / 1000)%Q;
               interactions := interactions existingSession;
               metrics := metrics existingSession |}]> db
    | None => db
    end in
  keyed db1
  ∧ (∀ k s, db1 !! k = Some s →
       db !! k = Some s
       ∨ (is_active s = false ∧ student_id s = user ∧ is_Some (db !! k)))
  ∧ (∀ k s, db1 !! k = Some s → student_id s = user → is_active s = false)
  ∧ (∀ k s, db !! k = Some s → student_id s ≠ user → db1 !! k = Some s)
  ∧ (∀ k, db !! k = None → db1 !! k = None).
Proof.
  intros Hk Hsingle. cbv zeta.
  destruct (findOneActive db user) as [e|] eqn:Hfind.
  - apply findOneActive_Some in Hfind as ([ke He] & Hu & Ha).
    pose proof (Hk _ _ He) as Hid. rewrite Hid.
    split; [|split; [|split; [|split]]].
    + intros k s Hs. destruct (decide (ke = k)) as [<-|Hne].
      * rewrite lookup_insert_eq in Hs. injection Hs as <-. reflexivity.
      * rewrite lookup_insert_ne in Hs by exact Hne. apply Hk, Hs.
    + intros k s Hs. destruct (decide (ke = k)) as [<-|Hne].
      * rewrite lookup_insert_eq in Hs. injection Hs as <-. right.
        split; [reflexivity|]. split; [exact Hu|eauto].
      * rewrite lookup_insert_ne in Hs by exact Hne. left. exact Hs.
    + intros k s Hs Hsu. destruct (decide (ke = k)) as [<-|Hne].
      * rewrite lookup_insert_eq in Hs. injection Hs as <-. reflexivity.
      * rewrite lookup_insert_ne in Hs by exact Hne.
        destruct (is_active s) eqn:Hsa; [|reflexivity].
        exfalso. apply Hne.
        apply (Hsingle ke k e s He Hs); congruence.
    + intros k s Hs Hsu. rewrite lookup_insert_ne; [exact Hs|].
      intros <-. congruence.
    + intros k Hnone. rewrite lookup_insert_ne; [exact Hnone|].
      intros <-. congruence.
  - split; [exact Hk|]. split; [auto|]. split; [|auto].
    apply findOneActive_None. exact Hfind.
Qed.

(** A create request keeps the collection keyed by identifier and keeps
    every student at one active session at most; when it is answered
    with 201 the new session is stored under the fresh identifier and
    is the only active session of the requester. The sessions of other
    students are not touched. *)
Theorem post_create_single_active (db : gmap string Session.t)
    (newId user : string) (document_id document_path : option string)
    (ended_at started_at : Z) :
  keyed db → single_active db →
  let result :=
    post_create db newId user document_id document_path ended_at
      started_at in
  keyed result.1 ∧ single_active result.1
  ∧ (Http.status result.2 = 201 →
     db !! newId = None
     ∧ ∃ s, result.1 !! newId = Some s
            ∧ is_active s = true ∧ student_id s = user
            ∧ start_time s = started_at ∧ interactions s = []
            ∧ ∀ k s', result.1 !! k = Some s' → student_id s' = user →
                      is_active s' = true → k = newId)
  ∧ (∀ k s, db !! k = Some s → student_id s ≠ user →
            result.1 !! k = Some s).
Proof.
  intros Hk Hsingle. cbv zeta. unfold post_create.
  destruct (negb (truthyS document_id) || negb (truthyS document_path)).
  { cbn [fst snd Http.failure Http.status]. split; [exact Hk|].
    split; [exact Hsingle|]. split; [discriminate|auto]. }
  destruct (existing_ended db user ended_at Hk Hsingle)
    as (Hk1 & Hfrom & Hnone & Hother & Hfresh).
  cbv zeta in Hk1, Hfrom, Hnone, Hother, Hfresh.
  set (db1 := match findOneActive db user with
              | Some e => _
              | None => db
              end) in *.
  assert (Hsingle1 : single_active db1).
  { intros k1 k2 s1 s2 H1 H2 Hsame Ha1 Ha2.
    destruct (Hfrom _ _ H1) as [H1'|[Hf _]]; [|congruence].
    destruct (Hfrom _ _ H2) as [H2'|[Hf _]]; [|congruence].
    apply (Hsingle k1 k2 s1 s2); assumption. }
  destruct (db1 !! newId) as [taken|] eqn:Hnew.
  { cbn [fst snd Http.failure Http.status]. split; [exact Hk1|].
    split; [exact Hsingle1|]. split; [discriminate|exact Hother]. }
  cbn [fst snd Http.status _id student_id is_active start_time].
  split; [|split; [|split]].
  - intros k s Hs. destruct (decide (newId = k)) as [<-|Hne].
    + rewrite lookup_insert_eq in Hs. injection Hs as <-. reflexivity.
    + rewrite lookup_insert_ne in Hs by exact Hne. apply Hk1, Hs.
  - intros k1 k2 s1 s2 H1 H2 Hsame Ha1 Ha2.
    destruct (decide (newId = k1)) as [<-|Hne1];
      destruct (decide (newId = k2)) as [<-|Hne2]; [reflexivity| | |].
    + rewrite lookup_insert_eq in H1. injection H1 as <-.
      rewrite lookup_insert_ne in H2 by exact Hne2.
      cbn [student_id] in Hsame.
      rewrite (Hnone _ _ H2) in Ha2 by congruence. discriminate.
    + rewrite lookup_insert_eq in H2. injection H2 as <-.
      rewrite lookup_insert_ne in H1 by exact Hne1.
      cbn [student_id] in Hsame.
      rewrite (Hnone _ _ H1) in Ha1 by congruence. discriminate.
    + rewrite lookup_insert_ne in H1 by exact Hne1.
      rewrite lookup_insert_ne in H2 by exact Hne2.
      apply (Hsingle1 k1 k2 s1 s2); assumption.
  - intros _. split.
    + destruct (db !! newId) as [s|] eqn:Hold; [|reflexivity].
      destruct (decide (student_id s = user)) as [Hu|Hu].
      * assert (is_Some (db1 !! newId)) as [s1 Hs1]; [|congruence].
        clear Hfrom Hnone Hother Hfresh Hk1 Hsingle1 Hnew. subst db1.
        destruct (findOneActive db user) as [e|]; [|eauto].
        destruct (decide (_id e = newId)) as [->|Hne].
        -- rewrite lookup_insert_eq. eauto.
        -- rewrite lookup_insert_ne by exact Hne. eauto.
      * rewrite (Hother _ _ Hold Hu) in Hnew. discriminate.
    + eexists. split; [apply lookup_insert_eq|].
      cbn [is_active student_id start_time interactions].
      repeat (split; [reflexivity|]).
      intros k s' Hs' Hu Ha.
      destruct (decide (newId = k)) as [<-|Hne]; [reflexivity|].
      rewrite lookup_insert_ne in Hs' by exact Hne.
      rewrite (Hnone _ _ Hs' Hu) in Ha. discriminate.
  - intros k s Hs Hu. rewrite lookup_insert_ne; [apply Hother; assumption|].
    intros <-. rewrite (Hother _ _ Hs Hu) in Hnew. discriminate.
Qed.

Lemma post_create_single_active_witness :
  let db : gmap string Session.t :=
    {[ "s1" := Examples.sessionOf true [] ]} in
  let result := post_create db "s2" "u1" (Some "doc") (Some "/doc.pdf")
                  5000 5001 in
  single_active result.1
  ∧ ∃ s, result.1 !! "s2" = Some s
         ∧ ∀ k s', result.1 !! k = Some s' → student_id s' = "u1" →
                   is_active s' = true → k = "s2".
Proof.
  cbv zeta.
  destruct (post_create_single_active
              {[ "s1" := Examples.sessionOf true [] ]} "s2" "u1"
              (Some "doc") (Some "/doc.pdf") 5000 5001)
    as (_ & Hs & Hcreated & _).
  - intros k s Hs. apply lookup_singleton_Some in Hs as [<- <-]. reflexivity.
  - intros k1 k2 s1 s2 H1 H2 _ _ _.
    apply lookup_singleton_Some in H1 as [<- _].
    apply lookup_singleton_Some in H2 as [<- _]. reflexivity.
  - split; [exact Hs|].
    destruct Hcreated as (_ & s & Hnew & _ & _ & _ & _ & Honly);
      [vm_compute; reflexivity|].
    exists s. split; assumption.
Defined.

End Store.

(** ** Reading a session after its end, and deleting it *)

Section StoreReads.
Import Session SessionsRoutes SessionsStore.

Lemma exclusive_filters {A : Type} (p q : A → bool) (l : list A) :
  (∀ x, p x = true → q x = false) →
  (length (List.filter p l) + length (List.filter q l) ≤ length l)%nat.
Proof.
  intros Hpq. induction l as [|x l IH]; cbn [List.filter length]; [lia|].
  destruct (p x) eqn:Hp; [rewrite (Hpq x Hp)|destruct (q x)];
    cbn [length]; lia.
Qed.

(** The duration reported for a session is frozen by its end: the
    metrics read at the instant of a successful end request, just
    before it, and at any instant after it report the duration that
    the end request answers; the counts of interactions are the same,
    and the webcam and page-turn events together never exceed the
    interactions. *)
Theorem duration_frozen_by_end (db : gmap string Session.t)
    (sessionId user : string) (ended_at : Z) :
  keyed db →
  Http.status (patch_end db sessionId user ended_at).2 = 200 →
  ∃ r before,
    Http.data (patch_end db sessionId user ended_at).2 = Some r
    ∧ Http.data (get_metrics db sessionId ended_at) = Some before
    ∧ isActive before = true
    ∧ duration before = ended_duration_seconds r
    ∧ ∀ now,
        ∃ after,
          Http.data
            (get_metrics (patch_end db sessionId user ended_at).1
               sessionId now) = Some after
          ∧ isActive after = false
          ∧ duration after = ended_duration_seconds r
          ∧ totalInteractions after = totalInteractions before
          ∧ webcamEvents after = webcamEvents before
          ∧ pageChanges after = pageChanges before
          ∧ (webcamEvents after + pageChanges after
             ≤ totalInteractions after)%nat.
Proof.
  intros Hk. unfold patch_end, get_metrics.
  destruct (db !! sessionId) as [session|] eqn:Hs; [|discriminate].
  destruct (bool_decide (student_id session = user)); [|discriminate].
  destruct (is_active session) eqn:Hactive; [|discriminate].
  cbn [negb fst snd Http.status Http.data]. intros _.
  eexists _, _. split; [reflexivity|]. split; [reflexivity|].
  cbn [isActive duration ended_duration_seconds].
  split; [reflexivity|]. split; [reflexivity|].
  intros now. rewrite (Hk _ _ Hs), lookup_insert_eq.
  eexists. split; [reflexivity|].
  cbn [isActive duration totalInteractions webcamEvents pageChanges
       is_active duration_seconds interactions].
  repeat (split; [reflexivity|]).
  apply exclusive_filters. intros i. unfold is_type.
  intros Hw. apply bool_decide_eq_true in Hw.
  apply bool_decide_eq_false. rewrite Hw. discriminate.
Qed.

Lemma duration_frozen_by_end_witness :
  ∃ r after,
    Http.data
      (patch_end {[ "s1" := Examples.sessionOf true [] ]} "s1" "u1" 7500).2
    = Some r
    ∧ Http.data
        (get_metrics
           (patch_end {[ "s1" := Examples.sessionOf true [] ]} "s1" "u1"
              7500).1 "s1" 99000) = Some after
    ∧ duration after = ended_duration_seconds r.
Proof.
  destruct (duration_frozen_by_end
              {[ "s1" := Examples.sessionOf true [] ]} "s1" "u1" 7500)
    as (r & before & Hr & _ & _ & _ & Hafter).
  - intros k s Hs. apply lookup_singleton_Some in Hs as [<- <-]. reflexivity.
  - vm_compute. reflexivity.
  - destruct (Hafter 99000) as (after & Ha & _ & Hd & _).
    exists r, after. repeat split; assumption.
Defined.

(** A delete request answered with 200 was made by the student of the
    session or by a teacher; it removes the session and nothing else,
    after which the metrics, end and delete requests for that session
    are answered with 404. A refused delete request changes nothing. *)
Theorem delete_session_gone (db : gmap string Session.t)
    (sessionId user role : string) :
  let result := delete_session db sessionId user role in
  (Http.status result.2 = 200 →
   (∃ s, db !! sessionId = Some s
         ∧ (student_id s = user ∨ role = "teacher"))
   ∧ result.1 = delete sessionId db
   ∧ ∀ user' role' now,
       Http.status (get_metrics result.1 sessionId now) = 404
       ∧ patch_end result.1 sessionId user' now
         = (result.1, Http.failure 404 "Session not found")
       ∧ delete_session result.1 sessionId user' role'
         = (result.1, Http.failure 404 "Session not found"))
  ∧ (Http.status result.2 ≠ 200 → result.1 = db).
Proof.
  cbv zeta. unfold delete_session.
  destruct (db !! sessionId) as [s|] eqn:Hs;
    [|split; [discriminate|reflexivity]].
  destruct (negb (bool_decide (student_id s = user))
            && negb (bool_decide (role = "teacher"))) eqn:Hdenied;
    [split; [discriminate|reflexivity]|].
  cbn [fst snd Http.status]. split; [|congruence]. intros _.
  split.
  - exists s. split; [reflexivity|].
    apply andb_false_iff in Hdenied as [H|H];
      apply negb_false_iff, bool_decide_eq_true in H; tauto.
  - split; [reflexivity|]. intros user' role' now.
    unfold get_metrics, patch_end, delete_session.
    rewrite lookup_delete_eq. repeat split; reflexivity.
Qed.

Lemma delete_session_gone_witness :
  let db : gmap string Session.t :=
    {[ "s1" := Examples.sessionOf false [] ]} in
  (delete_session db "s1" "u2" "teacher").1 = delete "s1" db
  ∧ (delete_session db "s1" "u2" "student").1 = db.
Proof.
  cbv zeta. split.
  - apply (delete_session_gone {[ "s1" := Examples.sessionOf false [] ]}
             "s1" "u2" "teacher").
    vm_compute. reflexivity.
  - apply (delete_session_gone {[ "s1" := Examples.sessionOf false [] ]}
             "s1" "u2" "student").
    vm_compute. discriminate.
Defined.

End StoreReads.

(** ** Logging an interaction *)

Section Logging.
Import Session NLPService InteractionsRoutes SessionsRoutes.

Lemma last_cons_default {A : Type} (x d : A) (l : list A) :
  List.last (x :: l) d = List.last l x.
Proof.
  revert x d. induction l as [|y l IH]; intros x d; [reflexivity|].
  change (List.last (x :: y :: l) d) with (List.last (y :: l) d).
  rewrite !IH. reflexivity.
Qed.

Lemma edgesFrom_snoc (prev b : bool) (l : list bool) :
  Loops.edgesFrom prev (l ++ [b])
  = (Loops.edgesFrom prev l
     + (if b && negb (List.last l prev) then 1 else 0))%nat.
Proof.
  revert prev. induction l as [|x l IH]; intros prev.
  - cbn. lia.
  - cbn [app Loops.edgesFrom]. rewrite IH, last_cons_default. lia.
Qed.

Lemma payloads_present_snoc (session : Session.t) (i : Interaction)
    (session' : Session.t) :
  Spec.payloads_present session → is_Some (data i) →
  interactions session' = interactions session ++ [i] →
  Spec.payloads_present session'.
Proof.
  unfold Spec.payloads_present. intros H Hi ->.
  apply Forall_app. split; [exact H|].
  constructor; [intros _; exact Hi|constructor].
Qed.

(** Logging a webcam sample with a payload on one's own session adds
    one sample to the snapshot computed by [calculateFinalMetrics], and
    one distraction exactly when the sample shows a phone and the last
    sample before it, if any, did not; the duration of the snapshot is
    the same. *)
Theorem post_interaction_counted (db : gmap string Session.t)
    (sessionId user : string) (session : Session.t)
    (d : InteractionData) (now : Z) :
  keyed db →
  db !! sessionId = Some session →
  student_id session = user →
  Spec.payloads_present session →
  let result :=
    post_interaction db sessionId user (Some webcam) (Some d) now in
  Http.status result.2 = 200
  ∧ ∃ m m',
      calculateFinalMetrics db sessionId = JS.Return (Metrics m)
      ∧ calculateFinalMetrics result.1 sessionId = JS.Return (Metrics m')
      ∧ totalMetricsRecorded m' = S (totalMetricsRecorded m)
      ∧ Session.distractionCount m'
        = Session.distractionCount m
          + (if JS.truthy (hasPhone d)
                && negb (List.last
                           (Spec.hasPhoneSequence (Spec.samples session))
                           false)
             then 1 else 0)
      ∧ durationSeconds m' = durationSeconds m.
Proof.
  intros Hk Hs Hu Hpay. cbv zeta. unfold post_interaction.
  rewrite Hs, bool_decide_eq_true_2 by exact Hu.
  cbn [negb fst snd Http.status]. split; [reflexivity|].
  rewrite (Hk _ _ Hs).
  set (i := {| type := webcam; timestamp := now; data := Some d |}).
  cbn [_id].
  match goal with
  | |- context [<[sessionId := ?s]> db] => set (session' := s)
  end.
  assert (Hs' : <[sessionId := session']> db !! sessionId = Some session')
    by apply lookup_insert_eq.
  assert (Hpay' : Spec.payloads_present session').
  { apply (payloads_present_snoc session i); [exact Hpay|eauto|reflexivity]. }
  assert (Hweb : webcamMetrics session' = webcamMetrics session ++ [i]).
  { unfold webcamMetrics. cbn [interactions session'].
    rewrite List.filter_app. reflexivity. }
  assert (Hne : webcamMetrics session' ≠ []).
  { rewrite Hweb. destruct (webcamMetrics session); discriminate. }
  destruct (calculateFinalMetrics_computed _ _ _ Hs' Hpay' Hne)
    as (acc' & m' & Hloop' & Hm' & _ & _ & Hdc' & Htotal' & Hdur' & _).
  destruct (forEach_aggregate (webcamMetrics session') initial
              (payloads_webcam session' Hpay'))
    as (acc1 & Hloop1 & _ & _ & _ & Hedges').
  rewrite Hloop' in Hloop1. injection Hloop1 as <-.
  assert (Hsamples : omap data (webcamMetrics session')
                     = Spec.samples session ++ [d]).
  { rewrite Hweb, omap_app. reflexivity. }
  rewrite Hsamples in Hedges'. unfold Spec.hasPhoneSequence in Hedges'.
  rewrite fmap_app in Hedges'. cbn [fmap list_fmap] in Hedges'.
  rewrite edgesFrom_snoc in Hedges'.
  fold (Spec.hasPhoneSequence (Spec.samples session)) in Hedges'.
  cbn [phoneDetectedFlag NLPService.distractionCount initial] in Hedges'.
  destruct (decide (webcamMetrics session = [])) as [Hold|Hne0].
  - exists {| engagementScore := 0; attentionRate := 0; avgBlinkRate := 0;
              Session.distractionCount := 0;
              durationSeconds := duration_seconds session;
              totalMetricsRecorded := 0; documentMetrics := None |}, m'.
    split; [apply calculateFinalMetrics_empty; assumption|].
    split; [exact Hm'|].
    cbn [totalMetricsRecorded Session.distractionCount durationSeconds].
    rewrite Htotal', Hweb, Hdc', Hedges', Hdur'.
    assert (Hnone : Spec.samples session = []).
    { unfold Spec.samples. rewrite Hold. reflexivity. }
    rewrite Hnone, Hold.
    cbn [Spec.hasPhoneSequence fmap list_fmap Loops.edgesFrom List.last].
    split; [reflexivity|]. split; [|reflexivity].
    destruct (JS.truthy (hasPhone d) && negb false); lia.
  - destruct (calculateFinalMetrics_computed _ _ _ Hs Hpay Hne0)
      as (acc & m & Hloop & Hm & _ & _ & Hdc & Htotal & Hdur & _).
    destruct (forEach_aggregate (webcamMetrics session) initial
                (payloads_webcam session Hpay))
      as (acc0 & Hloop0 & _ & _ & _ & Hedges).
    rewrite Hloop in Hloop0. injection Hloop0 as <-.
    fold (Spec.samples session) in Hedges.
    cbn [phoneDetectedFlag NLPService.distractionCount initial] in Hedges.
    exists m, m'. split; [exact Hm|]. split; [exact Hm'|].
    rewrite Htotal', Htotal, Hweb, Hdc', Hdc, Hedges', Hedges, Hdur', Hdur.
    split; [rewrite length_app; cbn [length]; lia|].
    split; [|reflexivity].
    destruct (JS.truthy (hasPhone d) && negb _); lia.
Qed.

Lemma post_interaction_counted_witness :
  ∃ m',
    calculateFinalMetrics
      (post_interaction
         {[ "s1" := Examples.sessionOf true [Examples.phoneSample None] ]}
         "s1" "u1" (Some webcam)
         (data (Examples.phoneSample (Some true))) 10).1 "s1"
    = JS.Return (Metrics m')
    ∧ totalMetricsRecorded m' = 2%nat
    ∧ Session.distractionCount m' = 1.
Proof.
  destruct (post_interaction_counted
              {[ "s1" := Examples.sessionOf true [Examples.phoneSample None] ]}
              "s1" "u1" (Examples.sessionOf true [Examples.phoneSample None])
              {| lookingAtScreen := None; postureScore := None;
                 blinkRate := None; hasPhone := Some true;
                 from := None; page := None;
                 time_spent := None; duration := None |} 10)
    as (_ & m & m' & Hm & Hm' & Htotal & Hdc & _).
  - intros k s Hs. apply lookup_singleton_Some in Hs as [<- <-]. reflexivity.
  - apply lookup_singleton_eq.
  - reflexivity.
  - repeat constructor. intros _. eexists. reflexivity.
  - exists m'. split; [exact Hm'|].
    assert (Hm0 : calculateFinalMetrics
                    {[ "s1" := Examples.sessionOf true
                                 [Examples.phoneSample None] ]} "s1"
                  = JS.Return (Metrics m)) by exact Hm.
    vm_compute in Hm0. injection Hm0 as <-.
    split; [exact Htotal|]. rewrite Hdc. reflexivity.
Defined.

End Logging.

(** ** Closing all active sessions *)

Section CleanupProps.
Import Session SessionsRoutes.

Lemma cleanup_lookup (db : gmap string Session.t) (now : Z) (k : string) :
  (Cleanup.cleanup db now).1 !! k
  = (fun session =>
       if is_active session then
         {| _id := _id session;
            student_id := student_id session;
            is_active := false;
            start_time := start_time session;
            end_time := Some now;
            duration_seconds := duration_seconds session;
            interactions := interactions session;
            metrics := metrics session |}
       else session) <$> db !! k.
Proof. unfold Cleanup.cleanup. cbn [fst]. apply lookup_fmap. Qed.

Lemma cleanup_inactive (db : gmap string Session.t) (now : Z) (k : string)
    (s : Session.t) :
  (Cleanup.cleanup db now).1 !! k = Some s → is_active s = false.
Proof.
  rewrite cleanup_lookup. destruct (db !! k) as [s0|]; [|discriminate].
  cbn [fmap option_fmap option_map]. intros [= <-].
  destruct (is_active s0) eqn:Ha; [reflexivity|exact Ha].
Qed.

Lemma filter_none {A : Type} (p : A → bool) (l : list A) :
  (∀ x, In x l → p x = false) → List.filter p l = [].
Proof.
  induction l as [|x l IH]; intros H; cbn [List.filter]; [reflexivity|].
  rewrite (H x) by (left; reflexivity). apply IH.
  intros y Hy. apply H. right. exact Hy.
Qed.

(** End requests served on a collection without active sessions change
    nothing and are all refused. *)
Lemma serve_all_ended (db : gmap string Session.t) (reqs : list EndRequest) :
  (∀ k s, db !! k = Some s → is_active s = false) →
  (serve db reqs).1 = db
  ∧ Forall (fun resp => Http.status resp ≠ 200) (serve db reqs).2.
Proof.
  intros Hall. induction reqs as [|r reqs IH].
  - split; [reflexivity|constructor].
  - rewrite serve_cons. cbv zeta.
    destruct (patch_end_cases db (req_sessionId r) (req_user r) (req_now r))
      as [(resp & Hr & Hne)|(s & s' & resp & Hs & Hactive & _)].
    + rewrite Hr. cbn [fst snd]. destruct IH as [IH1 IH2].
      split; [exact IH1|]. constructor; assumption.
    + rewrite (Hall _ _ Hs) in Hactive. discriminate.
Qed.

(** After the clean-up no session is active; sessions that were already
    ended are as before; a session closed by the clean-up gets the end
    time of the clean-up and keeps its recorded duration, which is
    not computed from the end time as an end request does; a second
    clean-up modifies nothing; and every later end request is refused
    and changes nothing. *)
Theorem cleanup_closes_all (db : gmap string Session.t) (now : Z) :
  let closed := (Cleanup.cleanup db now).1 in
  (∀ k s, closed !! k = Some s → is_active s = false)
  ∧ (∀ k s, db !! k = Some s →
       ∃ s', closed !! k = Some s'
             ∧ duration_seconds s' = duration_seconds s
             ∧ interactions s' = interactions s
             ∧ (is_active s = false → s' = s)
             ∧ (is_active s = true → end_time s' = Some now))
  ∧ (∀ now', Cleanup.cleanup closed now' = (closed, 0%nat))
  ∧ ∀ reqs,
      (serve closed reqs).1 = closed
      ∧ Forall (fun resp => Http.status resp ≠ 200) (serve closed reqs).2.
Proof.
  cbv zeta. split; [apply cleanup_inactive|]. split; [|split].
  - intros k s Hs. rewrite cleanup_lookup, Hs.
    cbn [fmap option_fmap option_map]. eexists. split; [reflexivity|].
    destruct (is_active s); cbn [duration_seconds interactions end_time];
      repeat split; try reflexivity; discriminate.
  - intros now'. unfold Cleanup.cleanup at 1. f_equal.
    + apply map_eq. intros k. rewrite lookup_fmap.
      destruct ((Cleanup.cleanup db now).1 !! k) as [s|] eqn:Hs;
        [|reflexivity].
      cbn [fmap option_fmap option_map].
      rewrite (cleanup_inactive _ _ _ _ Hs). reflexivity.
    + rewrite filter_none; [reflexivity|].
      intros s Hin.
      apply list_elem_of_In, list_elem_of_fmap in Hin as ([k s'] & -> & Hin).
      apply elem_of_map_to_list in Hin.
      apply (cleanup_inactive _ _ _ _ Hin).
  - intros reqs. apply serve_all_ended. apply cleanup_inactive.
Qed.

End CleanupProps.

(** ** The reported productivity score and its grade *)

Section ReportedScore.
Import Analytics.
Local Open Scope Q_scope.

Lemma Math_round_mono (x y : Q) : x <= y → (JS.Math_round x ≤ JS.Math_round y)%Z.
Proof. intros H. unfold JS.Math_round. apply Qfloor_resp_le. lra. Qed.

Lemma Math_round_Z (n : Z) : JS.Math_round (inject_Z n) = n.
Proof.
  unfold JS.Math_round. apply Z.le_antisymm.
  - apply Z.lt_succ_r. rewrite Zlt_Qlt.
    eapply Qle_lt_trans; [apply Qfloor_le|].
    rewrite <- Z.add_1_r, inject_Z_plus. change (inject_Z 1) with 1. lra.
  - rewrite <- (Qfloor_Z n) at 1. apply Qfloor_resp_le. lra.
Qed.

(** For data in the ranges of the data model the score reported by
    [GET /productivity-score] is an integer of [0, 100]. The grade is
    taken from the sum before rounding, so a reported score may carry
    the grade below its own: the score of a grade lies between the
    threshold of the grade and the next threshold, both included. *)
Theorem productivity_score_reported (days : Z) (sessions : list SessionTimes)
    (engagementData : option EngagementData) (highlights annotations : nat) :
  (0 < days)%Z →
  Spec.times_ordered sessions →
  Spec.rates_in_range engagementData →
  ∃ p,
    Http.data
      (get_productivity_score days sessions engagementData highlights
         annotations) = Some p
    ∧ (0 ≤ overall_score p ≤ 100)%Z
    ∧ match grade p with
      | A_plus => (90 ≤ overall_score p)%Z
      | A => (85 ≤ overall_score p ≤ 90)%Z
      | A_minus => (80 ≤ overall_score p ≤ 85)%Z
      | B => (70 ≤ overall_score p ≤ 80)%Z
      | C => (60 ≤ overall_score p ≤ 70)%Z
      | D => (overall_score p ≤ 60)%Z
      end.
Proof.
  intros Hdays Htimes Hrates. unfold get_productivity_score.
  rewrite (proj2 (Z.leb_gt days 0)) by lia.
  eexists. split; [reflexivity|]. cbn [overall_score grade].
  destruct (subScores_normalized days sessions engagementData highlights
              annotations Hdays Htimes Hrates)
    as ([? ?] & [? ?] & [? ?] & [? ?] & [? ?] & [? ?]).
  set (s := subScores days sessions engagementData highlights annotations)
    in *.
  assert (Ho : 0 <= overall s ∧ overall s <= 100)
    by (unfold overall; split; lra).
  destruct Ho as [Ho0 Ho100].
  pose proof (Math_round_mono _ _ Ho0) as Hlo.
  pose proof (Math_round_mono _ _ Ho100) as Hhi.
  change 0 with (inject_Z 0) in Hlo. change 100 with (inject_Z 100) in Hhi.
  rewrite Math_round_Z in Hlo, Hhi. split; [lia|].
  destruct (gradeOf_thresholds (overall s))
    as (HAp & HA & HAm & HB & HC & HD).
  assert (Hround : ∀ n : Z,
            (inject_Z n <= overall s → (n ≤ JS.Math_round (overall s))%Z)
            ∧ (overall s < inject_Z n → (JS.Math_round (overall s) ≤ n)%Z)).
  { intros n. split; intros Hn.
    - rewrite <- (Math_round_Z n) at 1. apply Math_round_mono. exact Hn.
    - rewrite <- (Math_round_Z n). apply Math_round_mono. lra. }
  destruct (Qlt_le_dec (overall s) 60) as [H60|H60];
    [rewrite (HD H60); apply (Hround 60%Z), H60|].
  destruct (Qlt_le_dec (overall s) 70) as [H70|H70];
    [rewrite (HC (conj H60 H70));
     split; [apply (Hround 60%Z), H60|apply (Hround 70%Z), H70]|].
  destruct (Qlt_le_dec (overall s) 80) as [H80|H80];
    [rewrite (HB (conj H70 H80));
     split; [apply (Hround 70%Z), H70|apply (Hround 80%Z), H80]|].
  destruct (Qlt_le_dec (overall s) 85) as [H85|H85];
    [rewrite (HAm (conj H80 H85));
     split; [apply (Hround 80%Z), H80|apply (Hround 85%Z), H85]|].
  destruct (Qlt_le_dec (overall s) 90) as [H90|H90];
    [rewrite (HA (conj H85 H90));
     split; [apply (Hround 85%Z), H85|apply (Hround 90%Z), H90]|].
  rewrite (HAp H90). apply (Hround 90%Z), H90.
Qed.

Lemma productivity_score_reported_witness :
  ∃ p,
    Http.data
      (get_productivity_score 7 (Examples.completed 7) None 0 0) = Some p
    ∧ (0 ≤ overall_score p ≤ 100)%Z.
Proof.
  destruct (productivity_score_reported 7 (Examples.completed 7) None 0 0)
    as (p & Hp & Hrange & _).
  - lia.
  - repeat constructor; intros b e [= <-] [= <-]; lia.
  - intros d Hd. discriminate.
  - exists p. split; assumption.
Defined.

End ReportedScore.

(** ** How many anomalies a session can have *)

Section AnomalyCount.
Import Metric.

Lemma omap_length_le {A B : Type} (f : A → option B) (l : list A) :
  (length (omap f l) ≤ length l)%nat.
Proof.
  induction l as [|x l IH]; cbn [omap list_omap length]; [lia|].
  destruct (f x); cbn [length]; lia.
Qed.

(** The absence loop reports at most one anomaly for every five samples
    it visits; [c] is the running count of absent samples. *)
Lemma absenceLoop_count (l : list Metric.t) (c : Z) (acc : list Anomaly) :
  0 ≤ c →
  ∃ c' acc',
    JS.forEach absenceStep l (c, acc) = JS.Return (c', acc')
    ∧ 0 ≤ c'
    ∧ 5 * Z.of_nat (length acc') + (if c' <? 5 then c' else 0)
      ≤ 5 * Z.of_nat (length acc) + Z.of_nat (length l)
        + (if c <? 5 then c else 0).
Proof.
  revert c acc. induction l as [|m l IH]; intros c acc Hc.
  - exists c, acc. split; [reflexivity|]. split; [exact Hc|]. cbn. lia.
  - cbn [JS.forEach]. destruct (presence_detected m) eqn:Hm.
    + assert (Hstep : absenceStep (c, acc) m = JS.Return (0, acc))
        by (unfold absenceStep; rewrite Hm; reflexivity).
      rewrite Hstep. cbn [mbind JS.Completion_bind].
      destruct (IH 0 acc ltac:(lia)) as (c' & acc' & Hloop & Hc' & Hle).
      exists c', acc'. split; [exact Hloop|]. split; [exact Hc'|].
      cbn [length]. change (0 <? 5) with true in Hle. cbv iota in Hle.
      destruct (c <? 5) eqn:H5; lia.
    + rewrite (absenceStep_absent c acc m Hm). cbn [mbind JS.Completion_bind].
      destruct (c + 1 =? 5) eqn:Hfire.
      * apply Z.eqb_eq in Hfire.
        destruct (IH (c + 1) (acc ++ [Spec.prolongedAbsenceAt m]) ltac:(lia))
          as (c' & acc' & Hloop & Hc' & Hle).
        exists c', acc'. split; [exact Hloop|]. split; [exact Hc'|].
        rewrite length_app in Hle. cbn [length] in *.
        rewrite (proj2 (Z.ltb_ge (c + 1) 5)) in Hle by lia.
        rewrite (proj2 (Z.ltb_lt c 5)) by lia. lia.
      * apply Z.eqb_neq in Hfire.
        destruct (IH (c + 1) acc ltac:(lia))
          as (c' & acc' & Hloop & Hc' & Hle).
        exists c', acc'. split; [exact Hloop|]. split; [exact Hc'|].
        cbn [length].
        destruct (c + 1 <? 5) eqn:H1, (c <? 5) eqn:H2;
          rewrite ?Z.ltb_lt, ?Z.ltb_ge in H1, H2; lia.
Qed.

(** [detectAnomalies] lists the engagement drops before the prolonged
    absences; a session of [n] samples has at most [n - 1] of the
    former and at most one of the latter for every five samples, and
    the anomalies handler reports their number. *)
Theorem detectAnomalies_count (collection : list Metric.t)
    (sessionId : string) :
  let n := length (find collection sessionId) in
  ∃ drops absences,
    detectAnomalies collection sessionId = JS.Return (drops ++ absences)
    ∧ Forall (fun a => anomaly_type a = engagement_drop) drops
    ∧ Forall (fun a => anomaly_type a = prolonged_absence
                       ∧ severity a = high) absences
    ∧ (length drops ≤ n - 1)%nat
    ∧ (5 * length absences ≤ n)%nat
    ∧ Http.count (MetricsRoutes.get_anomalies collection sessionId)
      = Some (length drops + length absences)%nat.
Proof.
  cbv zeta. set (l := find collection sessionId).
  exists (Spec.engagementDrops l), (Spec.prolongedAbsences l).
  split; [apply detectAnomalies_computed|].
  split; [apply engagementDrops_type|]. split; [|split; [|split]].
  - unfold Spec.prolongedAbsences. apply Forall_forall. intros a Ha.
    apply list_elem_of_omap in Ha as (i & _ & Hi).
    unfold Spec.prolongedAbsenceOf in Hi.
    destruct (Spec.fifthOfAbsenceRun l i); [|discriminate].
    destruct (l !! i); [|discriminate]. injection Hi as <-.
    split; reflexivity.
  - unfold Spec.engagementDrops, Spec.adjacentPairs.
    etransitivity; [apply omap_length_le|].
    rewrite length_zip, length_drop. lia.
  - destruct (absenceLoop_count l 0 [] ltac:(lia))
      as (c' & acc' & Hloop & Hc' & Hle).
    pose proof (absenceLoop l [] [] []) as Hspec.
    cbn [Loops.leadingAbsent reverse app length] in Hspec.
    change (Z.of_nat 0) with 0 in Hspec.
    rewrite Hloop in Hspec. injection Hspec as _ ->.
    rewrite app_nil_r in Hle. fold (Spec.prolongedAbsences l) in Hle.
    cbn [length] in Hle. destruct (c' <? 5); cbn in Hle; lia.
  - unfold MetricsRoutes.get_anomalies.
    rewrite detectAnomalies_computed. cbn [Http.count].
    rewrite length_app. reflexivity.
Qed.

End AnomalyCount.

(** ** The document metrics of a snapshot *)

Section DocumentMetricsProps.
Import Session NLPService.

(** The loop of [getPageTimeAnalytics] adds at most one page for every
    event. *)
Lemma pageLoop_size (body : gmap Z Q → Interaction → JS.Completion (gmap Z Q))
    (l : list Interaction) :
  (∀ m i d, data i = Some d →
     body m i
     = JS.Return (match Props.pageOf d with
                  | Some p => <[p := (JS.or0 (m !! p) + Props.timeOf d)%Q]> m
                  | None => m
                  end)) →
  Forall (fun i => is_Some (data i)) l →
  ∀ m0 m, JS.forEach body l m0 = JS.Return m →
          (size m ≤ size m0 + length l)%nat.
Proof.
  intros Hbody Hall. induction Hall as [|i l [d Hd] _ IH]; intros m0 m.
  - cbn. intros [= <-]. lia.
  - cbn [JS.forEach length]. rewrite (Hbody m0 i d Hd).
    cbn [mbind JS.Completion_bind]. intros Hm. apply IH in Hm.
    destruct (Props.pageOf d) as [p|]; [|lia].
    destruct (m0 !! p) as [q|] eqn:Hp.
    + rewrite map_size_insert_Some in Hm by eauto. lia.
    + rewrite map_size_insert_None in Hm by exact Hp. lia.
Qed.

(** The snapshot of a stored session whose payloads are present carries
    document metrics exactly when the session has webcam samples: then
    they hold the page-time table of the session, the number of its
    pages, which is at most the number of page events, and the number
    of highlights; without a webcam sample the page events and
    highlights of the session are not reported at all. *)
Theorem documentMetrics_pages (db : gmap string Session.t)
    (sessionId : string) (session : Session.t) :
  db !! sessionId = Some session →
  Spec.payloads_present session →
  ∃ m table,
    calculateFinalMetrics db sessionId = JS.Return (Metrics m)
    ∧ getPageTimeAnalytics session = JS.Return table
    ∧ match documentMetrics m with
      | None => webcamMetrics session = []
      | Some dm =>
          webcamMetrics session ≠ []
          ∧ pageTimeAnalytics dm = table
          ∧ pagesVisited dm = size table
          ∧ (pagesVisited dm ≤ length (Props.pageEvents session))%nat
          ∧ totalHighlights dm
            = length (List.filter (is_type highlight) (interactions session))
      end.
Proof.
  intros Hdb Hpay.
  destruct (getPageTimeAnalytics_returns session Hpay) as [table Htable].
  destruct (decide (webcamMetrics session = [])) as [Hnone|Hne].
  - eexists _, table.
    split; [apply (calculateFinalMetrics_empty db sessionId session Hdb Hnone)|].
    split; [exact Htable|]. exact Hnone.
  - destruct (forEach_aggregate (webcamMetrics session) initial
                (payloads_webcam session Hpay)) as (acc & Hloop & _).
    unfold calculateFinalMetrics. rewrite Hdb.
    destruct (length (webcamMetrics session) =? 0)%nat eqn:Hlen.
    { apply Nat.eqb_eq, length_zero_iff_nil in Hlen. contradiction. }
    rewrite Hloop, Htable.
    cbn [mbind JS.Completion_bind mret JS.Completion_ret].
    eexists _, table. split; [reflexivity|]. split; [reflexivity|].
    cbn [documentMetrics pageTimeAnalytics pagesVisited totalHighlights].
    split; [exact Hne|]. repeat (split; [reflexivity|]).
    split; [|reflexivity].
    assert (Hevents : Forall (fun i => is_Some (data i))
                        (List.filter
                           (fun i => is_type page_turn i
                                     || is_type page_change i)
                           (interactions session))).
    { apply Forall_forall. intros i Hi.
      apply list_elem_of_In, filter_In in Hi as [Hi Hty].
      unfold Spec.payloads_present in Hpay. rewrite Forall_forall in Hpay.
      apply (Hpay i); [apply list_elem_of_In; exact Hi|].
      unfold is_type in Hty. apply orb_true_iff in Hty.
      destruct Hty as [Hty|Hty]; apply bool_decide_eq_true in Hty;
        rewrite Hty; set_solver. }
    unfold getPageTimeAnalytics in Htable.
    match type of Htable with
    | JS.forEach ?b _ ∅ = _ =>
        pose proof (pageLoop_size b _
                      (fun m i d Hd =>
                         ltac:(cbv beta; rewrite Hd;
                               cbv [JS.deref mbind JS.Completion_bind];
                               unfold Props.pageOf, Props.timeOf;
                               destruct (JS.truthyZ (from d)); [reflexivity|];
                               destruct (JS.truthyZ (page d)); reflexivity))
                      Hevents ∅ table Htable) as Hsize
    end.
    rewrite map_size_empty in Hsize. unfold Props.pageEvents.
    assert (Hlen' : ∀ l : list Interaction,
              Forall (fun i => is_Some (data i)) l →
              length (omap data l) = length l).
    { intros l Hl. induction Hl as [|i l [d Hd] _ IH]; [reflexivity|].
      cbn [omap list_omap length]. rewrite Hd. cbn [length]. lia. }
    rewrite (Hlen' _ Hevents). lia.
Qed.

Lemma documentMetrics_pages_witness :
  ∃ m,
    calculateFinalMetrics
      {[ "s1" := Examples.sessionOf false
                   [Examples.pageTurn 3 10; Examples.pageTurn 3 5] ]} "s1"
    = JS.Return (Metrics m)
    ∧ documentMetrics m = None.
Proof.
  destruct (documentMetrics_pages
              {[ "s1" := Examples.sessionOf false
                           [Examples.pageTurn 3 10; Examples.pageTurn 3 5] ]}
              "s1"
              (Examples.sessionOf false
                 [Examples.pageTurn 3 10; Examples.pageTurn 3 5]))
    as (m & table & Hm & _ & Hdoc).
  - apply lookup_singleton_eq.
  - repeat constructor; intros _; eexists; reflexivity.
  - exists m. split; [exact Hm|].
    destruct (documentMetrics m) as [dm|]; [|reflexivity].
    destruct Hdoc as [Hne _]. exfalso. apply Hne. reflexivity.
Defined.

End DocumentMetricsProps.

(** ** The study time of the dashboard *)

Section DashboardHours.
Import Analytics Dashboard.
Local Open Scope Q_scope.

(** The running sum of durations over a selection of the sessions
    never exceeds the one over all of them. *)
Lemma studyTime_selection (p : SessionTimes → bool)
    (sessions : list SessionTimes) (a b : Q) :
  Spec.times_ordered sessions → a <= b →
  let step := fun (sum : Q) (s : SessionTimes) =>
                match end_time s, start_time s with
                | Some e, Some b => sum + inject_Z (e - b)
                | _, _ => sum
                end in
  a <= foldl step a (List.filter p sessions)
  ∧ foldl step a (List.filter p sessions) <= foldl step b sessions.
Proof.
  intros Hord. revert a b. cbv zeta.
  induction Hord as [|s l Hs _ IH]; intros a b Hab; cbn [List.filter foldl].
  - split; lra.
  - assert (Hterm : ∀ x, x <= match end_time s, start_time s with
                              | Some e, Some b => x + inject_Z (e - b)
                              | _, _ => x
                              end).
    { intros x. destruct (end_time s) as [e|], (start_time s) as [b0|];
        try lra.
      specialize (Hs b0 e eq_refl eq_refl).
      assert (0 <= inject_Z (e - b0))
        by (change 0 with (inject_Z 0); rewrite <- Zle_Qle; lia).
      lra. }
    destruct (p s); cbn [foldl].
    + match goal with
      | |- context [foldl _ ?a' (List.filter p l)] =>
          match goal with
          | |- context [foldl _ ?b' l] =>
              destruct (IH a' b') as [H1 H2]
          end
      end.
      { destruct (end_time s), (start_time s); lra. }
      split; [|exact H2]. eapply Qle_trans; [apply (Hterm a)|exact H1].
    + match goal with
      | |- context [foldl _ ?b' l] => destruct (IH a b') as [H1 H2]
      end.
      { eapply Qle_trans; [exact Hab|apply Hterm]. }
      split; assumption.
Qed.

(** When no session ends before it starts, the hours of the last week
    reported by [GET /analytics] are not negative and do not exceed
    the total hours. *)
Theorem dashboard_hours (now : Z) (sessions : list SessionTimes) :
  Spec.times_ordered sessions →
  (0 ≤ (hours now sessions).2 ≤ (hours now sessions).1)%Z.
Proof.
  intros Hord. unfold hours. cbn [fst snd]. unfold studyTimeMinutes.
  set (p := fun s : SessionTimes => match start_time s with
                                    | Some b => (now - 7 * MS_PER_DAY <=? b)%Z
                                    | None => false
                                    end).
  destruct (studyTime_selection p sessions 0 0 Hord ltac:(lra)) as [H0 Hle].
  cbv zeta in H0, Hle. split.
  - change 0%Z with (JS.Math_round 0). apply Math_round_mono.
    apply Qle_shift_div_l; [lra|]. rewrite Qmult_0_l.
    apply Qle_shift_div_l; [lra|]. rewrite Qmult_0_l. exact H0.
  - apply Math_round_mono.
    apply Qmult_le_compat_r; [|apply Qinv_le_0_compat; lra].
    apply Qmult_le_compat_r; [exact Hle|apply Qinv_le_0_compat; lra].
Qed.

Lemma dashboard_hours_witness :
  (0 ≤ (hours 1000000000 (Examples.completed 3)).2
     ≤ (hours 1000000000 (Examples.completed 3)).1)%Z.
Proof.
  apply (dashboard_hours 1000000000 (Examples.completed 3)).
  repeat constructor; intros b e [= <-] [= <-]; lia.
Defined.

End DashboardHours.

(** * The numeric results in double precision *)

(** ** The order of doubles *)

Section Doubles.
Import Order64.

Lemma SFcompare_rank f g :
  f ≠ S754_nan → g ≠ S754_nan →
  ∃ c, SFcompare f g = Some c
       ∧ (c = Lt ↔ lt (rank_of f) (rank_of g))
       ∧ (c = Eq ↔ rank_of f = rank_of g)
       ∧ (c = Gt ↔ lt (rank_of g) (rank_of f)).
Proof.
  intros Hf Hg.
  destruct f as [sf|sf| |sf mf ef], g as [sg|sg| |sg mg eg];
    try congruence; cbn [SFcompare rank_of];
    repeat match goal with s : bool |- _ => destruct s end;
    try change (Pos.compare_cont Eq mf mg) with (Pos.compare mf mg);
    try destruct (Z.compare_spec ef eg);
    try destruct (Pos.compare_spec mf mg);
    (eexists; split; [reflexivity|]);
    unfold lt; cbn; repeat split; intros; try congruence; try lia;
    exfalso;
    match goal with H : (_, _, _) = (_, _, _) |- _ => inversion H; lia end.
Qed.

Lemma is_nan_Prim2SF x : is_nan x = true ↔ Prim2SF x = S754_nan.
Proof.
  unfold is_nan. rewrite FloatAxioms.eqb_spec. unfold SFeqb.
  set (f := Prim2SF x).
  assert (H : f = S754_nan ∨ f ≠ S754_nan)
    by (destruct f; auto; right; discriminate).
  destruct H as [->|Hn]; [split; reflexivity|].
  destruct (SFcompare_rank f f Hn Hn) as (c & Hc & _ & Heq & _).
  rewrite Hc, (proj2 Heq eq_refl). split; [discriminate | congruence].
Qed.

Lemma not_nan_Prim2SF x : is_nan x = false ↔ Prim2SF x ≠ S754_nan.
Proof.
  rewrite <- is_nan_Prim2SF. destruct (is_nan x); split; congruence.
Qed.

Lemma ltb_rank x y :
  is_nan x = false → is_nan y = false →
  (x <? y)%float = true ↔ lt (rank x) (rank y).
Proof.
  rewrite !not_nan_Prim2SF. intros Hx Hy.
  rewrite FloatAxioms.ltb_spec. unfold SFltb, rank.
  destruct (SFcompare_rank _ _ Hx Hy) as (c & -> & Hlt & Heq & Hgt).
  rewrite <- Hlt. destruct c; split; congruence.
Qed.

Lemma leb_rank x y :
  is_nan x = false → is_nan y = false →
  (x <=? y)%float = true ↔ le (rank x) (rank y).
Proof.
  rewrite !not_nan_Prim2SF. intros Hx Hy.
  rewrite FloatAxioms.leb_spec. unfold SFleb, rank, le.
  destruct (SFcompare_rank _ _ Hx Hy) as (c & -> & Hlt & Heq & Hgt).
  rewrite <- Hlt, <- Heq. destruct c; split; intros; try congruence; auto.
  destruct H; congruence.
Qed.

Lemma ltb_not_nan x y :
  (x <? y)%float = true → is_nan x = false ∧ is_nan y = false.
Proof.
  rewrite FloatAxioms.ltb_spec. unfold SFltb. rewrite !not_nan_Prim2SF.
  destruct (Prim2SF x), (Prim2SF y); cbn; try discriminate;
    split; discriminate.
Qed.

Lemma leb_not_nan x y :
  (x <=? y)%float = true → is_nan x = false ∧ is_nan y = false.
Proof.
  rewrite FloatAxioms.leb_spec. unfold SFleb. rewrite !not_nan_Prim2SF.
  destruct (Prim2SF x), (Prim2SF y); cbn; try discriminate;
    split; discriminate.
Qed.

Lemma rank_lt_le_cases a b : lt a b ∨ le b a.
Proof.
  destruct a as [[a1 a2] a3], b as [[b1 b2] b3]. unfold le, lt; cbn.
  destruct (decide (a1 < b1)); [lia|].
  destruct (decide (b1 < a1)); [lia|].
  destruct (decide (a2 < b2)); [lia|].
  destruct (decide (b2 < a2)); [lia|].
  destruct (decide (a3 < b3)); [lia|].
  destruct (decide (b3 < a3)); [lia|].
  right; right. f_equal; [f_equal|]; lia.
Qed.

Lemma rank_le_trans a b c : le a b → le b c → le a c.
Proof.
  unfold le, lt. intros [H1| ->] [H2| ->]; auto.
  left. lia.
Qed.

Lemma rank_lt_le_trans a b c : lt a b → le b c → lt a c.
Proof.
  unfold le, lt. intros H1 [H2| ->]; auto. lia.
Qed.

Lemma rank_lt_irrefl a b : lt a b → le b a → False.
Proof.
  unfold le, lt. intros H1 [H2|H2]; [lia|subst; lia].
Qed.

Lemma rank_le_refl a : le a a.
Proof. right; reflexivity. Qed.

Lemma float_leb_refl x : is_nan x = false → (x <=? x)%float = true.
Proof. intros H. apply leb_rank; auto. apply rank_le_refl. Qed.

Lemma float_leb_trans x y z :
  (x <=? y)%float = true → (y <=? z)%float = true → (x <=? z)%float = true.
Proof.
  intros H1 H2.
  destruct (leb_not_nan _ _ H1) as [Hx Hy], (leb_not_nan _ _ H2) as [_ Hz].
  rewrite leb_rank in * by assumption. eapply rank_le_trans; eauto.
Qed.

Lemma float_ltb_leb x y : (x <? y)%float = true → (x <=? y)%float = true.
Proof.
  intros H. destruct (ltb_not_nan _ _ H) as [Hx Hy].
  rewrite ltb_rank in H by assumption. apply leb_rank; auto. left; auto.
Qed.

Lemma float_ltb_false_leb x y :
  is_nan x = false → is_nan y = false →
  (x <? y)%float = false → (y <=? x)%float = true.
Proof.
  intros Hx Hy H. apply leb_rank; auto.
  destruct (rank_lt_le_cases (rank x) (rank y)) as [Hl|]; auto.
  apply ltb_rank in Hl; auto. congruence.
Qed.

Lemma float_leb_ltb_false x y :
  (x <=? y)%float = true → (y <? x)%float = false.
Proof.
  intros H. destruct (leb_not_nan _ _ H) as [Hx Hy].
  destruct (y <? x)%float eqn:E; auto.
  apply ltb_rank in E; auto. apply leb_rank in H; auto.
  destruct (rank_lt_irrefl _ _ E H).
Qed.

Lemma float_ltb_leb_false x y :
  (x <? y)%float = true → (y <=? x)%float = false.
Proof.
  intros H. destruct (ltb_not_nan _ _ H) as [Hx Hy].
  destruct (y <=? x)%float eqn:E; auto.
  apply ltb_rank in H; auto. apply leb_rank in E; auto.
  destruct (rank_lt_irrefl _ _ H E).
Qed.

(** [Math.min] and [Math.max]. *)
Lemma Math_min_nan x y :
  is_nan (Number.Math_min x y) = is_nan x || is_nan y.
Proof.
  unfold Number.Math_min.
  destruct (is_nan x) eqn:Hx; [reflexivity|].
  destruct (is_nan y) eqn:Hy; [reflexivity|]. cbn [orb].
  repeat match goal with |- context [if ?b then _ else _] => destruct b end;
    assumption.
Qed.

Lemma Math_max_nan x y :
  is_nan (Number.Math_max x y) = is_nan x || is_nan y.
Proof.
  unfold Number.Math_max.
  destruct (is_nan x) eqn:Hx; [reflexivity|].
  destruct (is_nan y) eqn:Hy; [reflexivity|]. cbn [orb].
  repeat match goal with |- context [if ?b then _ else _] => destruct b end;
    assumption.
Qed.

Lemma Math_min_cases x y :
  is_nan x = false → is_nan y = false →
  (Number.Math_min x y = x ∧ (x <=? y)%float = true)
  ∨ (Number.Math_min x y = y ∧ (y <=? x)%float = true).
Proof.
  intros Hx Hy. unfold Number.Math_min. rewrite Hx, Hy. cbn [orb].
  destruct (x <? y)%float eqn:E1.
  { left; split; auto using float_ltb_leb. }
  destruct (y <? x)%float eqn:E2.
  { right; split; auto using float_ltb_leb. }
  destruct (get_sign x).
  - left; split; auto using float_ltb_false_leb.
  - right; split; auto using float_ltb_false_leb.
Qed.

Lemma Math_max_cases x y :
  is_nan x = false → is_nan y = false →
  (Number.Math_max x y = x ∧ (y <=? x)%float = true)
  ∨ (Number.Math_max x y = y ∧ (x <=? y)%float = true).
Proof.
  intros Hx Hy. unfold Number.Math_max. rewrite Hx, Hy. cbn [orb].
  destruct (x <? y)%float eqn:E1.
  { right; split; auto using float_ltb_leb. }
  destruct (y <? x)%float eqn:E2.
  { left; split; auto using float_ltb_leb. }
  destruct (get_sign x).
  - right; split; auto using float_ltb_false_leb.
  - left; split; auto using float_ltb_false_leb.
Qed.

Lemma Math_min_cap (c x : float) :
  is_nan c = false →
  is_nan (Number.Math_min c x) = true
  ∨ (Number.Math_min c x <=? c)%float = true.
Proof.
  intros Hc. destruct (is_nan x) eqn:Hx.
  - left. rewrite Math_min_nan, Hx, orb_true_r. reflexivity.
  - right. destruct (Math_min_cases c x Hc Hx) as [[-> _]|[-> H]];
      auto using float_leb_refl.
Qed.

Lemma Math_max_floor (c x : float) :
  is_nan c = false →
  is_nan (Number.Math_max c x) = true
  ∨ (c <=? Number.Math_max c x)%float = true.
Proof.
  intros Hc. destruct (is_nan x) eqn:Hx.
  - left. rewrite Math_max_nan, Hx, orb_true_r. reflexivity.
  - right. destruct (Math_max_cases c x Hc Hx) as [[-> _]|[-> H]];
      auto using float_leb_refl.
Qed.

Lemma clamp_between r :
  is_nan r = false →
  Number.between 0 100 (Number.Math_min 100 (Number.Math_max 0 r)).
Proof.
  intros Hr. unfold Number.between.
  assert (H0 : is_nan 0%float = false) by reflexivity.
  assert (H100 : is_nan 100%float = false) by reflexivity.
  assert (H0100 : (0 <=? 100)%float = true) by reflexivity.
  assert (Hm : is_nan (Number.Math_max 0 r) = false).
  { rewrite Math_max_nan, Hr. reflexivity. }
  destruct (Math_max_cases 0 r H0 Hr) as [[E1 L1]|[E1 L1]];
    destruct (Math_min_cases 100 _ H100 Hm) as [[E2 L2]|[E2 L2]];
    rewrite E2; rewrite ?E1 in *; split; auto using float_leb_refl.
Qed.

Lemma clamp_nan r :
  is_nan r = true →
  is_nan (Number.Math_min 100 (Number.Math_max 0 r)) = true.
Proof.
  intros Hr. rewrite Math_min_nan, Math_max_nan, Hr. reflexivity.
Qed.

End Doubles.

(** ** Checking a property on a range of integers *)

Section Ranges.

Lemma forallb_range (check : Z → bool) (lo : Z) (len : nat) :
  forallb check ((fun i => lo + Z.of_nat i) <$> seq 0 len) = true →
  ∀ n, lo ≤ n < lo + Z.of_nat len → check n = true.
Proof.
  intros H n Hn. rewrite forallb_forall in H. apply H.
  apply list_elem_of_In. apply list_elem_of_fmap.
  exists (Z.to_nat (n - lo)). split; [lia|].
  apply elem_of_seq. lia.
Qed.

(** The decimal constants of the code denote the doubles nearest to
    them. *)
Lemma decimal_literals :
  0.5%float = Number.of_Q (5 # 10) ∧ 0.3%float = Number.of_Q (3 # 10)
  ∧ 0.2%float = Number.of_Q (2 # 10) ∧ 0.15%float = Number.of_Q (15 # 100)
  ∧ 0.25%float = Number.of_Q (25 # 100) ∧ 0.1%float = Number.of_Q (1 # 10).
Proof. repeat split; vm_compute; reflexivity. Qed.

End Ranges.

(** ** Rounding to a double never yields [NaN] *)

Section Rounding.

Lemma shr_1_nonneg mrs : 0 ≤ shr_m mrs → 0 ≤ shr_m (shr_1 mrs).
Proof.
  destruct mrs as [m r s]. cbn [shr_m]. intros Hm.
  destruct m as [|[p|p|]|p]; cbn; lia.
Qed.

Lemma iter_shr_1_nonneg p mrs :
  0 ≤ shr_m mrs → 0 ≤ shr_m (SpecFloat.iter_pos shr_1 p mrs).
Proof.
  revert mrs. induction p as [p IH|p IH|]; intros mrs Hm; cbn [SpecFloat.iter_pos].
  - apply IH, IH, shr_1_nonneg, Hm.
  - apply IH, IH, Hm.
  - apply shr_1_nonneg, Hm.
Qed.

Lemma shr_fexp_nonneg m e l :
  0 ≤ m → 0 ≤ shr_m (shr_fexp prec emax m e l).1.
Proof.
  intros Hm. unfold shr_fexp, shr.
  assert (H0 : 0 ≤ shr_m (shr_record_of_loc m l))
    by (destruct l as [|[| |]]; exact Hm).
  destruct (fexp prec emax (Zdigits2 m + e) - e); cbn [fst];
    auto using iter_shr_1_nonneg.
Qed.

Lemma round_nearest_even_nonneg m l : 0 ≤ m → 0 ≤ round_nearest_even m l.
Proof.
  intros Hm. destruct l as [|[| |]]; cbn; try lia.
  destruct (Z.even m); lia.
Qed.

(** Rounding a non-negative mantissa yields a zero, a finite number or
    an infinity of the given sign. *)
Lemma binary_round_aux_not_nan sx mx ex lx :
  0 ≤ mx → binary_round_aux prec emax sx mx ex lx ≠ S754_nan.
Proof.
  intros Hm. unfold binary_round_aux.
  pose proof (shr_fexp_nonneg mx ex lx Hm) as H1.
  destruct (shr_fexp prec emax mx ex lx) as [mrs' e'].
  cbn [fst] in H1.
  pose proof (shr_fexp_nonneg _ e' loc_Exact
                (round_nearest_even_nonneg _ (loc_of_shr_record mrs') H1))
    as H2.
  destruct (shr_fexp prec emax (round_nearest_even _ _) e' loc_Exact)
    as [mrs'' e''].
  cbn [fst] in H2.
  destruct (shr_m mrs'') as [|m|m]; [discriminate| |lia].
  destruct (e'' <=? emax - prec); discriminate.
Qed.

Lemma binary_round_not_nan sx mx ex :
  binary_round prec emax sx mx ex ≠ S754_nan.
Proof.
  unfold binary_round. destruct (shl_align _ _ _) as [mz ez].
  apply binary_round_aux_not_nan. lia.
Qed.

Lemma binary_normalize_not_nan m e szero :
  binary_normalize prec emax m e szero ≠ S754_nan.
Proof.
  destruct m; cbn [binary_normalize];
    [discriminate|apply binary_round_not_nan..].
Qed.

Lemma SF2Prim_not_nan f : f ≠ S754_nan → is_nan (SF2Prim f) = false.
Proof.
  intros Hf. destruct f as [[|]|[|]| |s m e]; try reflexivity; [congruence|].
  apply not_nan_Prim2SF. cbn [SF2Prim].
  assert (H : Prim2SF (Z.ldexp (of_uint63 (Uint63.of_Z (Z.pos m))) e)
              ≠ S754_nan).
  { rewrite Z_ldexp_spec, of_uint63_spec.
    pose proof (binary_normalize_not_nan
                  (Uint63.to_Z (Uint63.of_Z (Z.pos m))) 0 false) as Hn.
    destruct (binary_normalize prec emax _ 0 false); cbn [SFldexp];
      try discriminate; [congruence|].
    apply binary_round_not_nan. }
  destruct s; [|exact H].
  rewrite opp_spec. destruct (Prim2SF _); cbn; congruence.
Qed.

Lemma of_Z_not_nan z : is_nan (Number.of_Z z) = false.
Proof. apply SF2Prim_not_nan, binary_normalize_not_nan. Qed.

(** [Math.round] returns [NaN] for [NaN] only. *)
Lemma Math_round_nan x : is_nan (Number.Math_round x) = is_nan x.
Proof.
  unfold Number.Math_round.
  destruct (Prim2SF x) as [s|s| |s m e] eqn:E; try reflexivity.
  assert (Hx : is_nan x = false)
    by (apply not_nan_Prim2SF; rewrite E; discriminate).
  rewrite Hx.
  destruct (Qfloor _ =? 0); [destruct s; reflexivity|].
  apply of_Z_not_nan.
Qed.

End Rounding.

(** ** [NaN] through the arithmetic operations *)

Section NaN.

Lemma sub_nan_l x y : is_nan x = true → is_nan (x - y)%float = true.
Proof.
  rewrite !is_nan_Prim2SF, sub_spec. intros ->. reflexivity.
Qed.

Lemma sub_nan_r x y : is_nan y = true → is_nan (x - y)%float = true.
Proof.
  rewrite !is_nan_Prim2SF, sub_spec. intros ->.
  destruct (Prim2SF x); reflexivity.
Qed.

Lemma mul_nan_r x y : is_nan y = true → is_nan (x * y)%float = true.
Proof.
  rewrite !is_nan_Prim2SF, mul_spec. intros ->.
  destruct (Prim2SF x); reflexivity.
Qed.

Lemma div_nan_l x y : is_nan x = true → is_nan (x / y)%float = true.
Proof.
  rewrite !is_nan_Prim2SF, div_spec. intros ->. reflexivity.
Qed.

Lemma abs_nan x : is_nan x = true → is_nan (abs x) = true.
Proof.
  rewrite !is_nan_Prim2SF, abs_spec. intros ->. reflexivity.
Qed.

Lemma abs_not_nan x : is_nan x = false → is_nan (abs x) = false.
Proof.
  rewrite !not_nan_Prim2SF, abs_spec.
  destruct (Prim2SF x); cbn; congruence.
Qed.

(** A difference, a quotient and a product with a finite operand are
    numbers when the other operand is. *)
Lemma sub_finite_r x y s m e :
  Prim2SF y = S754_finite s m e →
  is_nan x = false → is_nan (x - y)%float = false.
Proof.
  rewrite !not_nan_Prim2SF, sub_spec. intros -> Hx.
  destruct (Prim2SF x) as [sx|sx| |sx mx ex]; try congruence;
    try discriminate.
  apply binary_normalize_not_nan.
Qed.

Lemma sub_finite_l x y s m e :
  Prim2SF x = S754_finite s m e →
  is_nan y = false → is_nan (x - y)%float = false.
Proof.
  rewrite !not_nan_Prim2SF, sub_spec. intros -> Hy.
  destruct (Prim2SF y) as [sy|sy| |sy my ey]; try congruence;
    try discriminate.
  apply binary_normalize_not_nan.
Qed.

Lemma SFdiv_core_nonneg mx ex my ey :
  0 ≤ (SFdiv_core_binary prec emax (Z.pos mx) ex (Z.pos my) ey).1.1.
Proof.
  unfold SFdiv_core_binary.
  set (s := ex - ey - _).
  set (m' := match s with
             | 0 => Z.pos mx
             | Z.pos _ => Z.shiftl (Z.pos mx) s
             | Z.neg _ => 0
             end).
  assert (Hm : 0 ≤ m').
  { subst m'. destruct s; try lia. apply Z.shiftl_nonneg. lia. }
  pose proof (Z.div_pos m' (Z.pos my) Hm ltac:(lia)) as Hq.
  unfold Z.div in Hq. destruct (Z.div_eucl m' (Z.pos my)) as [q r].
  exact Hq.
Qed.

Lemma div_finite_r x y s m e :
  Prim2SF y = S754_finite s m e →
  is_nan x = false → is_nan (x / y)%float = false.
Proof.
  rewrite !not_nan_Prim2SF, div_spec. intros -> Hx.
  destruct (Prim2SF x) as [sx|sx| |sx mx ex]; try congruence;
    try discriminate.
  unfold SF64div, SFdiv.
  pose proof (SFdiv_core_nonneg mx ex m e) as Hq.
  destruct (SFdiv_core_binary prec emax (Z.pos mx) ex (Z.pos m) e)
    as [[mz ez] lz].
  apply binary_round_aux_not_nan. exact Hq.
Qed.

Lemma mul_finite_l x y s m e :
  Prim2SF x = S754_finite s m e →
  is_nan y = false → is_nan (x * y)%float = false.
Proof.
  rewrite !not_nan_Prim2SF, mul_spec. intros -> Hy.
  destruct (Prim2SF y) as [sy|sy| |sy my ey]; try congruence;
    try discriminate.
  apply binary_round_aux_not_nan. lia.
Qed.

End NaN.

(** ** Blink-rate compliance *)

Section BlinkCompliance64.
Import NLPService64.

Lemma compliance_nan (b : float) :
  is_nan b = true → is_nan (_calculateBlinkCompliance b) = true.
Proof.
  intros Hb. unfold _calculateBlinkCompliance.
  assert (H : (IDEAL_BLINK_RATE_MIN <=? b)%float = false).
  { destruct (IDEAL_BLINK_RATE_MIN <=? b)%float eqn:E; [|reflexivity].
    apply leb_not_nan in E. destruct E; congruence. }
  rewrite H. cbn [andb].
  rewrite Math_max_nan.
  rewrite (mul_nan_r 100); [reflexivity|].
  apply sub_nan_r. rewrite Math_min_nan.
  rewrite div_nan_l; [reflexivity|].
  rewrite Math_min_nan. rewrite abs_nan; [reflexivity|].
  apply sub_nan_l, Hb.
Qed.

Lemma compliance_not_nan (b : float) :
  is_nan b = false → is_nan (_calculateBlinkCompliance b) = false.
Proof.
  intros Hb. unfold _calculateBlinkCompliance.
  destruct (_ && _); [reflexivity|].
  rewrite Math_max_nan. cbn [orb].
  eapply mul_finite_l; [vm_compute; reflexivity|].
  eapply sub_finite_l; [vm_compute; reflexivity|].
  rewrite Math_min_nan, orb_false_r.
  eapply div_finite_r; [vm_compute; reflexivity|].
  rewrite Math_min_nan.
  rewrite !abs_not_nan; [reflexivity|..];
    (eapply sub_finite_r; [vm_compute; reflexivity|exact Hb]).
Qed.

(** C4. In double precision the compliance is 100 for every rate with
    [15 <= b <= 25]; for every other rate it is
    [max(0, 100 * (1 - min(dist / 50, 1)))] with every operation
    rounded, which is [NaN] for [NaN] and a number that is not negative
    otherwise. The function is called with rounded averages: for the
    whole rates from 0 to 1000 its value is that of
    [max(0, 100 * (1 - min(dist, 50) / 50))] with every operation
    rounded, it lies within [2^-46] of the exact value of this
    expression, and it rounds to the same integer. The values at 20, 15,
    25, 0 and 100 are 100, 100, 100, 70 and 0. *)
Theorem blink_compliance (b : float) (n : Z) :
  ((15 <=? b)%float = true → (b <=? 25)%float = true →
   _calculateBlinkCompliance b = 100%float)
  ∧ (((15 <=? b) && (b <=? 25))%float = false →
     _calculateBlinkCompliance b
     = Number.Math_max 0
         (100 * (1 - Number.Math_min (Spec64.dist b / 50) 1))%float)
  ∧ is_nan (_calculateBlinkCompliance b) = is_nan b
  ∧ (is_nan b = false → (0 <=? _calculateBlinkCompliance b)%float = true)
  ∧ (0 ≤ n ≤ 1000 →
     let r := _calculateBlinkCompliance (Number.of_Z n) in
     r = Spec64.compliance (Number.of_Z n)
     ∧ (Qabs (Number.value r - Spec.compliance (inject_Z n)) <= 1 # 2 ^ 46)%Q
     ∧ Number.Math_round r
       = Number.of_Z (JS.Math_round (Spec.compliance (inject_Z n))))
  ∧ _calculateBlinkCompliance 20 = 100%float
  ∧ _calculateBlinkCompliance 15 = 100%float
  ∧ _calculateBlinkCompliance 25 = 100%float
  ∧ _calculateBlinkCompliance 0 = 70%float
  ∧ _calculateBlinkCompliance 100 = 0%float.
Proof.
  split; [|split; [|split; [|split; [|split]]]].
  - intros H1 H2. unfold _calculateBlinkCompliance.
    change IDEAL_BLINK_RATE_MIN with 15%float.
    change IDEAL_BLINK_RATE_MAX with 25%float.
    rewrite H1, H2. reflexivity.
  - intros H. unfold _calculateBlinkCompliance.
    change IDEAL_BLINK_RATE_MIN with 15%float.
    change IDEAL_BLINK_RATE_MAX with 25%float.
    rewrite H. reflexivity.
  - destruct (is_nan b) eqn:Hb;
      [apply compliance_nan|apply compliance_not_nan]; exact Hb.
  - intros Hb. pose proof (compliance_not_nan b Hb) as Hn.
    unfold _calculateBlinkCompliance in *.
    destruct (_ && _); [reflexivity|].
    destruct (Math_max_floor 0 (100 * (1 - Number.Math_min
                (Number.Math_min (abs (b - IDEAL_BLINK_RATE_MIN))
                   (abs (b - IDEAL_BLINK_RATE_MAX)) / 50) 1))%float eq_refl)
      as [H|H]; [congruence|exact H].
  - intros Hn r.
    pose (check := fun n : Z =>
      let r := _calculateBlinkCompliance (Number.of_Z n) in
      PrimFloat.Leibniz.eqb r (Spec64.compliance (Number.of_Z n))
      && Qle_bool (Qabs (Number.value r - Spec.compliance (inject_Z n)))
           (1 # 2 ^ 46)
      && PrimFloat.Leibniz.eqb (Number.Math_round r)
           (Number.of_Z (JS.Math_round (Spec.compliance (inject_Z n))))).
    assert (H : check n = true).
    { apply (forallb_range check 0 1001); [vm_compute; reflexivity|lia]. }
    unfold check in H. fold r in H.
    apply andb_true_iff in H. destruct H as [H H3].
    apply andb_true_iff in H. destruct H as [H1 H2].
    apply FloatAxioms.Leibniz.eqb_spec in H1, H3.
    apply Qle_bool_iff in H2. auto.
  - repeat split; vm_compute; reflexivity.
Qed.

Lemma blink_compliance_witness :
  _calculateBlinkCompliance 18 = 100%float
  ∧ Number.Math_round (_calculateBlinkCompliance 42) = 66%float.
Proof.
  destruct (blink_compliance 18 42) as (Hin & _ & _ & _ & Hn & _).
  split.
  - apply Hin; reflexivity.
  - destruct Hn as (_ & _ & Hr); [lia|]. exact Hr.
Defined.

(** C4 as stated fails: at the rate 42 the expression
    [max(0, 100 * (1 - min(dist, 50) / 50))] has the exact value 66, and
    the compliance computed in double precision, 65.99999999999999, lies
    below it. *)
Lemma blink_compliance_counterexample :
  (Spec.compliance 42 == 66)%Q
  ∧ (Number.value (_calculateBlinkCompliance 42) < 66)%Q
  ∧ (_calculateBlinkCompliance 42 <? 66)%float = true.
Proof. repeat split. Qed.

End BlinkCompliance64.

(** ** Session aggregation *)

Section Aggregation64.
Import Session64 NLPService64.

Lemma aggregate64_data (acc : Aggregation) (i : Interaction)
    (d : InteractionData) :
  data i = Some d →
  ∃ acc',
    aggregate acc i = JS.Return acc'
    ∧ focusedCount acc'
      = focusedCount acc + (if JS.truthy (lookingAtScreen d) then 1 else 0)
    ∧ postureScoreSum acc'
      = (postureScoreSum acc + Number.or (postureScore d) 0)%float
    ∧ totalBlinkRateSum acc'
      = (totalBlinkRateSum acc + Number.or (blinkRate d) 0)%float
    ∧ NLPService64.distractionCount acc'
      = NLPService64.distractionCount acc
        + (if JS.truthy (hasPhone d) && negb (phoneDetectedFlag acc)
           then 1 else 0)
    ∧ phoneDetectedFlag acc' = JS.truthy (hasPhone d).
Proof.
  intros Hd. unfold aggregate. rewrite Hd.
  cbn [JS.deref mbind JS.Completion_bind mret JS.Completion_ret].
  destruct (JS.truthy (lookingAtScreen d)), (JS.truthy (hasPhone d)),
    (phoneDetectedFlag acc) eqn:Hflag;
    eexists; (split; [reflexivity|]);
    cbn [focusedCount postureScoreSum totalBlinkRateSum
         NLPService64.distractionCount phoneDetectedFlag andb negb];
    rewrite ?Hflag; repeat split; lia.
Qed.

Lemma aggregate64_no_data (acc : Aggregation) (i : Interaction) :
  data i = None → aggregate acc i = JS.Throw JS.TypeError.
Proof. intros H. unfold aggregate. rewrite H. reflexivity. Qed.

(** The state after the loop over webcam interactions that all carry a
    payload: the sums are accumulated from left to right. *)
Lemma forEach_aggregate64 (l : list Interaction) (acc : Aggregation) :
  Forall (fun i => is_Some (data i)) l →
  ∃ acc',
    JS.forEach aggregate l acc = JS.Return acc'
    ∧ focusedCount acc'
      = focusedCount acc + Z.of_nat (Spec64.focused (omap data l))
    ∧ postureScoreSum acc'
      = foldl (fun s d => (s + Number.or (postureScore d) 0)%float)
          (postureScoreSum acc) (omap data l)
    ∧ totalBlinkRateSum acc'
      = foldl (fun s d => (s + Number.or (blinkRate d) 0)%float)
          (totalBlinkRateSum acc) (omap data l).
Proof.
  intros Hall. revert acc.
  induction Hall as [|i l [d Hd] _ IH]; intros acc.
  - exists acc. cbn. repeat split. lia.
  - destruct (aggregate64_data acc i d Hd)
      as (acc1 & Hstep & Hf1 & Hp1 & Hb1 & _).
    destruct (IH acc1) as (acc' & Hloop & Hf & Hp & Hb).
    exists acc'. cbn [JS.forEach]. rewrite Hstep.
    cbn [mbind JS.Completion_bind omap list_omap]. rewrite Hd.
    split; [exact Hloop|].
    unfold Spec64.focused in *.
    cbn [List.filter foldl].
    rewrite Hf, Hp, Hb, Hf1, Hp1, Hb1.
    repeat split.
    destruct (JS.truthy (lookingAtScreen d)); cbn [length]; lia.
Qed.

Lemma payloads_webcam64 (session : Session64.t) :
  Spec64.payloads_present session →
  Forall (fun i => is_Some (data i)) (webcamMetrics session).
Proof.
  unfold Spec64.payloads_present, webcamMetrics. intros H.
  induction H as [|i l Hi _ IH]; cbn [List.filter]; [constructor|].
  unfold is_type at 1. case_bool_decide as Hty; [|exact IH].
  constructor; [|exact IH]. apply Hi. rewrite Hty. set_solver.
Qed.

Lemma samples64_length (session : Session64.t) :
  Spec64.payloads_present session →
  length (Spec64.samples session) = length (webcamMetrics session).
Proof.
  intros H. apply payloads_webcam64 in H. unfold Spec64.samples.
  induction H as [|i l [d Hd] _ IH]; [reflexivity|].
  cbn [omap list_omap]. rewrite Hd. cbn [length]. rewrite IH. reflexivity.
Qed.

Lemma getPageTimeAnalytics64_returns (session : Session64.t) :
  Spec64.payloads_present session →
  ∃ pageTime, getPageTimeAnalytics session = JS.Return pageTime.
Proof.
  unfold Spec64.payloads_present, getPageTimeAnalytics. intros H.
  apply forEach_returns.
  induction H as [|i l Hi _ IH]; cbn [List.filter]; [constructor|].
  destruct (is_type Session.page_turn i || is_type Session.page_change i)
    eqn:Hty; [|exact IH].
  constructor; [|exact IH].
  destruct Hi as [d Hd].
  - unfold is_type in Hty. apply orb_true_iff in Hty.
    destruct Hty as [Hty|Hty]; apply bool_decide_eq_true in Hty;
      rewrite Hty; set_solver.
  - intros pageTime. rewrite Hd. cbn [JS.deref mbind JS.Completion_bind].
    destruct (match JS.truthyZ (from d) with
              | Some p => Some p
              | None => JS.truthyZ (page d)
              end); eauto.
Qed.

(** C1. For a stored session whose webcam and page interactions carry
    their payload, [calculateFinalMetrics] returns a snapshot. With at
    least one webcam sample its [attentionRate] is
    [round((focusedCount / totalSamples) * 100)] and its
    [engagementScore] is [round(attentionRate*0.5 + avgPostureScore*0.3
    + complianceScore*0.2)] clamped to [0, 100], every operation rounded
    to double precision and the sums taken from left to right; the
    score is [NaN] exactly when the weighted sum is. For every sample
    set, empty or not, the returned score is [NaN] or lies in
    [0, 100]. *)
Theorem calculateFinalMetrics_engagementScore
    (db : gmap string Session64.t) (sessionId : string)
    (session : Session64.t) :
  db !! sessionId = Some session →
  Spec64.payloads_present session →
  ∃ m,
    calculateFinalMetrics db sessionId = JS.Return (Metrics m)
    ∧ (is_nan (engagementScore m) = true
       ∨ Number.between 0 100 (engagementScore m))
    ∧ (Spec64.samples session ≠ [] →
       attentionRate m = Spec64.attentionRate (Spec64.samples session)
       ∧ avgBlinkRate m = Spec64.avgBlinkRate (Spec64.samples session)
       ∧ engagementScore m = Spec64.engagementScore (Spec64.samples session)
       ∧ is_nan (engagementScore m)
         = is_nan (Spec64.weightedSum (Spec64.samples session))).
Proof.
  intros Hdb Hpay. unfold calculateFinalMetrics. rewrite Hdb.
  destruct (length (webcamMetrics session) =? 0)%nat eqn:Hlen.
  { eexists. split; [reflexivity|]. cbn [engagementScore].
    split; [right; split; reflexivity|].
    intros Hne. exfalso. apply Hne. apply Nat.eqb_eq in Hlen.
    unfold Spec64.samples.
    destruct (webcamMetrics session); [reflexivity|discriminate]. }
  destruct (forEach_aggregate64 (webcamMetrics session) initial
              (payloads_webcam64 session Hpay))
    as (acc & Hloop & Hf & Hp & Hb).
  destruct (getPageTimeAnalytics64_returns session Hpay) as [pageTime Hpage].
  cbn [initial focusedCount postureScoreSum totalBlinkRateSum] in Hf, Hp, Hb.
  fold (Spec64.samples session) in Hf, Hp, Hb.
  rewrite Z.add_0_l in Hf.
  rewrite Hloop, Hpage.
  cbn [mbind JS.Completion_bind mret JS.Completion_ret].
  eexists. split; [reflexivity|].
  cbn [engagementScore attentionRate avgBlinkRate].
  rewrite Hf, Hp, Hb, <- (samples64_length session Hpay).
  change (ENGAGEMENT_WEIGHTS.attentionRate) with 0.5%float.
  change (ENGAGEMENT_WEIGHTS.postureScore) with 0.3%float.
  change (ENGAGEMENT_WEIGHTS.blinkRateCompliance) with 0.2%float.
  fold (Spec64.total (Spec64.samples session)).
  fold (Number.sum (fun d => Number.or (postureScore d) 0)
          (Spec64.samples session)).
  fold (Number.sum (fun d => Number.or (blinkRate d) 0)
          (Spec64.samples session)).
  fold (Spec64.attentionRate (Spec64.samples session)).
  fold (Spec64.avgPostureScore (Spec64.samples session)).
  fold (Spec64.avgBlinkRate (Spec64.samples session)).
  fold (Spec64.weightedSum (Spec64.samples session)).
  fold (Spec64.engagementScore (Spec64.samples session)).
  assert (Hnan : is_nan (Spec64.engagementScore (Spec64.samples session))
                 = is_nan (Spec64.weightedSum (Spec64.samples session))).
  { unfold Spec64.engagementScore.
    rewrite Math_min_nan, Math_max_nan, Math_round_nan. reflexivity. }
  split; [|auto].
  destruct (is_nan (Spec64.weightedSum (Spec64.samples session))) eqn:Hw.
  - left. exact Hnan.
  - right. apply clamp_between. rewrite Math_round_nan. exact Hw.
Qed.

Lemma calculateFinalMetrics_engagementScore_witness :
  ∃ m,
    calculateFinalMetrics
      {[ "s1" := Session64.parse
                   (Examples.sessionOf false
                      [Examples.webcamSample true false 80 20;
                       Examples.pageTurn 3 10;
                       Examples.webcamSample false true 60 10]) ]} "s1"
    = JS.Return (Metrics m)
    ∧ attentionRate m = 50%float
    ∧ engagementScore m = 66%float
    ∧ is_nan (engagementScore m) = false.
Proof.
  destruct (calculateFinalMetrics_engagementScore
              {[ "s1" := Session64.parse
                   (Examples.sessionOf false
                      [Examples.webcamSample true false 80 20;
                       Examples.pageTurn 3 10;
                       Examples.webcamSample false true 60 10]) ]}
              "s1"
              (Session64.parse
                 (Examples.sessionOf false
                    [Examples.webcamSample true false 80 20;
                     Examples.pageTurn 3 10;
                     Examples.webcamSample false true 60 10])))
    as (m & Hm & _ & Hformula).
  - reflexivity.
  - repeat constructor; intros _; eexists; reflexivity.
  - exists m. split; [exact Hm|].
    destruct Hformula as (Ha & _ & He & Hn); [discriminate|].
    rewrite Hn, He, Ha. repeat split; vm_compute; reflexivity.
Defined.

(** C1 as stated fails in three ways. With 23 of 40 samples looking at
    the screen the double [23 / 40] lies below 0.575 and its product
    with 100 is 57.49999999999999, so the attention rate returned is 57
    and the score 50, while [round(100 * 23 / 40)] is 58 and the score of
    the formula 51. For one sample that looks away, with posture score 1
    and blink rate 42, the weighted sum is 13.499999999999998 in double
    precision and 13.5 exactly: the score returned is 13, that of the
    formula 14. For two samples with the posture scores [1e400] and
    [-1e400], which are read as the two infinities, the score returned is
    [NaN], which is not between 0 and 100. *)
Lemma calculateFinalMetrics_engagementScore_counterexample :
  (let session := Examples.sessionOf false (Examples.attentionSamples 23 17) in
   ∃ m,
     calculateFinalMetrics {[ "s1" := Session64.parse session ]} "s1"
     = JS.Return (Metrics m)
     ∧ attentionRate m = 57%float
     ∧ Spec.attentionRate (Spec.samples session) = 58
     ∧ engagementScore m = 50%float
     ∧ Spec.engagementScore (Spec.samples session) = 51)
  ∧ (let session :=
       Examples.sessionOf false [Examples.webcamSample false false 1 42] in
     ∃ m,
       calculateFinalMetrics {[ "s1" := Session64.parse session ]} "s1"
       = JS.Return (Metrics m)
       ∧ engagementScore m = 13%float
       ∧ Spec.engagementScore (Spec.samples session) = 14)
  ∧ (let session :=
       Examples.sessionOf false
         [Examples.webcamSample true false (inject_Z (10 ^ 400)) 20;
          Examples.webcamSample true false (inject_Z (- 10 ^ 400)) 20] in
     ∃ m,
       calculateFinalMetrics {[ "s1" := Session64.parse session ]} "s1"
       = JS.Return (Metrics m)
       ∧ is_nan (engagementScore m) = true
       ∧ (0 <=? engagementScore m)%float = false
       ∧ (engagementScore m <=? 100)%float = false).
Proof.
  split; [|split]; cbv zeta.
  - eexists. split; [vm_compute; reflexivity|].
    repeat split; vm_compute; reflexivity.
  - eexists. split; [vm_compute; reflexivity|].
    repeat split; vm_compute; reflexivity.
  - eexists. split; [vm_compute; reflexivity|].
    repeat split; vm_compute; reflexivity.
Qed.

End Aggregation64.

(** ** Engagement drops *)

Section AnomalyDrops64.
Import Metric Metric64 Anomalies64.

Lemma dropStep64_dropAt (metrics : list Metric64.t) (acc : list Anomaly)
    (i : nat) :
  (1 ≤ i < length metrics)%nat →
  dropStep metrics acc i
  = JS.Return (acc ++ from_option (fun a => [a]) [] (dropAt metrics i)).
Proof.
  intros Hi. unfold dropStep, dropAt, engagementDropOf.
  destruct (lookup_lt_is_Some_2 metrics (i - 1)) as [prev ->]; [lia|].
  destruct (lookup_lt_is_Some_2 metrics i) as [curr ->]; [lia|].
  cbn [JS.deref mbind JS.Completion_bind option_bind].
  destruct (30 <? _)%float; cbn; [reflexivity|].
  rewrite app_nil_r. reflexivity.
Qed.

Lemma dropLoop64 (metrics : list Metric64.t) (n k : nat)
    (acc : list Anomaly) :
  (1 ≤ k)%nat → (k + n ≤ length metrics)%nat →
  JS.forEach (dropStep metrics) (seq k n) acc
  = JS.Return (acc ++ omap (dropAt metrics) (seq k n)).
Proof.
  revert k acc. induction n as [|n IH]; intros k acc Hk Hn.
  - cbn. rewrite app_nil_r. reflexivity.
  - cbn [seq JS.forEach]. rewrite dropStep64_dropAt by lia.
    cbn [mbind JS.Completion_bind]. rewrite IH by lia.
    cbn [omap list_omap].
    destruct (dropAt metrics k); cbn [from_option];
      rewrite <- ?app_assoc; reflexivity.
Qed.

Lemma dropAt64_pairs (x : Metric64.t) (l : list Metric64.t) :
  omap (dropAt (x :: l)) (seq 1 (length l))
  = omap engagementDropOf (zip (x :: l) l).
Proof.
  revert x. induction l as [|y l IH]; intros x; [reflexivity|].
  change (zip (x :: y :: l) (y :: l)) with ((x, y) :: zip (y :: l) l).
  cbn [length seq omap list_omap].
  change (dropAt (x :: y :: l) 1) with (engagementDropOf (x, y)).
  rewrite <- IH.
  rewrite (omap_seq_shift (dropAt (x :: y :: l))
             (dropAt (y :: l)) (length l) 1);
    [reflexivity|].
  intros [|i] Hi; [lia|]. unfold dropAt.
  replace (S (S i) - 1)%nat with (S i) by lia.
  replace (S i - 1)%nat with i by lia. reflexivity.
Qed.

Lemma dropLoop64_engagementDrops (metrics : list Metric64.t) :
  JS.forEach (dropStep metrics) (seq 1 (length metrics - 1)) []
  = JS.Return (engagementDrops metrics).
Proof.
  destruct metrics as [|x l]; [reflexivity|].
  replace (length (x :: l) - 1)%nat with (length l) by (cbn [length]; lia).
  rewrite dropLoop64 by (cbn [length]; lia).
  rewrite dropAt64_pairs. reflexivity.
Qed.

(** The second loop returns, and adds anomalies of type
    [prolonged_absence] only. *)
Lemma absenceLoop64 (l : list Metric64.t) (c : Z) (acc : list Anomaly) :
  ∃ c' more,
    JS.forEach absenceStep l (c, acc) = JS.Return (c', acc ++ more)
    ∧ Forall (fun a => anomaly_type a = prolonged_absence) more.
Proof.
  revert c acc. induction l as [|m l IH]; intros c acc.
  - exists c, []. rewrite app_nil_r. split; [reflexivity|constructor].
  - cbn [JS.forEach]. unfold absenceStep at 2.
    destruct (negb (presence_detected m)).
    + destruct (c + 1 =? 5).
      * cbn [mbind JS.Completion_bind mret JS.Completion_ret].
        destruct (IH (c + 1)
                    (acc ++ [{| anomaly_type := prolonged_absence;
                                anomaly_timestamp := timestamp m;
                                severity := high;
                                details :=
                                  Student_absent_for_extended_period |}]))
          as (c' & more & Hloop & Hmore).
        eexists c', (_ :: more). rewrite Hloop, <- app_assoc.
        split; [reflexivity|]. constructor; [reflexivity|exact Hmore].
      * cbn [mbind JS.Completion_bind mret JS.Completion_ret]. apply IH.
    + cbn [mbind JS.Completion_bind mret JS.Completion_ret]. apply IH.
Qed.

Lemma engagementDrops64_type (l : list Metric64.t) :
  Forall (fun a => anomaly_type a = engagement_drop) (engagementDrops l).
Proof.
  apply Forall_forall. intros a Ha. unfold engagementDrops in Ha.
  apply list_elem_of_omap in Ha. destruct Ha as ([prev curr] & _ & Ha).
  unfold engagementDropOf in Ha.
  destruct (30 <? _)%float; [|discriminate].
  injection Ha as <-. reflexivity.
Qed.

Lemma ofType64_all (ty : AnomalyType) (l : list Anomaly) :
  Forall (fun a => anomaly_type a = ty) l → ofType ty l = l.
Proof.
  unfold ofType. induction 1 as [|a l Ha _ IH]; [reflexivity|].
  cbn [List.filter]. rewrite bool_decide_eq_true_2 by exact Ha.
  rewrite IH. reflexivity.
Qed.

Lemma ofType64_none (ty : AnomalyType) (l : list Anomaly) :
  Forall (fun a => anomaly_type a ≠ ty) l → ofType ty l = [].
Proof.
  unfold ofType. induction 1 as [|a l Ha _ IH]; [reflexivity|].
  cbn [List.filter]. rewrite bool_decide_eq_false_2 by exact Ha.
  exact IH.
Qed.

(** For whole scores between 0 and 100 the difference of two scores is
    exact, and so are the comparisons with 30 and 50. *)
Lemma whole_scores_exact (a b : Z) :
  0 ≤ a ≤ 100 → 0 ≤ b ≤ 100 →
  (30 <? Number.of_Z a - Number.of_Z b)%float = (30 <? a - b)
  ∧ (50 <? Number.of_Z a - Number.of_Z b)%float = (50 <? a - b).
Proof.
  intros Ha Hb.
  pose (check2 := fun a b : Z =>
    Bool.eqb (30 <? Number.of_Z a - Number.of_Z b)%float (30 <? a - b)
    && Bool.eqb (50 <? Number.of_Z a - Number.of_Z b)%float (50 <? a - b)).
  pose (check := fun a : Z =>
    forallb (check2 a) ((fun i => 0 + Z.of_nat i) <$> seq 0 101)).
  assert (H : check a = true).
  { apply (forallb_range check 0 101); [vm_compute; reflexivity|lia]. }
  assert (H2 : check2 a b = true).
  { apply (forallb_range (check2 a) 0 101 H). lia. }
  unfold check2 in H2. apply andb_true_iff in H2. destruct H2 as [H30 H50].
  apply Bool.eqb_prop in H30, H50. auto.
Qed.

(** C6. [detectAnomalies] returns, and the [engagement_drop] anomalies
    it returns are those of the adjacent pairs [(prev, curr)], in order:
    a pair yields an anomaly at [curr.timestamp] exactly when the
    difference [prev.engagementScore - curr.engagementScore], rounded to
    double precision, exceeds 30, of severity high when it exceeds 50
    and medium otherwise. For whole scores between 0 and 100 the
    difference is exact. Scores 80, 40 give one medium anomaly, scores
    90, 20 one high anomaly. *)
Theorem detectAnomalies_engagement_drop (collection : list Metric64.t)
    (sessionId : string) (prev curr : Metric64.t) (x y : Z) :
  let drop := (engagement_score prev - engagement_score curr)%float in
  (∃ anomalies,
     detectAnomalies collection sessionId = JS.Return anomalies
     ∧ ofType engagement_drop anomalies
       = omap engagementDropOf (adjacentPairs (find collection sessionId)))
  ∧ ((30 <? drop)%float = true ↔ is_Some (engagementDropOf (prev, curr)))
  ∧ (∀ a, engagementDropOf (prev, curr) = Some a →
          anomaly_type a = engagement_drop
          ∧ anomaly_timestamp a = timestamp curr
          ∧ ((50 <? drop)%float = true → severity a = high)
          ∧ ((50 <? drop)%float = false → severity a = medium))
  ∧ (0 ≤ x ≤ 100 → 0 ≤ y ≤ 100 →
     engagement_score prev = Number.of_Z x →
     engagement_score curr = Number.of_Z y →
     (30 <? drop)%float = (30 <? x - y)
     ∧ (50 <? drop)%float = (50 <? x - y))
  ∧ (∃ a, detectAnomalies [scored 1 80; scored 2 40] "s1" = JS.Return [a]
          ∧ anomaly_type a = engagement_drop
          ∧ anomaly_timestamp a = 2 ∧ severity a = medium)
  ∧ (∃ a, detectAnomalies [scored 1 90; scored 2 20] "s1" = JS.Return [a]
          ∧ anomaly_type a = engagement_drop
          ∧ anomaly_timestamp a = 2 ∧ severity a = high).
Proof.
  intros drop. split; [|split; [|split; [|split; [|split]]]].
  - unfold detectAnomalies. rewrite dropLoop64_engagementDrops.
    cbn [mbind JS.Completion_bind].
    destruct (absenceLoop64 (find collection sessionId) 0
                (engagementDrops (find collection sessionId)))
      as (c' & more & -> & Hmore).
    exists (engagementDrops (find collection sessionId) ++ more).
    split; [reflexivity|].
    unfold ofType. rewrite List.filter_app.
    fold (ofType engagement_drop (engagementDrops (find collection sessionId))).
    fold (ofType engagement_drop more).
    rewrite (ofType64_all _ _ (engagementDrops64_type _)).
    rewrite (ofType64_none engagement_drop more).
    + rewrite app_nil_r. reflexivity.
    + eapply Forall_impl; [exact Hmore|].
      intros a Ha. cbn beta in Ha. rewrite Ha. discriminate.
  - unfold engagementDropOf. fold drop.
    destruct (30 <? drop)%float; split; try discriminate; eauto.
    intros [a Ha]. discriminate.
  - intros a Ha. unfold engagementDropOf in Ha. fold drop in Ha.
    destruct (30 <? drop)%float; [|discriminate].
    injection Ha as <-. cbn [anomaly_type anomaly_timestamp severity].
    repeat split; intros H; rewrite H; reflexivity.
  - intros Hx Hy Hprev Hcurr. subst drop. rewrite Hprev, Hcurr.
    apply whole_scores_exact; assumption.
  - eexists. split; [vm_compute; reflexivity|]. repeat split.
  - eexists. split; [vm_compute; reflexivity|]. repeat split.
Qed.

Lemma detectAnomalies_engagement_drop_witness :
  (∃ anomalies a b,
     detectAnomalies
       [scored 1 95; scored 2 35; scored 3 36; scored 4 90; scored 5 50] "s1"
     = JS.Return anomalies
     ∧ ofType engagement_drop anomalies = [a; b]
     ∧ anomaly_timestamp a = 2 ∧ severity a = high
     ∧ anomaly_timestamp b = 5 ∧ severity b = medium)
  ∧ (30 <? 95 - 35)%float = true.
Proof.
  destruct (detectAnomalies_engagement_drop
              [scored 1 95; scored 2 35; scored 3 36; scored 4 90;
               scored 5 50] "s1" (scored 1 95) (scored 2 35) 95 35)
    as ((anomalies & Hrun & Hdrops) & _ & Hsev & Hwhole & _).
  split.
  - exists anomalies. rewrite Hdrops.
    destruct (Hsev _ eq_refl) as (_ & Hts & Hhigh & _).
    eexists _, _. split; [exact Hrun|]. split; [reflexivity|].
    split; [exact Hts|]. split; [apply Hhigh; reflexivity|].
    split; reflexivity.
  - destruct Hwhole as [H30 _]; [lia|lia|reflexivity|reflexivity|].
    exact H30.
Defined.

(** C6 as stated fails: the scores 30.000000000000004 and 1.78e-15 differ
    by more than 30, but their difference rounded to double precision is
    30, and no anomaly is reported. *)
Lemma detectAnomalies_engagement_drop_counterexample :
  let prev := Number.of_Q (30000000000000004 # 10 ^ 15) in
  let curr := Number.of_Q (178 # 10 ^ 17) in
  (30 < Number.value prev - Number.value curr)%Q
  ∧ (prev - curr)%float = 30%float
  ∧ detectAnomalies [scored 1 prev; scored 2 curr] "s1" = JS.Return [].
Proof. cbv zeta. repeat split; vm_compute; reflexivity. Qed.

End AnomalyDrops64.

(** ** Productivity score *)

Section Productivity64.
Import Http Analytics Analytics64.

Lemma float_leb_false_below (a b o : float) :
  (a <=? b)%float = true → (a <=? o)%float = false → (b <=? o)%float = false.
Proof.
  intros Hab Hao. destruct (b <=? o)%float eqn:E; [|reflexivity].
  rewrite (float_leb_trans _ _ _ Hab E) in Hao. discriminate.
Qed.

(** The grade of a weighted sum: the first threshold it reaches. *)
Lemma gradeOf64_thresholds (o : float) :
  ((90 <=? o)%float = true → gradeOf o = A_plus)
  ∧ ((85 <=? o)%float = true → (o <? 90)%float = true → gradeOf o = A)
  ∧ ((80 <=? o)%float = true → (o <? 85)%float = true → gradeOf o = A_minus)
  ∧ ((70 <=? o)%float = true → (o <? 80)%float = true → gradeOf o = B)
  ∧ ((60 <=? o)%float = true → (o <? 70)%float = true → gradeOf o = C)
  ∧ ((60 <=? o)%float = false → gradeOf o = D).
Proof.
  unfold gradeOf.
  repeat split.
  - intros ->. reflexivity.
  - intros H1 H2. rewrite (float_ltb_leb_false o 90 H2), H1. reflexivity.
  - intros H1 H2. rewrite (float_ltb_leb_false o 85 H2).
    rewrite (float_leb_false_below 85 90 o eq_refl (float_ltb_leb_false o 85 H2)), H1.
    reflexivity.
  - intros H1 H2. pose proof (float_ltb_leb_false o 80 H2) as H80.
    pose proof (float_leb_false_below 80 85 o eq_refl H80) as H85.
    pose proof (float_leb_false_below 85 90 o eq_refl H85) as H90.
    rewrite H90, H85, H80, H1. reflexivity.
  - intros H1 H2. pose proof (float_ltb_leb_false o 70 H2) as H70.
    pose proof (float_leb_false_below 70 80 o eq_refl H70) as H80.
    pose proof (float_leb_false_below 80 85 o eq_refl H80) as H85.
    pose proof (float_leb_false_below 85 90 o eq_refl H85) as H90.
    rewrite H90, H85, H80, H70, H1. reflexivity.
  - intros H60.
    pose proof (float_leb_false_below 60 70 o eq_refl H60) as H70.
    pose proof (float_leb_false_below 70 80 o eq_refl H70) as H80.
    pose proof (float_leb_false_below 80 85 o eq_refl H80) as H85.
    pose proof (float_leb_false_below 85 90 o eq_refl H85) as H90.
    rewrite H90, H85, H80, H70, H60. reflexivity.
Qed.

(** C8. For a period of [days > 0] days the handler answers with the
    score. The six sub-scores are: the sessions per day times 20,
    capped at 100; the minutes of study per minute of an hour a day,
    as a percentage capped at 100; the average engagement; the presence
    rate times 100; 100 minus the distraction rate times 100, not below
    0; the highlights and annotations per day times 5, capped at 100.
    The score is their sum with the weights 0.15, 0.20, 0.25, 0.15, 0.15
    and 0.10, added from left to right, every operation rounded to double
    precision. The answer reports the rounded sum, and the grade of the
    sum before rounding: the first of the thresholds 90, 85, 80, 70 and
    60 that it reaches, [D] if it reaches none. With one session a day
    the first sub-score is 20, with five a day it is 100, for periods of
    up to ten years. *)
Theorem productivity_score (days : Z) (sessions : list SessionTimes)
    (engagementData : option EngagementData) (highlights annotations : nat) :
  0 < days →
  let s := subScores days sessions engagementData highlights annotations in
  let o := overall s in
  ∃ p,
    get_productivity_score days sessions engagementData highlights annotations
    = {| status := 200; success := true; message := None; count := None;
         data := Some p |}
    ∧ overall_score p = Number.Math_round o
    ∧ o = (sessionScore s * 0.15 + timeScore s * 0.20
           + engagementScore s * 0.25 + presenceScore s * 0.15
           + focusScore s * 0.15 + activityScore s * 0.10)%float
    ∧ sessionScore s
      = Number.Math_min 100
          (Number.of_Z (Z.of_nat (length sessions)) / Number.of_Z days
           * 20)%float
    ∧ timeScore s
      = Number.Math_min 100
          (totalTime sessions / (Number.of_Z days * 60) * 100)%float
    ∧ engagementScore s = Number.or (engagementData ≫= avg_engagement) 0
    ∧ presenceScore s
      = (Number.or (engagementData ≫= presence_rate) 0 * 100)%float
    ∧ focusScore s
      = Number.Math_max 0
          (100 - Number.or (engagementData ≫= distraction_rate) 0 * 100)%float
    ∧ activityScore s
      = Number.Math_min 100
          (Number.of_Z (Z.of_nat (highlights + annotations))
           / Number.of_Z days * 5)%float
    ∧ (is_nan (sessionScore s) = true
       ∨ (sessionScore s <=? 100)%float = true)
    ∧ (is_nan (timeScore s) = true ∨ (timeScore s <=? 100)%float = true)
    ∧ (is_nan (focusScore s) = true ∨ (0 <=? focusScore s)%float = true)
    ∧ (is_nan (activityScore s) = true
       ∨ (activityScore s <=? 100)%float = true)
    ∧ (days ≤ 3660 →
       (Z.of_nat (length sessions) = days → sessionScore s = 20%float)
       ∧ (Z.of_nat (length sessions) = 5 * days
          → sessionScore s = 100%float))
    ∧ ((90 <=? o)%float = true → grade p = A_plus)
    ∧ ((85 <=? o)%float = true → (o <? 90)%float = true → grade p = A)
    ∧ ((80 <=? o)%float = true → (o <? 85)%float = true
       → grade p = A_minus)
    ∧ ((70 <=? o)%float = true → (o <? 80)%float = true → grade p = B)
    ∧ ((60 <=? o)%float = true → (o <? 70)%float = true → grade p = C)
    ∧ ((60 <=? o)%float = false → grade p = D).
Proof.
  intros Hdays s o. unfold get_productivity_score.
  rewrite (proj2 (Z.leb_gt days 0)) by exact Hdays.
  eexists. split; [reflexivity|].
  cbn [overall_score grade]. fold s. fold o.
  split; [reflexivity|]. split; [reflexivity|].
  do 6 (split; [reflexivity|]).
  split; [apply Math_min_cap; reflexivity|].
  split; [apply Math_min_cap; reflexivity|].
  split; [apply Math_max_floor; reflexivity|].
  split; [apply Math_min_cap; reflexivity|].
  split; [|apply gradeOf64_thresholds].
  intros Hten.
  pose (check := fun n : Z =>
    PrimFloat.Leibniz.eqb
      (Number.Math_min 100 (Number.of_Z n / Number.of_Z n * 20)%float) 20
    && PrimFloat.Leibniz.eqb
         (Number.Math_min 100
            (Number.of_Z (5 * n) / Number.of_Z n * 20)%float) 100).
  assert (H : check days = true).
  { apply (forallb_range check 1 3660); [vm_compute; reflexivity|lia]. }
  unfold check in H. apply andb_true_iff in H. destruct H as [H1 H5].
  apply FloatAxioms.Leibniz.eqb_spec in H1, H5.
  split; intros Hlen; subst s; cbn [sessionScore subScores]; rewrite Hlen;
    assumption.
Qed.

Lemma productivity_score_witness :
  ∃ p,
    get_productivity_score 7 (Examples.completed 7)
      (Some {| avg_engagement := Some 80%float;
               presence_rate := Some 1%float;
               distraction_rate := Some 0%float |}) 14 0
    = {| status := 200; success := true; message := None; count := None;
         data := Some p |}
    ∧ overall_score p = 74%float
    ∧ grade p = B.
Proof.
  destruct (productivity_score 7 (Examples.completed 7)
              (Some {| avg_engagement := Some 80%float;
                       presence_rate := Some 1%float;
                       distraction_rate := Some 0%float |}) 14 0)
    as (p & Hp & Ho & _ & _ & _ & _ & _ & _ & _ & _ & _ & _ & _ & _
        & _ & _ & _ & HB & _).
  - lia.
  - exists p. split; [exact Hp|]. split.
    + rewrite Ho. vm_compute. reflexivity.
    + apply HB; vm_compute; reflexivity.
Defined.

(** C8 as stated fails in two ways. With one completed session on each
    of 7 days the first sub-score is 20, not 100. For a period of 3 days
    with two sessions of one hour, average engagement 50, presence rate
    1, distraction rate 0 and 13 highlights, the exact weighted sum of
    the exact sub-scores is 60, which has the grade [C]; the sum in
    double precision is 59.99999999999999, and the grade reported is
    [D]. *)
Lemma productivity_score_counterexample :
  (∃ p,
     get_productivity_score 7 (Examples.completed 7) None 0 0
     = {| status := 200; success := true; message := None; count := None;
          data := Some p |}
     ∧ session_consistency (components p) = 20%float
     ∧ Spec.sessionFrequency 1 7 7 == 100)%Q
  ∧ (let exact :=
       Analytics.subScores 3 (Examples.completed 2)
         (Some {| Analytics.avg_engagement := Some 50%Q;
                  Analytics.presence_rate := Some 1%Q;
                  Analytics.distraction_rate := Some 0%Q |}) 13 0 in
     let s :=
       subScores 3 (Examples.completed 2)
         (Some {| avg_engagement := Some 50%float;
                  presence_rate := Some 1%float;
                  distraction_rate := Some 0%float |}) 13 0 in
     (Analytics.overall exact == 60)%Q
     ∧ Analytics.gradeOf (Analytics.overall exact) = C
     ∧ (overall s <? 60)%float = true
     ∧ gradeOf (overall s) = D).
Proof.
  split.
  - eexists. split; [vm_compute; reflexivity|].
    split; vm_compute; reflexivity.
  - cbv zeta. repeat split; vm_compute; reflexivity.
Qed.

End Productivity64.

(** ** Page times *)

Section PageTimes64.
Import Session64.

(** The loop of [getPageTimeAnalytics] started from the table [m0]. *)
Lemma pageLoop64
    (body : gmap Z float → Interaction → JS.Completion (gmap Z float))
    (l : list Interaction) :
  (∀ m i d, data i = Some d →
     body m i
     = JS.Return (match Props64.pageOf d with
                  | Some p => <[p := (Number.or (m !! p) 0
                                      + Props64.timeOf d)%float]> m
                  | None => m
                  end)) →
  Forall (fun i => is_Some (data i)) l →
  ∀ m0, ∃ m,
    JS.forEach body l m0 = JS.Return m
    ∧ ∀ p,
        m !! p
        = foldl Props64.book (m0 !! p)
            (Props64.timeOf
               <$> List.filter
                     (fun d => bool_decide (Props64.pageOf d = Some p))
                     (omap data l)).
Proof.
  intros Hbody Hall. induction Hall as [|i l [d Hd] _ IH]; intros m0.
  - exists m0. split; reflexivity.
  - cbn [JS.forEach omap list_omap]. rewrite (Hbody m0 i d Hd), Hd.
    cbn [mbind JS.Completion_bind].
    set (m1 := match Props64.pageOf d with
               | Some p => <[p := (Number.or (m0 !! p) 0
                                   + Props64.timeOf d)%float]> m0
               | None => m0
               end).
    destruct (IH m1) as (m & Hm & Hp). exists m. split; [exact Hm|].
    intros p. rewrite Hp. cbn [List.filter].
    case_bool_decide as Hpage.
    + cbn [fmap list_fmap foldl]. f_equal. subst m1. rewrite Hpage.
      rewrite lookup_insert_eq. reflexivity.
    + f_equal. subst m1.
      destruct (Props64.pageOf d) as [p'|]; [|reflexivity].
      apply lookup_insert_ne. congruence.
Qed.

Lemma foldl_book_Some (v : option float) (ts : list float) :
  is_Some v ∨ ts ≠ [] → is_Some (foldl Props64.book v ts).
Proof.
  revert v. induction ts as [|t ts IH]; intros v [Hv|Hts].
  - exact Hv.
  - congruence.
  - apply IH. left. eexists; reflexivity.
  - apply IH. left. eexists; reflexivity.
Qed.

Lemma timeOn_is_Some (p : Z) (ds : list InteractionData) :
  is_Some (Props64.timeOn p ds)
  ↔ Exists (fun d => Props64.pageOf d = Some p) ds.
Proof.
  unfold Props64.timeOn. induction ds as [|d ds IH].
  - cbn. split; [intros [x Hx]; discriminate|intros H; inversion H].
  - cbn [List.filter]. case_bool_decide as Hpage.
    + split; [intros _; left; exact Hpage|intros _].
      apply foldl_book_Some. right. discriminate.
    + rewrite IH. split; [intros H; right; exact H|].
      intros H. inversion H; [contradiction|assumption].
Qed.

(** [getPageTimeAnalytics], in double precision, books on every page
    the times of the page events of that page, added one after the other
    in the order of the events, and lists no other page. *)
Theorem getPageTimeAnalytics_sums (session : Session64.t) :
  Forall (fun i => is_Some (data i))
    (List.filter (fun i => is_type Session.page_turn i
                           || is_type Session.page_change i)
       (interactions session)) →
  ∃ m,
    getPageTimeAnalytics session = JS.Return m
    ∧ ∀ p,
        m !! p = Props64.timeOn p (Props64.pageEvents session)
        ∧ (is_Some (m !! p)
           ↔ Exists (fun d => Props64.pageOf d = Some p)
               (Props64.pageEvents session)).
Proof.
  intros Hall. unfold getPageTimeAnalytics.
  match goal with
  | |- context [JS.forEach ?b _ ∅] =>
      destruct (pageLoop64 b _ (fun m i d Hd =>
                     ltac:(cbv beta; rewrite Hd;
                           cbv [JS.deref mbind JS.Completion_bind];
                           unfold Props64.pageOf, Props64.timeOf;
                           destruct (JS.truthyZ (from d)); [reflexivity|];
                           destruct (JS.truthyZ (page d)); reflexivity))
                  Hall ∅) as (m & Hm & Hp)
  end.
  exists m. split; [exact Hm|]. intros p.
  fold (Props64.pageEvents session) in Hp.
  rewrite Hp, lookup_empty. fold (Props64.timeOn p (Props64.pageEvents session)).
  split; [reflexivity|apply timeOn_is_Some].
Qed.

Lemma getPageTimeAnalytics_sums_witness :
  ∃ m,
    getPageTimeAnalytics
      {| duration_seconds := 60;
         interactions :=
           [Props64.pageTurn 3 (1 # 10);
            parse_interaction (Examples.webcamSample true false 80 20);
            Props64.pageTurn 4 1; Props64.pageTurn 3 (2 # 10)] |}
    = JS.Return m
    ∧ m !! 3 = Some (Number.of_Q (1 # 10) + Number.of_Q (2 # 10))%float
    ∧ m !! 3 ≠ Some (Number.of_Q (3 # 10))
    ∧ m !! 7 = None.
Proof.
  destruct (getPageTimeAnalytics_sums
      {| duration_seconds := 60;
         interactions :=
           [Props64.pageTurn 3 (1 # 10);
            parse_interaction (Examples.webcamSample true false 80 20);
            Props64.pageTurn 4 1; Props64.pageTurn 3 (2 # 10)] |})
    as (m & Hm & Hp).
  - repeat constructor; eexists; reflexivity.
  - exists m. split; [exact Hm|].
    rewrite (proj1 (Hp 3)), (proj1 (Hp 7)).
    split; [vm_compute; reflexivity|].
    split; [|vm_compute; reflexivity].
    intros H. vm_compute in H. discriminate.
Defined.

End PageTimes64.

(** ** The statistics of the summary *)

Section Summary64.
Import Metric Metric64.

Lemma float_neg_infinity_leb (x : float) :
  is_nan x = false → (neg_infinity <=? x)%float = true.
Proof.
  intros Hx. apply leb_rank; [reflexivity|exact Hx|].
  apply not_nan_Prim2SF in Hx. unfold Order64.rank.
  change (Prim2SF neg_infinity) with (S754_infinity true).
  destruct (Prim2SF x) as [s|[|]| |[|] m e]; try congruence;
    unfold Order64.le, Order64.lt; cbn; first [lia | right; reflexivity].
Qed.

Lemma float_leb_infinity (x : float) :
  is_nan x = false → (x <=? infinity)%float = true.
Proof.
  intros Hx. apply leb_rank; [exact Hx|reflexivity|].
  apply not_nan_Prim2SF in Hx. unfold Order64.rank.
  change (Prim2SF infinity) with (S754_infinity false).
  destruct (Prim2SF x) as [s|[|]| |[|] m e]; try congruence;
    unfold Order64.le, Order64.lt; cbn; first [lia | right; reflexivity].
Qed.

Lemma foldl_Math_max_nan (xs : list float) (acc : float) :
  is_nan (foldl Number.Math_max acc xs) = is_nan acc || existsb is_nan xs.
Proof.
  revert acc. induction xs as [|x xs IH]; intros acc; cbn [foldl existsb].
  - rewrite orb_false_r. reflexivity.
  - rewrite IH, Math_max_nan, orb_assoc. reflexivity.
Qed.

Lemma foldl_Math_min_nan (xs : list float) (acc : float) :
  is_nan (foldl Number.Math_min acc xs) = is_nan acc || existsb is_nan xs.
Proof.
  revert acc. induction xs as [|x xs IH]; intros acc; cbn [foldl existsb].
  - rewrite orb_false_r. reflexivity.
  - rewrite IH, Math_min_nan, orb_assoc. reflexivity.
Qed.

(** The maximum of numbers none of which is [NaN] is at least each of
    them, and is the start value or one of them. *)
Lemma foldl_Math_max_bounds (xs : list float) (acc : float) :
  is_nan acc = false → Forall (fun x => is_nan x = false) xs →
  (acc <=? foldl Number.Math_max acc xs)%float = true
  ∧ Forall (fun x => (x <=? foldl Number.Math_max acc xs)%float = true) xs
  ∧ (foldl Number.Math_max acc xs = acc ∨ foldl Number.Math_max acc xs ∈ xs).
Proof.
  intros Hacc Hxs. revert acc Hacc.
  induction Hxs as [|x xs Hx _ IH]; intros acc Hacc; cbn [foldl].
  - split; [apply float_leb_refl, Hacc|]. split; [constructor|left; reflexivity].
  - assert (Hn : is_nan (Number.Math_max acc x) = false)
      by (rewrite Math_max_nan, Hacc, Hx; reflexivity).
    destruct (IH _ Hn) as (Hle & Hall & Hin).
    destruct (Math_max_cases acc x Hacc Hx) as [[E L]|[E L]];
      rewrite E in *.
    + split; [exact Hle|]. split.
      * constructor; [eapply float_leb_trans; eassumption|exact Hall].
      * destruct Hin as [Hin|Hin]; [left; exact Hin|right; right; exact Hin].
    + split; [eapply float_leb_trans; eassumption|]. split.
      * constructor; [exact Hle|exact Hall].
      * right. destruct Hin as [->|Hin]; [left|right; exact Hin].
Qed.

Lemma foldl_Math_min_bounds (xs : list float) (acc : float) :
  is_nan acc = false → Forall (fun x => is_nan x = false) xs →
  (foldl Number.Math_min acc xs <=? acc)%float = true
  ∧ Forall (fun x => (foldl Number.Math_min acc xs <=? x)%float = true) xs
  ∧ (foldl Number.Math_min acc xs = acc ∨ foldl Number.Math_min acc xs ∈ xs).
Proof.
  intros Hacc Hxs. revert acc Hacc.
  induction Hxs as [|x xs Hx _ IH]; intros acc Hacc; cbn [foldl].
  - split; [apply float_leb_refl, Hacc|]. split; [constructor|left; reflexivity].
  - assert (Hn : is_nan (Number.Math_min acc x) = false)
      by (rewrite Math_min_nan, Hacc, Hx; reflexivity).
    destruct (IH _ Hn) as (Hle & Hall & Hin).
    destruct (Math_min_cases acc x Hacc Hx) as [[E L]|[E L]];
      rewrite E in *.
    + split; [exact Hle|]. split.
      * constructor; [eapply float_leb_trans; eassumption|exact Hall].
      * destruct Hin as [Hin|Hin]; [left; exact Hin|right; right; exact Hin].
    + split; [eapply float_leb_trans; eassumption|]. split.
      * constructor; [exact Hle|exact Hall].
      * right. destruct Hin as [->|Hin]; [left|right; exact Hin].
Qed.

Lemma count64_le (p : Metric64.t → bool) (l : list Metric64.t) :
  (count p l ≤ length l)%nat.
Proof. unfold count. apply List.filter_length_le. Qed.

(** [(count / total) * 100] for a count of at most [total <= 200]
    samples lies between 0 and 100. *)
Lemma rate64_range (c n : nat) :
  (c ≤ n)%nat → (1 ≤ n ≤ 200)%nat →
  Number.between 0 100 (number c / number n * 100)%float.
Proof.
  intros Hc Hn.
  pose (check2 := fun n c : Z =>
    let r := (Number.of_Z c / Number.of_Z n * 100)%float in
    ((0 <=? r) && (r <=? 100))%float).
  pose (check := fun n : Z =>
    forallb (check2 n)
      ((fun i => 0 + Z.of_nat i) <$> seq 0 (Z.to_nat n + 1))).
  assert (H : check (Z.of_nat n) = true).
  { apply (forallb_range check 1 200); [vm_compute; reflexivity|lia]. }
  assert (H2 : check2 (Z.of_nat n) (Z.of_nat c) = true).
  { apply (forallb_range (check2 (Z.of_nat n)) 0
             (Z.to_nat (Z.of_nat n) + 1) H). lia. }
  unfold check2 in H2. apply andb_true_iff in H2. exact H2.
Qed.

(** For a session with at least one sample [getSessionSummary] returns
    a summary. Its counts never exceed [total_datapoints] and its
    timeline has [total_datapoints] entries. [max_engagement] and
    [min_engagement] are [NaN] exactly when a score of the session is;
    otherwise they bound every score of the session and are attained.
    For a session of at most 200 samples [presence_rate] and
    [distraction_rate] lie between 0 and 100. *)
Theorem getSessionSummary_bounds (collection : list Metric64.t)
    (sessionId : string) :
  find collection sessionId ≠ [] →
  let metrics := find collection sessionId in
  ∃ s,
    getSessionSummary collection sessionId = Some s
    ∧ total_datapoints s = length metrics
    ∧ (distraction_count s ≤ total_datapoints s)%nat
    ∧ (poor_posture_count s ≤ total_datapoints s)%nat
    ∧ (eye_strain_alerts s ≤ total_datapoints s)%nat
    ∧ length (engagement_timeline s) = total_datapoints s
    ∧ is_nan (max_engagement s)
      = existsb (fun m => is_nan (engagement_score m)) metrics
    ∧ is_nan (min_engagement s)
      = existsb (fun m => is_nan (engagement_score m)) metrics
    ∧ (Forall (fun m => is_nan (engagement_score m) = false) metrics →
       Forall (fun m =>
                 (min_engagement s <=? engagement_score m)%float = true
                 ∧ (engagement_score m <=? max_engagement s)%float = true)
              metrics
       ∧ Exists (fun m =>
                   (max_engagement s <=? engagement_score m)%float = true)
                metrics
       ∧ Exists (fun m =>
                   (engagement_score m <=? min_engagement s)%float = true)
                metrics)
    ∧ ((length metrics ≤ 200)%nat →
       Number.between 0 100 (presence_rate s)
       ∧ Number.between 0 100 (distraction_rate s)).
Proof.
  intros Hne metrics. subst metrics. unfold getSessionSummary.
  destruct (find collection sessionId) as [|first rest]; [congruence|].
  eexists. split; [reflexivity|].
  cbn [total_datapoints distraction_count poor_posture_count
       eye_strain_alerts engagement_timeline max_engagement min_engagement
       presence_rate distraction_rate].
  split; [reflexivity|].
  do 3 (split; [apply count64_le|]).
  split; [apply length_fmap|].
  assert (Hex : ∀ l : list Metric64.t,
            existsb is_nan (engagement_score <$> l)
            = existsb (fun m => is_nan (engagement_score m)) l).
  { induction l as [|m l IH]; [reflexivity|].
    cbn [fmap list_fmap existsb]. f_equal. exact IH. }
  unfold Number.Math_max_of, Number.Math_min_of.
  split; [rewrite foldl_Math_max_nan, Hex; reflexivity|].
  split; [rewrite foldl_Math_min_nan, Hex; reflexivity|].
  split; [|intros Hlen; split; apply rate64_range;
           solve [apply count64_le | cbn [length] in *; lia]].
  intros Hall.
  assert (Hall' : Forall (fun x => is_nan x = false)
                    (engagement_score <$> first :: rest))
    by (rewrite Forall_fmap; exact Hall).
  destruct (foldl_Math_max_bounds _ neg_infinity eq_refl Hall')
    as (_ & Hmax & Hmaxin).
  destruct (foldl_Math_min_bounds _ infinity eq_refl Hall')
    as (_ & Hmin & Hminin).
  rewrite Forall_fmap in Hmax, Hmin.
  split; [|split].
  - apply Forall_forall. intros m Hin.
    rewrite Forall_forall in Hmax, Hmin. split; [apply Hmin|apply Hmax];
      exact Hin.
  - destruct Hmaxin as [->|Hin].
    + left. apply float_neg_infinity_leb. inversion Hall; assumption.
    + apply list_elem_of_fmap in Hin. destruct Hin as (m & Hm' & Hin).
      apply Exists_exists. exists m. split; [exact Hin|].
      rewrite Hm'. apply float_leb_refl.
      rewrite Forall_forall in Hall. apply Hall, Hin.
  - destruct Hminin as [->|Hin].
    + left. apply float_leb_infinity. inversion Hall; assumption.
    + apply list_elem_of_fmap in Hin. destruct Hin as (m & Hm' & Hin).
      apply Exists_exists. exists m. split; [exact Hin|].
      rewrite Hm'. apply float_leb_refl.
      rewrite Forall_forall in Hall. apply Hall, Hin.
Qed.

(** Three samples with the score 60.2: the summary takes 60.2 as the
    maximum, and the average, 60.20000000000001 in double precision,
    lies above it. *)
Lemma getSessionSummary_bounds_witness :
  let score := Number.of_Q (602 # 10) in
  ∃ s,
    getSessionSummary
      [Anomalies64.scored 1 score; Anomalies64.scored 2 score;
       Anomalies64.scored 3 score] "s1" = Some s
    ∧ total_datapoints s = 3%nat
    ∧ max_engagement s = score
    ∧ (max_engagement s <? avg_engagement s)%float = true.
Proof.
  intros score.
  destruct (getSessionSummary_bounds
              [Anomalies64.scored 1 score; Anomalies64.scored 2 score;
               Anomalies64.scored 3 score] "s1")
    as (s & Hs & Htotal & _).
  - discriminate.
  - exists s. split; [exact Hs|]. split; [exact Htotal|].
    vm_compute in Hs. injection Hs as <-.
    split; vm_compute; reflexivity.
Defined.

End Summary64.

(** ** Blink-rate compliance: range and level sets *)

Section ComplianceShape64.
Import NLPService64.

(** For the whole rates from -1000 to 1000 the compliance lies between
    0 and 100, is the same at equal distances from 20, is 100 exactly
    on the rates from 15 to 25 and 0 exactly on the rates up to -35 and
    from 75. The double just below 15 also has the compliance 100. *)
Theorem blinkCompliance_shape (n : Z) :
  -1000 ≤ n ≤ 1000 →
  let f := fun k : Z => _calculateBlinkCompliance (Number.of_Z k) in
  Number.between 0 100 (f n)
  ∧ f (40 - n) = f n
  ∧ (f n = 100%float ↔ 15 ≤ n ≤ 25)
  ∧ (f n = 0%float ↔ n ≤ -35 ∨ 75 ≤ n)
  ∧ (next_down 15 <? 15)%float = true
  ∧ _calculateBlinkCompliance (next_down 15) = 100%float.
Proof.
  intros Hn f.
  pose (check := fun n : Z =>
    (0 <=? f n)%float && (f n <=? 100)%float
    && PrimFloat.Leibniz.eqb (f (40 - n)) (f n)
    && Bool.eqb (PrimFloat.Leibniz.eqb (f n) 100) ((15 <=? n) && (n <=? 25))
    && Bool.eqb (PrimFloat.Leibniz.eqb (f n) 0) ((n <=? -35) || (75 <=? n))).
  assert (H : check n = true).
  { apply (forallb_range check (-1000) 2001); [vm_compute; reflexivity|lia]. }
  unfold check in H.
  repeat (apply andb_true_iff in H; destruct H as [H ?]).
  repeat match goal with
         | H : Bool.eqb _ _ = true |- _ => apply Bool.eqb_prop in H
         end.
  split; [split; assumption|].
  split; [apply FloatAxioms.Leibniz.eqb_spec; assumption|].
  split; [|split; [|split; vm_compute; reflexivity]].
  - rewrite <- FloatAxioms.Leibniz.eqb_spec.
    match goal with H : PrimFloat.Leibniz.eqb (f n) 100 = _ |- _ =>
      rewrite H end.
    rewrite andb_true_iff, !Z.leb_le. reflexivity.
  - rewrite <- FloatAxioms.Leibniz.eqb_spec.
    match goal with H : PrimFloat.Leibniz.eqb (f n) 0 = _ |- _ =>
      rewrite H end.
    rewrite orb_true_iff, !Z.leb_le. reflexivity.
Qed.

Lemma blinkCompliance_shape_witness :
  Number.between 0 100 (_calculateBlinkCompliance 42)
  ∧ _calculateBlinkCompliance (-2) = _calculateBlinkCompliance 42
  ∧ _calculateBlinkCompliance 42 ≠ 100%float.
Proof.
  destruct (blinkCompliance_shape 42) as (Hrange & Hsym & H100 & _);
    [lia|].
  split; [exact Hrange|]. split; [exact Hsym|].
  intros H. apply H100 in H. lia.
Defined.

End ComplianceShape64.

(** ** The two readings of the aggregation *)

Section Readings.
Import Session.

Lemma filter_parse (ty : InteractionType) (l : list Interaction) :
  List.filter (Session64.is_type ty) (Session64.parse_interaction <$> l)
  = Session64.parse_interaction <$> List.filter (is_type ty) l.
Proof.
  induction l as [|i l IH]; [reflexivity|].
  cbn [fmap list_fmap List.filter].
  change (Session64.is_type ty (Session64.parse_interaction i))
    with (is_type ty i).
  destruct (is_type ty i); cbn [fmap list_fmap]; rewrite IH; reflexivity.
Qed.

Lemma filter_parse_pages (l : list Interaction) :
  List.filter (fun i => Session64.is_type page_turn i
                        || Session64.is_type page_change i)
    (Session64.parse_interaction <$> l)
  = Session64.parse_interaction
      <$> List.filter (fun i => is_type page_turn i || is_type page_change i)
            l.
Proof.
  induction l as [|i l IH]; [reflexivity|].
  cbn [fmap list_fmap List.filter].
  change (Session64.is_type page_turn (Session64.parse_interaction i))
    with (is_type page_turn i).
  change (Session64.is_type page_change (Session64.parse_interaction i))
    with (is_type page_change i).
  destruct (is_type page_turn i || is_type page_change i);
    cbn [fmap list_fmap]; rewrite IH; reflexivity.
Qed.

(** The two loops over the webcam interactions fail together, and
    count the same. *)
Lemma aggregate_readings (l : list Interaction)
    (acc : NLPService.Aggregation) (acc64 : NLPService64.Aggregation) :
  NLPService.distractionCount acc = NLPService64.distractionCount acc64 →
  NLPService.phoneDetectedFlag acc = NLPService64.phoneDetectedFlag acc64 →
  match JS.forEach NLPService.aggregate l acc,
        JS.forEach NLPService64.aggregate
          (Session64.parse_interaction <$> l) acc64 with
  | JS.Return a, JS.Return a64 =>
      NLPService.distractionCount a = NLPService64.distractionCount a64
  | JS.Throw e, JS.Throw e64 => e = e64
  | _, _ => False
  end.
Proof.
  revert acc acc64. induction l as [|i l IH]; intros acc acc64 Hc Hf.
  - exact Hc.
  - cbn [fmap list_fmap JS.forEach].
    destruct (data i) as [d|] eqn:Hd.
    + destruct (aggregate_data acc i d Hd)
        as (a & -> & _ & _ & _ & Hc1 & Hf1).
      destruct (aggregate64_data acc64 (Session64.parse_interaction i)
                  (Session64.parse_data d))
        as (a64 & -> & _ & _ & _ & Hc2 & Hf2).
      { cbn [Session64.parse_interaction Session64.data]. rewrite Hd.
        reflexivity. }
      cbn [mbind JS.Completion_bind]. apply IH.
      * rewrite Hc1, Hc2, Hc, Hf. reflexivity.
      * rewrite Hf1, Hf2. reflexivity.
    + rewrite (aggregate_no_data acc i Hd).
      rewrite (aggregate64_no_data acc64 (Session64.parse_interaction i));
        [reflexivity|].
      cbn [Session64.parse_interaction Session64.data]. rewrite Hd.
      reflexivity.
Qed.

Lemma is_Some_insert {A : Type} (m : gmap Z A) (p q : Z) (x : A) :
  is_Some (<[p := x]> m !! q) ↔ p = q ∨ is_Some (m !! q).
Proof.
  destruct (decide (p = q)) as [->|Hne].
  - rewrite lookup_insert_eq. split; [auto|intros _; eexists; reflexivity].
  - rewrite lookup_insert_ne by exact Hne. split; [auto|].
    intros [?|?]; [contradiction|assumption].
Qed.

(** The two page tables fail together, and list the same pages. *)
Lemma pageLoop_readings (l : list Interaction)
    (m0 : gmap Z Q) (m064 : gmap Z float) :
  (∀ p, is_Some (m0 !! p) ↔ is_Some (m064 !! p)) →
  match
    JS.forEach
      (fun (pageTime : gmap Z Q) change =>
         d ← JS.deref (data change);
         let page := match JS.truthyZ (from d) with
                     | Some p => Some p
                     | None => JS.truthyZ (page d)
                     end in
         let time := match time_spent d with
                     | Some x =>
                         if Qeq_bool x 0 then JS.or0 (duration d) else x
                     | None => JS.or0 (duration d)
                     end in
         match page with
         | Some p =>
             mret (<[p := (JS.or0 (pageTime !! p) + time)%Q]> pageTime)
         | None => mret pageTime
         end) l m0,
    JS.forEach
      (fun (pageTime : gmap Z float) change =>
         d ← JS.deref (Session64.data change);
         let page := match JS.truthyZ (Session64.from d) with
                     | Some p => Some p
                     | None => JS.truthyZ (Session64.page d)
                     end in
         let time :=
           Number.or (Session64.time_spent d)
             (Number.or (Session64.duration d) 0) in
         match page with
         | Some p =>
             mret (<[p := (Number.or (pageTime !! p) 0 + time)%float]>
                     pageTime)
         | None => mret pageTime
         end) (Session64.parse_interaction <$> l) m064
  with
  | JS.Return m, JS.Return m64 => ∀ p, is_Some (m !! p) ↔ is_Some (m64 !! p)
  | JS.Throw e, JS.Throw e64 => e = e64
  | _, _ => False
  end.
Proof.
  revert m0 m064. induction l as [|i l IH]; intros m0 m064 Hdom.
  - exact Hdom.
  - cbn [fmap list_fmap JS.forEach].
    cbn [Session64.parse_interaction Session64.data].
    destruct (data i) as [d|];
      cbn [fmap option_fmap option_map JS.deref mbind JS.Completion_bind
           Session64.parse_data Session64.from Session64.page];
      [|reflexivity].
    destruct (match JS.truthyZ (from d) with
              | Some p => Some p
              | None => JS.truthyZ (page d)
              end) as [p|];
      cbn [mret JS.Completion_ret mbind JS.Completion_bind]; apply IH;
      [|exact Hdom].
    intros q. rewrite !is_Some_insert, Hdom. reflexivity.
Qed.

Lemma size_same_pages {A B : Type} (m : gmap Z A) (m' : gmap Z B) :
  (∀ p, is_Some (m !! p) ↔ is_Some (m' !! p)) → size m = size m'.
Proof.
  intros H. rewrite <- (size_dom m), <- (size_dom m'). f_equal.
  apply set_eq. intros p. rewrite !elem_of_dom. apply H.
Qed.

Lemma getPageTimeAnalytics_readings (session : Session.t) :
  match getPageTimeAnalytics session,
        Session64.getPageTimeAnalytics (Session64.parse session) with
  | JS.Return m, JS.Return m64 => ∀ p, is_Some (m !! p) ↔ is_Some (m64 !! p)
  | JS.Throw e, JS.Throw e64 => e = e64
  | _, _ => False
  end.
Proof.
  unfold getPageTimeAnalytics, Session64.getPageTimeAnalytics.
  cbn [Session64.parse Session64.interactions]. rewrite filter_parse_pages.
  apply pageLoop_readings. intros p. rewrite !lookup_empty.
  split; intros [x Hx]; discriminate.
Qed.

Lemma webcamMetrics_parse (session : Session.t) :
  NLPService64.webcamMetrics (Session64.parse session)
  = Session64.parse_interaction <$> NLPService.webcamMetrics session.
Proof. apply filter_parse. Qed.

(** The exact reading and the double-precision reading of
    [calculateFinalMetrics], the second on the document stored for the
    numerals of the first, fail together and agree on everything that is
    counted: the distraction count, the duration, the number of samples,
    the number of highlights and the pages visited. *)
Theorem calculateFinalMetrics_readings (db : gmap string Session.t)
    (sessionId : string) :
  match NLPService.calculateFinalMetrics db sessionId,
        NLPService64.calculateFinalMetrics (Session64.parse <$> db) sessionId
  with
  | JS.Return NLPService.EmptyObject, JS.Return NLPService64.EmptyObject =>
      db !! sessionId = None
  | JS.Return (NLPService.Metrics m), JS.Return (NLPService64.Metrics m64) =>
      distractionCount m = Session64.distractionCount m64
      ∧ durationSeconds m = Session64.durationSeconds m64
      ∧ totalMetricsRecorded m = Session64.totalMetricsRecorded m64
      ∧ match documentMetrics m, Session64.documentMetrics m64 with
        | Some d, Some d64 =>
            totalHighlights d = Session64.totalHighlights d64
            ∧ pagesVisited d = Session64.pagesVisited d64
            ∧ ∀ p, is_Some (pageTimeAnalytics d !! p)
                   ↔ is_Some (Session64.pageTimeAnalytics d64 !! p)
        | None, None => True
        | _, _ => False
        end
  | JS.Throw e, JS.Throw e64 => e = e64
  | _, _ => False
  end.
Proof.
  unfold NLPService.calculateFinalMetrics, NLPService64.calculateFinalMetrics.
  rewrite lookup_fmap.
  destruct (db !! sessionId) as [session|]; [|reflexivity].
  cbn [fmap option_fmap option_map].
  rewrite webcamMetrics_parse, !length_fmap.
  destruct (length (NLPService.webcamMetrics session) =? 0)%nat.
  { cbn. repeat split. }
  pose proof (aggregate_readings (NLPService.webcamMetrics session)
                NLPService.initial NLPService64.initial eq_refl eq_refl)
    as Hagg.
  destruct (JS.forEach NLPService.aggregate _ NLPService.initial)
    as [acc|e];
    destruct (JS.forEach NLPService64.aggregate _ NLPService64.initial)
      as [acc64|e64]; try contradiction; [|exact Hagg].
  cbn [mbind JS.Completion_bind].
  pose proof (getPageTimeAnalytics_readings session) as Hpages.
  destruct (getPageTimeAnalytics session) as [m|e];
    destruct (Session64.getPageTimeAnalytics (Session64.parse session))
      as [m64|e64]; try contradiction; [|exact Hpages].
  cbn [mbind JS.Completion_bind mret JS.Completion_ret
       distractionCount durationSeconds totalMetricsRecorded documentMetrics
       Session64.distractionCount Session64.durationSeconds
       Session64.totalMetricsRecorded Session64.documentMetrics
       totalHighlights pagesVisited pageTimeAnalytics
       Session64.totalHighlights Session64.pagesVisited
       Session64.pageTimeAnalytics].
  split; [exact Hagg|]. split; [reflexivity|]. split; [reflexivity|].
  split; [|split; [apply size_same_pages; exact Hpages|exact Hpages]].
  cbn [Session64.parse Session64.interactions].
  rewrite filter_parse, length_fmap. reflexivity.
Qed.

End Readings.

(** ** The two readings of the samples *)

Section SampleReadings.
Import Metric.

Lemma filter_fmap_parse {A B : Type} (f : A → B) (p : B → bool)
    (q : A → bool) (l : list A) :
  (∀ a, p (f a) = q a) →
  List.filter p (f <$> l) = f <$> List.filter q l.
Proof.
  intros H. induction l as [|a l IH]; [reflexivity|].
  cbn [fmap list_fmap List.filter]. rewrite H.
  destruct (q a); cbn [fmap list_fmap]; rewrite IH; reflexivity.
Qed.

Lemma find_parse (collection : list Metric.t) (sessionId : string) :
  Metric64.find (Metric64.parse <$> collection) sessionId
  = Metric64.parse <$> Metric.find collection sessionId.
Proof. apply filter_fmap_parse. reflexivity. Qed.

Lemma absenceStep64_absent (c : Z) (acc : list Metric64.Anomaly)
    (m : Metric64.t) :
  Metric64.presence_detected m = false →
  Metric64.absenceStep (c, acc) m
  = JS.Return
      (c + 1,
       if c + 1 =? 5
       then acc ++ [{| Metric64.anomaly_type := prolonged_absence;
                       Metric64.anomaly_timestamp := Metric64.timestamp m;
                       Metric64.severity := high;
                       Metric64.details :=
                         Metric64.Student_absent_for_extended_period |}]
       else acc).
Proof.
  intros Hm. unfold Metric64.absenceStep. rewrite Hm. cbn [negb].
  destruct (c + 1 =? 5); reflexivity.
Qed.

Lemma absenceStep64_present (c : Z) (acc : list Metric64.Anomaly)
    (m : Metric64.t) :
  Metric64.presence_detected m = true →
  Metric64.absenceStep (c, acc) m = JS.Return (0, acc).
Proof. intros Hm. unfold Metric64.absenceStep. rewrite Hm. reflexivity. Qed.

Lemma absenceStep_present (c : Z) (acc : list Anomaly) (m : Metric.t) :
  presence_detected m = true →
  absenceStep (c, acc) m = JS.Return (0, acc).
Proof. intros Hm. unfold absenceStep. rewrite Hm. reflexivity. Qed.

(** The two loops that count consecutive absent samples report at the
    same samples. *)
Lemma absenceLoop_readings (l : list Metric.t) (c : Z)
    (acc : list Anomaly) (acc64 : list Metric64.Anomaly) :
  ∃ c' more more64,
    JS.forEach absenceStep l (c, acc) = JS.Return (c', acc ++ more)
    ∧ JS.forEach Metric64.absenceStep (Metric64.parse <$> l) (c, acc64)
      = JS.Return (c', acc64 ++ more64)
    ∧ Forall (fun a => anomaly_type a = prolonged_absence) more
    ∧ Forall (fun a => Metric64.anomaly_type a = prolonged_absence) more64
    ∧ anomaly_timestamp <$> more = Metric64.anomaly_timestamp <$> more64.
Proof.
  revert c acc acc64. induction l as [|m l IH]; intros c acc acc64.
  - exists c, [], []. rewrite !app_nil_r. repeat split; constructor.
  - cbn [fmap list_fmap JS.forEach].
    destruct (presence_detected m) eqn:Hm.
    + rewrite (absenceStep_present c acc m Hm).
      rewrite (absenceStep64_present c acc64 (Metric64.parse m) Hm).
      cbn [mbind JS.Completion_bind]. apply IH.
    + rewrite (absenceStep_absent c acc m Hm).
      rewrite (absenceStep64_absent c acc64 (Metric64.parse m) Hm).
      cbn [mbind JS.Completion_bind].
      destruct (c + 1 =? 5); [|apply IH].
      destruct (IH (c + 1) (acc ++ [Spec.prolongedAbsenceAt m])
                  (acc64 ++ [{| Metric64.anomaly_type := prolonged_absence;
                                Metric64.anomaly_timestamp :=
                                  Metric64.timestamp (Metric64.parse m);
                                Metric64.severity := high;
                                Metric64.details :=
                                  Metric64.Student_absent_for_extended_period
                             |}]))
        as (c' & more & more64 & H1 & H2 & Ht1 & Ht2 & Hts).
      eexists c', (_ :: more), (_ :: more64).
      rewrite H1, H2, <- !app_assoc.
      split; [reflexivity|]. split; [reflexivity|].
      split; [constructor; [reflexivity|exact Ht1]|].
      split; [constructor; [reflexivity|exact Ht2]|].
      cbn [fmap list_fmap]. rewrite Hts. reflexivity.
Qed.

(** The exact reading and the double-precision reading of
    [detectAnomalies] both return, and report prolonged absences at the
    same samples. *)
Theorem detectAnomalies_readings (collection : list Metric.t)
    (sessionId : string) :
  ∃ a a64,
    detectAnomalies collection sessionId = JS.Return a
    ∧ Metric64.detectAnomalies (Metric64.parse <$> collection) sessionId
      = JS.Return a64
    ∧ anomaly_timestamp <$> Spec.ofType prolonged_absence a
      = Metric64.anomaly_timestamp
          <$> Anomalies64.ofType prolonged_absence a64.
Proof.
  unfold detectAnomalies, Metric64.detectAnomalies.
  rewrite find_parse, dropLoop_engagementDrops, dropLoop64_engagementDrops.
  cbn [mbind JS.Completion_bind].
  destruct (absenceLoop_readings (find collection sessionId) 0
              (Spec.engagementDrops (find collection sessionId))
              (Anomalies64.engagementDrops
                 (Metric64.parse <$> find collection sessionId)))
    as (c' & more & more64 & -> & -> & Ht1 & Ht2 & Hts).
  eexists _, _. split; [reflexivity|]. split; [reflexivity|].
  cbn [snd].
  rewrite ofType_app. unfold Anomalies64.ofType at 1.
  rewrite List.filter_app.
  fold (Anomalies64.ofType prolonged_absence
          (Anomalies64.engagementDrops
             (Metric64.parse <$> find collection sessionId))).
  fold (Anomalies64.ofType prolonged_absence more64).
  rewrite (ofType_none prolonged_absence (Spec.engagementDrops _)),
    (ofType64_none prolonged_absence (Anomalies64.engagementDrops _)).
  - rewrite (ofType_all _ _ Ht1), (ofType64_all _ _ Ht2). exact Hts.
  - eapply Forall_impl; [apply engagementDrops64_type|].
    intros a Ha. cbn beta in Ha. rewrite Ha. discriminate.
  - eapply Forall_impl; [apply engagementDrops_type|].
    intros a Ha. cbn beta in Ha. rewrite Ha. discriminate.
Qed.

Lemma foldl_fmap_parse {A B C : Type} (f : A → B) (g : C → B → C)
    (c : C) (l : list A) :
  foldl g c (f <$> l) = foldl (fun acc a => g acc (f a)) c l.
Proof.
  revert c. induction l as [|a l IH]; intros c; [reflexivity|].
  cbn [fmap list_fmap foldl]. apply IH.
Qed.

Lemma count_parse (p64 : Metric64.t → bool) (p : Metric.t → bool)
    (l : list Metric.t) :
  (∀ m, p64 (Metric64.parse m) = p m) →
  Metric64.count p64 (Metric64.parse <$> l) = count p l.
Proof.
  intros H. unfold Metric64.count, count.
  rewrite (filter_fmap_parse _ _ p l H), length_fmap. reflexivity.
Qed.

(** The exact reading and the double-precision reading of
    [getSessionSummary] return a summary for the same sessions, with the
    same counts, distraction types, emotion table and timeline
    instants. *)
Theorem getSessionSummary_readings (collection : list Metric.t)
    (sessionId : string) :
  match getSessionSummary collection sessionId,
        Metric64.getSessionSummary (Metric64.parse <$> collection) sessionId
  with
  | Some s, Some s64 =>
      total_datapoints s = Metric64.total_datapoints s64
      ∧ distraction_count s = Metric64.distraction_count s64
      ∧ distraction_types s = Metric64.distraction_types s64
      ∧ poor_posture_count s = Metric64.poor_posture_count s64
      ∧ eye_strain_alerts s = Metric64.eye_strain_alerts s64
      ∧ emotion_distribution s = Metric64.emotion_distribution s64
      ∧ (engagement_timeline s).*1 = (Metric64.engagement_timeline s64).*1
  | None, None => find collection sessionId = []
  | _, _ => False
  end.
Proof.
  unfold getSessionSummary, Metric64.getSessionSummary.
  rewrite find_parse.
  destruct (find collection sessionId) as [|first rest]; [reflexivity|].
  set (l := first :: rest).
  change (Metric64.parse <$> l)
    with (Metric64.parse first :: (Metric64.parse <$> rest)).
  cbv iota. fold (Metric64.parse <$> l).
  cbn [total_datapoints distraction_count distraction_types
       poor_posture_count eye_strain_alerts emotion_distribution
       engagement_timeline Metric64.total_datapoints
       Metric64.distraction_count Metric64.distraction_types
       Metric64.poor_posture_count Metric64.eye_strain_alerts
       Metric64.emotion_distribution Metric64.engagement_timeline].
  change (Metric64.parse first :: (Metric64.parse <$> rest))
    with (Metric64.parse <$> l).
  split; [rewrite length_fmap; reflexivity|].
  split; [symmetry; apply count_parse; reflexivity|].
  split.
  { f_equal.
    rewrite (filter_fmap_parse Metric64.parse _ distraction_detected l)
      by reflexivity.
    rewrite <- list_fmap_compose. reflexivity. }
  split; [symmetry; apply count_parse; reflexivity|].
  split; [symmetry; apply count_parse; reflexivity|].
  split; [rewrite foldl_fmap_parse; reflexivity|].
  rewrite <- !list_fmap_compose. reflexivity.
Qed.

End SampleReadings.
